(** * CipherVault: the encrypted keystore and key life cycle

    A shallow embedding of [py.projects/cipher-vault/after/vault.py]:
    master-key derivation, the keystore envelope, user registration and
    authentication, the cipher dispatch and algorithm rotation.

    Python values are an inductive type, exceptions a result type, and the
    files, terminal, clock and random source a [World] record threaded through
    a state-and-exception monad.  The cryptographic and serialisation
    libraries the program calls (Fernet, ChaCha20-Poly1305, PBKDF2, SHA-256,
    json) are operations of a class [Primitives]; what the proofs use of them
    is stated in [PrimitiveLaws] and [PerfectCrypto], and [Model] builds an
    instance of all of them.  base64 and UTF-8 validity are written out. *)

From Stdlib Require Import ZArith NArith List String Ascii Bool Lia.
From Stdlib Require Import Strings.Byte.
From stdpp Require Import base list strings countable pretty.

Open Scope string_scope.
Open Scope list_scope.

#[global] Set Warnings "-register-all".

(* ====================================================================== *)
(** * The program *)
(* ====================================================================== *)

(** Python [bytes]; a Python [str] is the Rocq [string] holding its UTF-8
    encoding. *)
Abbreviation bytes := (list byte).

(* ===================================================================== *)
(** ** Python values, exceptions *)
(* ===================================================================== *)

Inductive exn_class :=
| InvalidToken        (* cryptography.fernet.InvalidToken *)
| InvalidTag          (* cryptography.exceptions.InvalidTag *)
| ValueError
| BinasciiError       (* binascii.Error, a ValueError *)
| UnicodeDecodeError  (* a ValueError *)
| JSONDecodeError     (* json.JSONDecodeError, a ValueError *)
| KeyError
| TypeError
| AttributeError
| IndexError
| EOFError
| OSError.

(** An exception: its class and [str(e)].  The texts of exceptions raised
    inside libraries are representative. *)
Record exn := Exn { exn_cls : exn_class; exn_msg : string }.

(** [isinstance(e, ValueError)], as [except ValueError] tests it. *)
Definition is_ValueError (e : exn) : bool :=
  match exn_cls e with
  | ValueError | BinasciiError | UnicodeDecodeError | JSONDecodeError => true
  | _ => false
  end.

(** [isinstance(e, InvalidToken)]. *)
Definition is_InvalidToken (e : exn) : bool :=
  match exn_cls e with InvalidToken => true | _ => false end.

Inductive result (A : Type) :=
| Ok (a : A)
| Raise (e : exn).
Arguments Ok {A} a.
Arguments Raise {A} e.

(** The values [json] reads and writes.  A [dict] keeps insertion order, so it
    is an association list; [dict_set] never makes a key occur twice. *)
Inductive value :=
| VNone
| VBool (b : bool)
| VInt (n : Z)
| VStr (s : string)
| VList (l : list value)
| VDict (d : list (string * value)).

Abbreviation dict := (list (string * value)).

Fixpoint dict_get (k : string) (d : dict) : option value :=
  match d with
  | [] => None
  | (k', v) :: d' => if String.eqb k k' then Some v else dict_get k d'
  end.

(** [d[k] = v]: an existing key keeps its place, a new one goes last. *)
Fixpoint dict_set (k : string) (v : value) (d : dict) : dict :=
  match d with
  | [] => [(k, v)]
  | (k', v') :: d' =>
      if String.eqb k k' then (k, v) :: d' else (k', v') :: dict_set k v d'
  end.

(** [bool(v)]. *)
Definition truthy (v : value) : bool :=
  match v with
  | VNone => false
  | VBool b => b
  | VInt n => negb (n =? 0)%Z
  | VStr s => negb (String.eqb s "")
  | VList l => match l with [] => false | _ => true end
  | VDict d => match d with [] => false | _ => true end
  end.

(** [v == s] for a [str] [s]. *)
Definition eq_str (v : value) (s : string) : bool :=
  match v with
  | VStr s' => String.eqb s' s
  | _ => false
  end.

Definition type_name (v : value) : string :=
  match v with
  | VNone => "NoneType"
  | VBool _ => "bool"
  | VInt _ => "int"
  | VStr _ => "str"
  | VList _ => "list"
  | VDict _ => "dict"
  end.

Definition attribute_error {A} (v : value) (attr : string) : result A :=
  Raise (Exn AttributeError
           ("'" +:+ type_name v +:+ "' object has no attribute '" +:+ attr +:+ "'")).

(** [v.get(k, default)]. *)
Definition py_get (v : value) (k : string) (default : value) : result value :=
  match v with
  | VDict d => Ok (match dict_get k d with Some x => x | None => default end)
  | _ => attribute_error v "get"
  end.

(** [v.get(k)]. *)
Definition py_get1 (v : value) (k : string) : result value :=
  py_get v k VNone.

(** [v.items()]. *)
Definition py_items (v : value) : result dict :=
  match v with
  | VDict d => Ok d
  | _ => attribute_error v "items"
  end.

(** [sub in s] for two [str]. *)
Fixpoint is_substring (sub s : string) : bool :=
  String.prefix sub s
  || match s with
     | EmptyString => false
     | String _ s' => is_substring sub s'
     end.

(** [k in v] for a [str] [k]. *)
Definition py_contains (k : string) (v : value) : result bool :=
  match v with
  | VDict d => Ok (match dict_get k d with Some _ => true | None => false end)
  | VList l => Ok (existsb (fun x => eq_str x k) l)
  | VStr s => Ok (is_substring k s)
  | _ => Raise (Exn TypeError
                  ("argument of type '" +:+ type_name v +:+ "' is not iterable"))
  end.

(** [v[k]] for a [str] [k]. *)
Definition py_getitem (v : value) (k : string) : result value :=
  match v with
  | VDict d =>
      match dict_get k d with
      | Some x => Ok x
      | None => Raise (Exn KeyError ("'" +:+ k +:+ "'"))
      end
  | VList _ => Raise (Exn TypeError "list indices must be integers or slices, not str")
  | VStr _ => Raise (Exn TypeError "string indices must be integers, not 'str'")
  | _ => Raise (Exn TypeError ("'" +:+ type_name v +:+ "' object is not subscriptable"))
  end.

(** [v[k] = x] for a [str] [k]. *)
Definition py_setitem (v : value) (k : string) (x : value) : result value :=
  match v with
  | VDict d => Ok (VDict (dict_set k x d))
  | VList _ => Raise (Exn TypeError "list indices must be integers or slices, not str")
  | _ => Raise (Exn TypeError
                  ("'" +:+ type_name v +:+ "' object does not support item assignment"))
  end.

(** [v.append(x)]. *)
Definition py_append (v : value) (x : value) : result value :=
  match v with
  | VList l => Ok (VList (l ++ [x]))
  | _ => attribute_error v "append"
  end.

(** A value [json] can hold: no key occurs twice in a [dict]. *)
Fixpoint unique_keys (d : dict) : bool :=
  match d with
  | [] => true
  | (k, _) :: d' =>
      match dict_get k d' with
      | None => unique_keys d'
      | Some _ => false
      end
  end.

Fixpoint wf (v : value) : bool :=
  match v with
  | VList l => forallb wf l
  | VDict d => unique_keys d && forallb (fun kv => wf (snd kv)) d
  | _ => true
  end.

(** [v.encode('utf-8')]. *)
Definition py_encode (v : value) : result bytes :=
  match v with
  | VStr s => Ok (list_byte_of_string s)
  | _ => attribute_error v "encode"
  end.

(* ===================================================================== *)
(** ** UTF-8 *)
(* ===================================================================== *)

Module Utf8.

Definition between (lo hi : N) (b : byte) : bool :=
  ((lo <=? Byte.to_N b) && (Byte.to_N b <=? hi))%N.

Definition cont (b : byte) : bool := between 0x80 0xBF b.

(** Well-formed UTF-8 (RFC 3629): what the strict decoder accepts. *)
Fixpoint valid (b : bytes) : bool :=
  match b with
  | [] => true
  | b0 :: r0 =>
      if between 0x00 0x7F b0 then valid r0
      else
        match r0 with
        | [] => false
        | b1 :: r1 =>
            if between 0xC2 0xDF b0 then cont b1 && valid r1
            else
              match r1 with
              | [] => false
              | b2 :: r2 =>
                  if between 0xE0 0xE0 b0 then between 0xA0 0xBF b1 && cont b2 && valid r2
                  else if between 0xE1 0xEC b0 then cont b1 && cont b2 && valid r2
                  else if between 0xED 0xED b0 then between 0x80 0x9F b1 && cont b2 && valid r2
                  else if between 0xEE 0xEF b0 then cont b1 && cont b2 && valid r2
                  else
                    match r2 with
                    | [] => false
                    | b3 :: r3 =>
                        if between 0xF0 0xF0 b0
                        then between 0x90 0xBF b1 && cont b2 && cont b3 && valid r3
                        else if between 0xF1 0xF3 b0
                        then cont b1 && cont b2 && cont b3 && valid r3
                        else if between 0xF4 0xF4 b0
                        then between 0x80 0x8F b1 && cont b2 && cont b3 && valid r3
                        else false
                    end
              end
        end
  end.

(** [b.decode('utf-8')]. *)
Definition decode (b : bytes) : result string :=
  if valid b then Ok (string_of_list_byte b)
  else Raise (Exn UnicodeDecodeError "'utf-8' codec can't decode bytes")%string.

(** [s.encode('utf-8')]. *)
Definition encode (s : string) : bytes := list_byte_of_string s.

(** A text: a [str] Python can hold and encode. *)
Definition text (s : string) : Prop := valid (encode s) = true.

Definition is_ascii (b : byte) : bool := between 0x00 0x7F b.

(** Printable and not a blank: U+0021 to U+007E. *)
Definition is_graphic (b : byte) : bool := between 0x21 0x7E b.

End Utf8.

(* ===================================================================== *)
(** ** base64, as [binascii] and [base64] implement it *)
(* ===================================================================== *)

Module Base64.

Definition byte_of_N (n : N) : byte :=
  match Byte.of_N (n mod 256) with
  | Some b => b
  | None => x00
  end.

Definition table_b2a_base64 : bytes :=
  list_byte_of_string
    "ABCDEFGHIJKLMNOPQRSTUVWXYZabcdefghijklmnopqrstuvwxyz0123456789+/".

Definition b2a_char (n : N) : byte := nth (N.to_nat n) table_b2a_base64 "/"%byte.

(** [table_a2b_base64]: the digit of a character of the alphabet. *)
Definition a2b_char (c : byte) : option N :=
  let n := Byte.to_N c in
  if ((65 <=? n) && (n <=? 90))%N then Some (n - 65)%N
  else if ((97 <=? n) && (n <=? 122))%N then Some (n - 71)%N
  else if ((48 <=? n) && (n <=? 57))%N then Some (n + 4)%N
  else if (n =? 43)%N then Some 62%N
  else if (n =? 47)%N then Some 63%N
  else None.

Definition BASE64_PAD : byte := "="%byte.

(** [binascii.b2a_base64(data, newline=False)]. *)
Fixpoint b2a_base64 (data : bytes) : bytes :=
  match data with
  | [] => []
  | [a] =>
      let a := Byte.to_N a in
      [b2a_char (N.shiftr a 2); b2a_char (N.shiftl (N.land a 3) 4);
       BASE64_PAD; BASE64_PAD]
  | [a; b] =>
      let a := Byte.to_N a in
      let b := Byte.to_N b in
      [b2a_char (N.shiftr a 2);
       b2a_char (N.lor (N.shiftl (N.land a 3) 4) (N.shiftr b 4));
       b2a_char (N.shiftl (N.land b 15) 2);
       BASE64_PAD]
  | a :: b :: c :: rest =>
      let a := Byte.to_N a in
      let b := Byte.to_N b in
      let c := Byte.to_N c in
      b2a_char (N.shiftr a 2)
      :: b2a_char (N.lor (N.shiftl (N.land a 3) 4) (N.shiftr b 4))
      :: b2a_char (N.lor (N.shiftl (N.land b 15) 2) (N.shiftr c 6))
      :: b2a_char (N.land c 63)
      :: b2a_base64 rest
  end.

Definition incorrect_padding (quad_pos : nat) : exn :=
  Exn BinasciiError
    (match quad_pos with
     | 1 => "Invalid base64-encoded string: number of data characters cannot be 1 more than a multiple of 4"
     | _ => "Incorrect padding"
     end).

(** The loop of [binascii.a2b_base64] with [strict_mode] off: a character
    outside the alphabet is skipped, a complete pad sequence ends the input. *)
Fixpoint a2b_loop (ascii_data : bytes) (quad_pos : nat) (leftchar pads : N)
    (bin_data : bytes) : result bytes :=
  match ascii_data with
  | [] =>
      match quad_pos with
      | O => Ok bin_data
      | _ => Raise (incorrect_padding quad_pos)
      end
  | this_ch :: rest =>
      if Byte.eqb this_ch BASE64_PAD then
        if (2 <=? quad_pos)%nat then
          if (4 <=? N.of_nat quad_pos + (pads + 1))%N then Ok bin_data
          else a2b_loop rest quad_pos leftchar (pads + 1)%N bin_data
        else a2b_loop rest quad_pos leftchar pads bin_data
      else
        match a2b_char this_ch with
        | None => a2b_loop rest quad_pos leftchar pads bin_data
        | Some this_ch =>
            match quad_pos with
            | 0%nat => a2b_loop rest 1 this_ch 0 bin_data
            | 1%nat =>
                a2b_loop rest 2 (N.land this_ch 0x0f) 0
                  (bin_data ++ [byte_of_N (N.lor (N.shiftl leftchar 2) (N.shiftr this_ch 4))])
            | 2%nat =>
                a2b_loop rest 3 (N.land this_ch 0x03) 0
                  (bin_data ++ [byte_of_N (N.lor (N.shiftl leftchar 4) (N.shiftr this_ch 2))])
            | _ =>
                a2b_loop rest 0 0 0
                  (bin_data ++ [byte_of_N (N.lor (N.shiftl leftchar 6) this_ch)])
            end
        end
  end.

Definition a2b_base64 (ascii_data : bytes) : result bytes :=
  a2b_loop ascii_data 0 0 0 [].

(** [base64.b64encode(s)]. *)
Definition b64encode (s : bytes) : bytes := b2a_base64 s.

(** [base64.b64decode(s)] for [bytes] [s] ([validate] is off). *)
Definition b64decode_bytes (s : bytes) : result bytes := a2b_base64 s.

(** [base64.b64decode(s)] for a [str] [s]: it is encoded as ASCII first. *)
Definition b64decode (s : string) : result bytes :=
  if forallb Utf8.is_ascii (list_byte_of_string s)
  then a2b_base64 (list_byte_of_string s)
  else Raise (Exn ValueError "string argument should contain only ASCII characters").

Definition urlsafe_encode_char (c : byte) : byte :=
  if Byte.eqb c "+"%byte then "-"%byte
  else if Byte.eqb c "/"%byte then "_"%byte
  else c.

Definition urlsafe_decode_char (c : byte) : byte :=
  if Byte.eqb c "-"%byte then "+"%byte
  else if Byte.eqb c "_"%byte then "/"%byte
  else c.

(** [base64.urlsafe_b64encode(s)]. *)
Definition urlsafe_b64encode (s : bytes) : bytes :=
  map urlsafe_encode_char (b64encode s).

(** [base64.urlsafe_b64decode(s)] for [bytes] [s]. *)
Definition urlsafe_b64decode (s : bytes) : result bytes :=
  b64decode_bytes (map urlsafe_decode_char s).

End Base64.

(** Tables over which the base64 facts are checked by enumeration. *)
Module Base64Tables.
Import Base64.

Definition all_bytes : bytes := map (fun n => byte_of_N (N.of_nat n)) (seq 0 256).

Definition digit_ok (s : N) : bool :=
  negb (Byte.eqb (b2a_char s) BASE64_PAD)
  && match a2b_char (b2a_char s) with Some v => N.eqb v s | None => false end.

Definition sextet1 (a : byte) : N := N.shiftr (Byte.to_N a) 2.

Definition sextet2 (a b : byte) : N :=
  N.lor (N.shiftl (N.land (Byte.to_N a) 3) 4) (N.shiftr (Byte.to_N b) 4).

Definition sextet3 (b c : byte) : N :=
  N.lor (N.shiftl (N.land (Byte.to_N b) 15) 2) (N.shiftr (Byte.to_N c) 6).

Definition sextet4 (c : byte) : N := N.land (Byte.to_N c) 63.

Definition check12 (a b : byte) : bool :=
  digit_ok (sextet1 a) && digit_ok (sextet2 a b)
  && Byte.eqb (byte_of_N (N.lor (N.shiftl (sextet1 a) 2) (N.shiftr (sextet2 a b) 4))) a
  && N.eqb (N.land (sextet2 a b) 0x0f) (N.shiftr (Byte.to_N b) 4).

Definition check34 (b c : byte) : bool :=
  digit_ok (sextet3 b c) && digit_ok (sextet4 c)
  && Byte.eqb (byte_of_N (N.lor (N.shiftl (N.shiftr (Byte.to_N b) 4) 4) (N.shiftr (sextet3 b c) 2))) b
  && N.eqb (N.land (sextet3 b c) 0x03) (N.shiftr (Byte.to_N c) 6)
  && Byte.eqb (byte_of_N (N.lor (N.shiftl (N.shiftr (Byte.to_N c) 6) 6) (sextet4 c))) c.

End Base64Tables.

(* ===================================================================== *)
(** ** The world: files, terminal, clock, random source *)
(* ===================================================================== *)

(** The paths the program touches, all under [DATA_DIR]. *)
Inductive path :=
| KEYSTORE_PATH                  (* data/keystore.json *)
| AUDIT_LOG                      (* data/audit.log *)
| SALT_PATH                      (* data/salt.bin *)
| last_cipher (user : string)    (* data/{user}_last_cipher.txt *)
| with_suffix_tmp (p : path).    (* p.with_suffix('.tmp') *)

#[global] Instance path_eq_dec : EqDecision path.
Proof. solve_decision. Defined.

Record World := {
  files : path -> option bytes;   (* the content of each file that exists *)
  stdin : list string;            (* the lines the user will type *)
  stdout : list string;           (* what was printed, one entry per call *)
  clock : nat -> Z;               (* the clock's readings to come, in microseconds *)
  entropy : nat -> byte;          (* the bytes the random source will give *)
}.

Definition set_files (f : path -> option bytes) (w : World) : World :=
  {| files := f; stdin := stdin w; stdout := stdout w;
     clock := clock w; entropy := entropy w |}.

Definition set_stdin (l : list string) (w : World) : World :=
  {| files := files w; stdin := l; stdout := stdout w;
     clock := clock w; entropy := entropy w |}.

Definition set_stdout (l : list string) (w : World) : World :=
  {| files := files w; stdin := stdin w; stdout := l;
     clock := clock w; entropy := entropy w |}.

Definition set_clock (c : nat -> Z) (w : World) : World :=
  {| files := files w; stdin := stdin w; stdout := stdout w;
     clock := c; entropy := entropy w |}.

Definition set_entropy (e : nat -> byte) (w : World) : World :=
  {| files := files w; stdin := stdin w; stdout := stdout w;
     clock := clock w; entropy := e |}.

Definition update (p : path) (c : option bytes) (f : path -> option bytes)
  : path -> option bytes :=
  fun q => if decide (q = p) then c else f q.

(* ===================================================================== *)
(** ** The monad: state and exceptions *)
(* ===================================================================== *)

Definition M (A : Type) : Type := World -> result A * World.

Definition ret {A} (a : A) : M A := fun w => (Ok a, w).

Definition bind {A B} (m : M A) (k : A -> M B) : M B :=
  fun w =>
    match m w with
    | (Ok a, w') => k a w'
    | (Raise e, w') => (Raise e, w')
    end.

Definition raise {A} (e : exn) : M A := fun w => (Raise e, w).

Definition lift {A} (r : result A) : M A := fun w => (r, w).

(** [try: body  except Exception as e: handler e]; what [body] did before it
    raised stays done. *)
Definition try_except {A} (body : M A) (handler : exn -> M A) : M A :=
  fun w =>
    match body w with
    | (Ok a, w') => (Ok a, w')
    | (Raise e, w') => handler e w'
    end.

Definition result_bind {A B} (r : result A) (k : A -> result B) : result B :=
  match r with
  | Ok a => k a
  | Raise e => Raise e
  end.

#[global] Instance M_ret : MRet M := @ret.

#[global] Instance M_bind : MBind M := fun A B k m => bind m k.

#[global] Instance result_ret : MRet result := @Ok.

#[global] Instance result_bind_inst : MBind result := fun A B k r => result_bind r k.

(** *** Files *)

Definition path_exists (p : path) : M bool :=
  fun w => (Ok (match files w p with Some _ => true | None => false end), w).

Definition read_bytes (p : path) : M bytes :=
  fun w =>
    match files w p with
    | Some b => (Ok b, w)
    | None => (Raise (Exn OSError "No such file or directory"), w)
    end.

Definition write_bytes (p : path) (b : bytes) : M unit :=
  fun w => (Ok tt, set_files (update p (Some b) (files w)) w).

(** [open(p, 'r', encoding='utf-8').read()] *)
Definition read_text (p : path) : M string :=
  b ← read_bytes p; lift (Utf8.decode b).

(** [open(p, 'w', encoding='utf-8').write(data)] *)
Definition write_text (p : path) (data : string) : M unit :=
  write_bytes p (Utf8.encode data).

(** [open(p, 'a', encoding='utf-8').write(data)] *)
Definition append_text (p : path) (data : string) : M unit :=
  fun w =>
    let old := match files w p with Some b => b | None => [] end in
    (Ok tt, set_files (update p (Some (old ++ Utf8.encode data)) (files w)) w).

(** [os.replace(src, dst)] *)
Definition os_replace (src dst : path) : M unit :=
  fun w =>
    match files w src with
    | Some b => (Ok tt, set_files (update src None (update dst (Some b) (files w))) w)
    | None => (Raise (Exn OSError "No such file or directory"), w)
    end.

(** *** Terminal *)

Definition print (s : string) : M unit :=
  fun w => (Ok tt, set_stdout (stdout w ++ [s]) w).

Definition read_line : M string :=
  fun w =>
    match stdin w with
    | l :: rest => (Ok l, set_stdin rest w)
    | [] => (Raise (Exn EOFError "EOF when reading a line"), w)
    end.

(** [input(prompt)]: the prompt goes to the standard output. *)
Definition input (prompt : string) : M string :=
  print prompt;; read_line.

(** [getpass(prompt)]: the prompt goes to the terminal, nothing is echoed. *)
Definition getpass (prompt : string) : M string := read_line.

(** *** Clock and random source *)

Definition read_clock : M Z :=
  fun w => (Ok (clock w 0%nat), set_clock (fun i => clock w (S i)) w).

(** [secrets.token_bytes(n)], [os.urandom(n)] *)
Definition token_bytes (n : nat) : M bytes :=
  fun w => (Ok (map (entropy w) (seq 0 n)),
            set_entropy (fun i => entropy w (n + i)%nat) w).

(** [secrets.choice(seq)]: the index is drawn from the random source. *)
Definition secrets_choice (l : list string) : M string :=
  match l with
  | [] => raise (Exn IndexError "Cannot choose from an empty sequence")
  | a :: _ =>
      b ← token_bytes 1;
      ret (nth (Byte.to_nat (nth 0 b x00) mod List.length l) l a)
  end.

Definition nl : string := String (ascii_of_nat 10) EmptyString.

(* ===================================================================== *)
(** ** Configuration and library primitives *)
(* ===================================================================== *)

(** The module-level constants. *)
Class Config := {
  ALGORITHMS : list string;
  KDF_ITERATIONS : N;
}.

(** The constants as the file sets them. *)
Definition vault_config : Config :=
  {| ALGORITHMS := ["fernet"; "chacha20"]; KDF_ITERATIONS := 200000 |}.

(** The library functions the program calls and does not define. *)
Class Primitives := {
  (** [hashlib.sha256(data).hexdigest()] *)
  sha256_hexdigest : bytes -> string;
  (** [PBKDF2HMAC(SHA256(), length, salt, iterations).derive(password)] *)
  pbkdf2_hmac_sha256 : nat -> bytes -> N -> bytes -> bytes;
  (** the Fernet token of a message under a 32-byte key, made at a time with
      an initialisation vector *)
  fernet_token : bytes -> Z -> bytes -> bytes -> bytes;
  (** the message of a token a key accepts; [None] when it rejects it *)
  fernet_open : bytes -> bytes -> option bytes;
  (** [ChaCha20Poly1305(key).encrypt(nonce, data, None)] *)
  chacha20poly1305_seal : bytes -> bytes -> bytes -> bytes;
  (** [ChaCha20Poly1305(key).decrypt(nonce, data, None)]; [None] when the tag
      does not verify *)
  chacha20poly1305_open : bytes -> bytes -> bytes -> option bytes;
  (** [json.dumps(obj)] *)
  json_dumps : value -> string;
  (** [json.dumps(obj, indent=2)] *)
  json_dumps_indent : value -> string;
  (** [json.loads(s)]; [None] when it raises *)
  json_loads : string -> option value;
  (** [str(v)], as an f-string formats a value *)
  py_str : value -> string;
  (** [datetime.isoformat()] of a clock reading *)
  isoformat : Z -> string;
  (** [s.strip()] *)
  str_strip : string -> string;
}.

(** What the proofs use of the libraries: each function does what its
    documentation says on the inputs the program gives it. *)
Class PrimitiveLaws {prim : Primitives} : Prop := {
  (** the key derivation returns as many bytes as were asked for *)
  pbkdf2_length : forall n salt iterations password,
    List.length (pbkdf2_hmac_sha256 n salt iterations password) = n;
  (** a key opens the tokens made with it *)
  fernet_open_token : forall k t iv m,
    List.length k = 32%nat -> List.length iv = 16%nat ->
    fernet_open k (fernet_token k t iv m) = Some m;
  (** a token is url-safe base64 text: printable ASCII, no blank *)
  fernet_token_graphic : forall k t iv m,
    forallb Utf8.is_graphic (fernet_token k t iv m) = true;
  (** a key opens what it sealed *)
  chacha20poly1305_open_seal : forall k n m,
    List.length k = 32%nat -> List.length n = 12%nat ->
    chacha20poly1305_open k n (chacha20poly1305_seal k n m) = Some m;
  (** [json.loads] reads back what [json.dumps] wrote, indented or not *)
  json_loads_dumps : forall v, wf v = true -> json_loads (json_dumps v) = Some v;
  json_loads_dumps_indent : forall v,
    wf v = true -> json_loads (json_dumps_indent v) = Some v;
  (** [json.loads] builds dicts, where a key occurs once *)
  json_loads_wf : forall s v, json_loads s = Some v -> wf v = true;
  (** [json.dumps] writes ASCII ([ensure_ascii] is on) *)
  json_dumps_ascii : forall v,
    forallb Utf8.is_ascii (Utf8.encode (json_dumps v)) = true;
  json_dumps_indent_ascii : forall v,
    forallb Utf8.is_ascii (Utf8.encode (json_dumps_indent v)) = true;
}.

(** Perfect cryptography: a key accepts only what was made with it, and
    the two schemes do not accept each other's ciphertexts.  Real ciphers
    satisfy this up to a negligible probability. *)
Class PerfectCrypto {prim : Primitives} : Prop := {
  (** another key rejects a token *)
  fernet_wrong_key : forall k k' t iv m,
    List.length k = 32%nat -> List.length k' = 32%nat -> k <> k' ->
    fernet_open k' (fernet_token k t iv m) = None;
  (** what a key accepts decodes to the bytes of a token it made *)
  fernet_authentic : forall k token m,
    fernet_open k token = Some m ->
    exists t iv,
      List.length iv = 16%nat
      /\ Base64.urlsafe_b64decode token
         = Base64.urlsafe_b64decode (fernet_token k t iv m);
  (** another key rejects a sealed message *)
  chacha20poly1305_wrong_key : forall k k' n m,
    List.length k = 32%nat -> List.length k' = 32%nat -> k <> k' ->
    chacha20poly1305_open k' n (chacha20poly1305_seal k n m) = None;
  (** what a key opens is what it sealed *)
  chacha20poly1305_authentic : forall k n c m,
    chacha20poly1305_open k n c = Some m -> c = chacha20poly1305_seal k n m;
  (** Fernet rejects a base64 nonce-and-ciphertext of ChaCha20-Poly1305 *)
  fernet_rejects_chacha : forall k k' n m,
    fernet_open k (Base64.b64encode (n ++ chacha20poly1305_seal k' n m)) = None;
  (** ChaCha20-Poly1305 rejects the bytes a Fernet token decodes to *)
  chacha_rejects_fernet : forall k k' t iv m data,
    Base64.b64decode_bytes (fernet_token k t iv m) = Ok data ->
    chacha20poly1305_open k' (take 12 data) (drop 12 data) = None;
  (** the hash has no collision *)
  sha256_injective : forall data data',
    sha256_hexdigest data = sha256_hexdigest data' -> data = data';
  (** the key derivation has no collision between two 16-byte salts *)
  pbkdf2_salt_injective : forall n salt salt' iterations password,
    (16 <= n)%nat -> List.length salt = 16%nat -> List.length salt' = 16%nat ->
    salt <> salt' ->
    pbkdf2_hmac_sha256 n salt iterations password
    <> pbkdf2_hmac_sha256 n salt' iterations password;
}.

Section Vault.

Context {cfg : Config} {prim : Primitives}.

(* --------------------------------------------------------------------- *)
(** *** Utility helpers *)

Definition atomic_write (p : path) (data : string) : M unit :=
  let tmp := with_suffix_tmp p in
  write_text tmp data;;
  os_replace tmp p.

Definition now_iso : M string :=
  t ← read_clock; ret (isoformat t +:+ "Z").

Definition hash_fp (token : string) : string :=
  sha256_hexdigest (Utf8.encode token).

(** [json.load(f)] *)
Definition json_load (s : string) : result value :=
  match json_loads s with
  | Some v => Ok v
  | None => Raise (Exn JSONDecodeError "Expecting value")
  end.

Definition load_json (p : path) : M value :=
  e ← path_exists p;
  if negb e then ret (VDict [])
  else
    try_except
      (s ← read_text p; lift (json_load s))
      (fun _ => ret (VDict [])).

Definition save_json_atomic (p : path) (obj : value) : M unit :=
  atomic_write p (json_dumps_indent obj).

Definition append_audit (entry : string) : M unit :=
  t ← now_iso;
  let line := t +:+ " " +:+ entry +:+ nl in
  append_text AUDIT_LOG line.

(* --------------------------------------------------------------------- *)
(** *** Master key derivation *)

Definition _ensure_salt : M bytes :=
  e ← path_exists SALT_PATH;
  if (e : bool) then read_bytes SALT_PATH
  else
    s ← token_bytes 16;
    write_bytes SALT_PATH s;;
    ret s.

Definition derive_master_key (passphrase : string) : M bytes :=
  salt ← _ensure_salt;
  ret (pbkdf2_hmac_sha256 32 salt KDF_ITERATIONS (Utf8.encode passphrase)).

(** A [Fernet] object: the 32 bytes its key decodes to. *)
Record Fernet := { fernet_key : bytes }.

(** [Fernet(key)] *)
Definition Fernet_init (key : bytes) : result Fernet :=
  match Base64.urlsafe_b64decode key with
  | Ok k =>
      if (List.length k =? 32)%nat then Ok {| fernet_key := k |}
      else Raise (Exn ValueError "Fernet key must be 32 url-safe base64-encoded bytes.")
  | Raise _ =>
      Raise (Exn ValueError "Fernet key must be 32 url-safe base64-encoded bytes.")
  end.

(** [f.encrypt(data)]: the time is read, then the vector drawn. *)
Definition Fernet_encrypt (f : Fernet) (data : bytes) : M bytes :=
  t ← read_clock;
  iv ← token_bytes 16;
  ret (fernet_token (fernet_key f) (t / 1000000)%Z iv data).

(** [f.decrypt(token)] *)
Definition Fernet_decrypt (f : Fernet) (token : bytes) : result bytes :=
  match fernet_open (fernet_key f) token with
  | Some data => Ok data
  | None => Raise (Exn InvalidToken "")
  end.

Definition master_key_to_fernet (master_key : bytes) : result Fernet :=
  let token := Base64.urlsafe_b64encode master_key in
  Fernet_init token.

(* --------------------------------------------------------------------- *)
(** *** Keystore format and helpers *)

(** [ALGORITHMS[0]] *)
Definition ALGORITHMS_0 : result string :=
  match ALGORITHMS with
  | a :: _ => Ok a
  | [] => Raise (Exn IndexError "list index out of range")
  end.

(** [{'users': {}, 'keys': {}, 'current_algo': ALGORITHMS[0]}] *)
Definition default_keystore : result value :=
  a ← ALGORITHMS_0;
  Ok (VDict [("users", VDict []); ("keys", VDict []); ("current_algo", VStr a)]).

Definition save_keystore_encrypted (keystore : value) (master_fernet : Fernet) : M unit :=
  let raw := Utf8.encode (json_dumps keystore) in
  token ← Fernet_encrypt master_fernet raw;
  payload ← lift (Utf8.decode token);
  let envelope := VDict [("v", VInt 1); ("payload", VStr payload)] in
  save_json_atomic KEYSTORE_PATH envelope.

Definition wrong_passphrase : exn :=
  Exn ValueError "Master passphrase doesn't match stored keystore.".

Definition load_keystore_decrypted (master_fernet : Fernet) : M value :=
  e ← path_exists KEYSTORE_PATH;
  if negb e then lift default_keystore
  else
    envelope ← load_json KEYSTORE_PATH;
    if negb (truthy envelope) then lift default_keystore
    else
      has ← lift (py_contains "payload" envelope);
      if negb has then lift default_keystore
      else
        try_except
          (payload ← lift (py_getitem envelope "payload");
           token ← lift (py_encode payload);
           raw ← lift (Fernet_decrypt master_fernet token);
           s ← lift (Utf8.decode raw);
           lift (json_load s))
          (fun e =>
             if is_InvalidToken e then raise wrong_passphrase
             else lift default_keystore).

(* --------------------------------------------------------------------- *)
(** *** User management *)

Definition register_user (master_fernet : Fernet) : M unit :=
  ks ← load_keystore_decrypted master_fernet;
  name ← input "Enter user name (owner/secretary): ";
  let name := str_strip name in
  if String.eqb name "" then print "Name required."
  else
    token ← getpass "Scan fingerprint (enter token): ";
    let token := str_strip token in
    if String.eqb token "" then print "Fingerprint required."
    else
      let fp_h := hash_fp token in
      (* ks['users'][name] = {...}: the right-hand side first *)
      created ← now_iso;
      users ← lift (py_getitem ks "users");
      users ← lift (py_setitem users name
                      (VDict [("fp_hash", VStr fp_h); ("created", VStr created)]));
      ks ← lift (py_setitem ks "users" users);
      raw_key ← token_bytes 32;
      enc_key ← lift (Utf8.decode (Base64.b64encode raw_key));
      keys0 ← lift (py_get ks "keys" (VDict []));
      old ← lift (py_get keys0 name (VDict []));
      algo_history ← lift (py_get old "algo_history" (VList []));
      created ← now_iso;
      keys ← lift (py_getitem ks "keys");
      keys ← lift (py_setitem keys name
                     (VDict [("enc_key", VStr enc_key);
                             ("algo_history", algo_history);
                             ("created", VStr created)]));
      ks ← lift (py_setitem ks "keys" keys);
      append_audit ("REGISTER user=" +:+ name);;
      save_keystore_encrypted ks master_fernet;;
      print ("User " +:+ name +:+ " registered.").

(** The loop of [authenticate_user] over [users.items()]. *)
Fixpoint scan_users (fp_h : string) (items : dict) : M (option string) :=
  match items with
  | [] => ret None
  | (name, info) :: rest =>
      h ← lift (py_get1 info "fp_hash");
      if eq_str h fp_h then
        append_audit ("AUTH success user=" +:+ name);;
        ret (Some name)
      else scan_users fp_h rest
  end.

Definition authenticate_user (master_fernet : Fernet) : M (option string) :=
  unlocked ← try_except
    (ks ← load_keystore_decrypted master_fernet; ret (Some ks))
    (fun e =>
       if is_ValueError e then
         print ("Keystore unlock failed: " +:+ exn_msg e);;
         ret None
       else raise e);
  match unlocked with
  | None => ret None
  | Some ks =>
      token ← getpass "Scan fingerprint (enter token): ";
      let token := str_strip token in
      if String.eqb token "" then
        print "No token provided.";;
        ret None
      else
        let fp_h := hash_fp token in
        users ← lift (py_get ks "users" (VDict []));
        items ← lift (py_items users);
        found ← scan_users fp_h items;
        match found with
        | Some name => ret (Some name)
        | None =>
            append_audit "AUTH failed";;
            print "Authentication failed.";;
            ret None
        end
  end.

(* --------------------------------------------------------------------- *)
(** *** Key extraction and rotation *)

(** [base64.b64decode(v)] for a value read from the keystore. *)
Definition b64decode_value (v : value) : result bytes :=
  match v with
  | VStr s => Base64.b64decode s
  | _ => Raise (Exn TypeError
                  ("argument should be a bytes-like object or ASCII string, not '"
                   +:+ type_name v +:+ "'"))
  end.

Definition _get_raw_key_for_user (ks : value) (username : string)
  : result (option bytes) :=
  keys ← py_get ks "keys" (VDict []);
  entry ← py_get1 keys username;
  if negb (truthy entry) then Ok None
  else
    enc_key_b64 ← py_get1 entry "enc_key";
    if negb (truthy enc_key_b64) then Ok None
    else
      match b64decode_value enc_key_b64 with
      | Ok raw => Ok (Some raw)
      | Raise _ => Ok None
      end.

(** [not raw_key] for what [_get_raw_key_for_user] returned. *)
Definition no_key (raw_key : option bytes) : bool :=
  match raw_key with
  | None | Some [] => true
  | Some (_ :: _) => false
  end.

(** [ks.get('current_algo', ALGORITHMS[0])]: the default is evaluated before
    the call, after the lookup of [get]. *)
Definition get_current_algo (ks : value) : result value :=
  match ks with
  | VDict _ => a ← ALGORITHMS_0; py_get ks "current_algo" (VStr a)
  | _ => attribute_error ks "get"
  end.

(** [ks.setdefault(k, default)]: the value found and the keystore after. *)
Definition py_setdefault (ks : value) (k : string) (default : value)
  : result (value * value) :=
  match ks with
  | VDict d =>
      match dict_get k d with
      | Some x => Ok (x, ks)
      | None => Ok (default, VDict (dict_set k default d))
      end
  | _ => attribute_error ks "setdefault"
  end.

(** [[a for a in ALGORITHMS if a != current]] *)
Definition rotation_choices (current : value) : list string :=
  List.filter (fun a => negb (eq_str current a)) ALGORITHMS.

Definition rotate_algorithm (master_fernet : Fernet) : M unit :=
  ks ← load_keystore_decrypted master_fernet;
  current ← lift (get_current_algo ks);
  let choices := rotation_choices current in
  match choices with
  | [] => print "No alternative algorithm available."
  | _ :: _ =>
      new_algo ← secrets_choice choices;
      ks ← lift (py_setitem ks "current_algo" (VStr new_algo));
      '(history, ks) ← lift (py_setdefault ks "rotation_history" (VList []));
      match history with
      | VList _ =>
          when ← now_iso;
          history ← lift (py_append history
                            (VDict [("when", VStr when); ("from", current);
                                    ("to", VStr new_algo)]));
          ks ← lift (py_setitem ks "rotation_history" history);
          append_audit ("ROTATE from=" +:+ py_str current +:+ " to=" +:+ new_algo);;
          save_keystore_encrypted ks master_fernet;;
          print ("Algorithm rotated to " +:+ new_algo)
      | _ => lift (attribute_error history "append")
      end
  end.

(* --------------------------------------------------------------------- *)
(** *** Encryption primitives *)

Definition fernet_encrypt (raw_key : bytes) (plaintext : string) : M string :=
  let token := Base64.urlsafe_b64encode raw_key in
  f ← lift (Fernet_init token);
  ct ← Fernet_encrypt f (Utf8.encode plaintext);
  lift (Utf8.decode ct).

Definition fernet_decrypt (raw_key : bytes) (ciphertext : string) : result string :=
  let token := Base64.urlsafe_b64encode raw_key in
  f ← Fernet_init token;
  pt ← Fernet_decrypt f (Utf8.encode ciphertext);
  Utf8.decode pt.

(** A [ChaCha20Poly1305] object: its key. *)
Record ChaCha20Poly1305 := { aead_key : bytes }.

(** [ChaCha20Poly1305(key)] *)
Definition ChaCha20Poly1305_init (key : bytes) : result ChaCha20Poly1305 :=
  if (List.length key =? 32)%nat then Ok {| aead_key := key |}
  else Raise (Exn ValueError "ChaCha20Poly1305 key must be 32 bytes.").

(** [aead.encrypt(nonce, data, None)] *)
Definition ChaCha20Poly1305_encrypt (aead : ChaCha20Poly1305) (nonce data : bytes)
  : result bytes :=
  if (List.length nonce =? 12)%nat
  then Ok (chacha20poly1305_seal (aead_key aead) nonce data)
  else Raise (Exn ValueError "Nonce must be 12 bytes").

(** [aead.decrypt(nonce, data, None)] *)
Definition ChaCha20Poly1305_decrypt (aead : ChaCha20Poly1305) (nonce data : bytes)
  : result bytes :=
  if (List.length nonce =? 12)%nat then
    match chacha20poly1305_open (aead_key aead) nonce data with
    | Some pt => Ok pt
    | None => Raise (Exn InvalidTag "")
    end
  else Raise (Exn ValueError "Nonce must be 12 bytes").

Definition chacha_encrypt (raw_key : bytes) (plaintext : string) : M string :=
  aead ← lift (ChaCha20Poly1305_init raw_key);
  nonce ← token_bytes 12;
  ct ← lift (ChaCha20Poly1305_encrypt aead nonce (Utf8.encode plaintext));
  lift (Utf8.decode (Base64.b64encode (nonce ++ ct))).

Definition chacha_decrypt (raw_key : bytes) (ciphertext_b64 : string) : result string :=
  data ← Base64.b64decode ciphertext_b64;
  let nonce := take 12 data in
  let ct := drop 12 data in
  aead ← ChaCha20Poly1305_init raw_key;
  pt ← ChaCha20Poly1305_decrypt aead nonce ct;
  Utf8.decode pt.

(* --------------------------------------------------------------------- *)
(** *** High level encryption and decryption *)

(** The dispatch on [current_algo] in [encrypt_for_user]; [None] for a name
    that is neither. *)
Definition encrypt_dispatch (current_algo : value) (raw_key : bytes)
    (plaintext : string) : M (option string) :=
  if eq_str current_algo "fernet" then
    ct ← fernet_encrypt raw_key plaintext; ret (Some ct)
  else if eq_str current_algo "chacha20" then
    ct ← chacha_encrypt raw_key plaintext; ret (Some ct)
  else ret None.

Definition encrypt_for_user (master_fernet : Fernet) : M unit :=
  user ← authenticate_user master_fernet;
  match user with
  | None | Some EmptyString => ret tt
  | Some user =>
      ks ← load_keystore_decrypted master_fernet;
      current_algo ← lift (get_current_algo ks);
      raw_key ← lift (_get_raw_key_for_user ks user);
      match raw_key with
      | None | Some [] => print "No key for this user."
      | Some raw_key =>
          plaintext ← input "Enter text to encrypt: ";
          ct ← try_except
            (ct ← encrypt_dispatch current_algo raw_key plaintext;
             match ct with
             | Some ct => ret (Some ct)
             | None => print "Unsupported algorithm.";; ret None
             end)
            (fun e =>
               print ("Encryption failed: " +:+ exn_msg e);;
               append_audit ("ENCRYPT error user=" +:+ user +:+ " err=" +:+ exn_msg e);;
               ret None);
          match ct with
          | None => ret tt
          | Some ct =>
              let out_path := last_cipher user in
              atomic_write out_path ct;;
              append_audit ("ENCRYPT success user=" +:+ user
                            +:+ " algo=" +:+ py_str current_algo);;
              print "Encrypted text saved."
          end
      end
  end.

(** The dispatch on [current_algo] in [decrypt_for_user]; [None] for a name
    that is neither. *)
Definition decrypt_dispatch (current_algo : value) (raw_key : bytes)
    (choice : string) : result (option string) :=
  if eq_str current_algo "fernet" then
    pt ← fernet_decrypt raw_key choice; Ok (Some pt)
  else if eq_str current_algo "chacha20" then
    pt ← chacha_decrypt raw_key choice; Ok (Some pt)
  else Ok None.

Definition decrypt_for_user (master_fernet : Fernet) : M unit :=
  user ← authenticate_user master_fernet;
  match user with
  | None | Some EmptyString => ret tt
  | Some user =>
      ks ← load_keystore_decrypted master_fernet;
      current_algo ← lift (get_current_algo ks);
      raw_key ← lift (_get_raw_key_for_user ks user);
      match raw_key with
      | None | Some [] => print "No key for this user."
      | Some raw_key =>
          choice ← input "Paste ciphertext or leave blank to read last file: ";
          let choice := str_strip choice in
          choice ←
            (if String.eqb choice "" then
               let in_path := last_cipher user in
               e ← path_exists in_path;
               if negb e then print "No ciphertext available.";; ret None
               else s ← read_text in_path; ret (Some (str_strip s))
             else ret (Some choice));
          match choice with
          | None => ret tt
          | Some choice =>
              try_except
                (pt ← lift (decrypt_dispatch current_algo raw_key choice);
                 match pt with
                 | None => print "Unsupported algorithm."
                 | Some pt =>
                     append_audit ("DECRYPT success user=" +:+ user
                                   +:+ " algo=" +:+ py_str current_algo);;
                     print ("Decrypted text:" +:+ nl);;
                     print pt
                 end)
                (fun e =>
                   if is_InvalidToken e then
                     print "Decryption failed: invalid token or wrong key.";;
                     append_audit ("DECRYPT failure user=" +:+ user
                                   +:+ " reason=InvalidToken")
                   else
                     print ("Decryption error: " +:+ exn_msg e);;
                     append_audit ("DECRYPT error user=" +:+ user
                                   +:+ " err=" +:+ exn_msg e))
          end
      end
  end.

(* --------------------------------------------------------------------- *)
(** *** Driver *)

Definition unlock_master : M (option Fernet) :=
  passphrase ← getpass "Enter master passphrase to unlock keystore: ";
  let passphrase := str_strip passphrase in
  if String.eqb passphrase "" then
    print "Passphrase required.";;
    ret None
  else
    try_except
      (mk ← derive_master_key passphrase;
       f ← lift (master_key_to_fernet mk);
       ret (Some f))
      (fun e =>
         print ("Failed to derive master key: " +:+ exn_msg e);;
         ret None).

Definition init_first_time (master_fernet : Fernet) : M unit :=
  e ← path_exists KEYSTORE_PATH;
  if (e : bool) then ret tt
  else
    a ← lift ALGORITHMS_0;
    let ks := VDict [("users", VDict []); ("keys", VDict []);
                     ("current_algo", VStr a); ("rotation_history", VList [])] in
    save_keystore_encrypted ks master_fernet;;
    append_audit "INIT keystore".

(** [n] rotations one after the other, as the menu's option 4 chosen [n]
    times. *)
Fixpoint rotations (master_fernet : Fernet) (n : nat) : M unit :=
  match n with
  | O => ret tt
  | S n => rotate_algorithm master_fernet;; rotations master_fernet n
  end.

End Vault.

(** The history is a chain from [prev] to [current]: the first entry starts at
    [prev], each entry starts where the one before ended, and [current] is
    where the last one ended. *)
Fixpoint chained (prev : value) (hist : list value) (current : value) : Prop :=
  match hist with
  | [] => current = prev
  | e :: rest =>
      py_getitem e "from" = Ok prev
      /\ exists to, py_getitem e "to" = Ok to /\ chained to rest current
  end.

(* ===================================================================== *)
(** ** The plain loader, the admin utilities and the driver *)
(* ===================================================================== *)

(** What the proofs use of [str.strip]: a string of printable characters
    with no blank, the empty one among them, has nothing to strip. *)
Class StripLaws {prim : Primitives} : Prop := {
  str_strip_graphic : forall s,
    forallb Utf8.is_graphic (Utf8.encode s) = true -> str_strip s = s;
}.

Definition CR : ascii := ascii_of_nat 13.

Definition LF : ascii := ascii_of_nat 10.

(** What a file opened for reading as text does to line ends: a carriage
    return, with the line feed after it if there is one, becomes a line
    feed. *)
Fixpoint universal_newlines (s : string) : string :=
  match s with
  | EmptyString => EmptyString
  | String c r =>
      if Ascii.eqb c CR then
        match r with
        | String c' r' =>
            if Ascii.eqb c' LF then String LF (universal_newlines r')
            else String LF (universal_newlines r)
        | EmptyString => String LF EmptyString
        end
      else String c (universal_newlines r)
  end.

(** The lines of a text, each with its line feed; the last one may have
    none. *)
Fixpoint splitlines (s : string) : list string :=
  match s with
  | EmptyString => []
  | String c r =>
      if Ascii.eqb c LF then String c EmptyString :: splitlines r
      else
        match splitlines r with
        | [] => [String c EmptyString]
        | l :: ls => String c l :: ls
        end
  end.

(** [l[-n:]] for a positive [n]. *)
Definition last_n {A} (n : nat) (l : list A) : list A :=
  drop (List.length l - n) l.

Section VaultAdmin.

Context {cfg : Config} {prim : Primitives}.

(** [f.readlines()] of [open(p, 'r', encoding='utf-8')]. *)
Definition readlines (p : path) : M (list string) :=
  s ← read_text p; ret (splitlines (universal_newlines s)).

Definition load_keystore : M value :=
  data ← load_json KEYSTORE_PATH;
  data ← (if negb (truthy data) then lift default_keystore else ret data);
  has ← lift (py_contains "current_algo" data);
  if negb has then
    a ← lift ALGORITHMS_0;
    lift (py_setitem data "current_algo" (VStr a))
  else ret data.

(** The comprehension of [show_keystore] over [users.items()], filling the
    new dict from left to right. *)
Fixpoint summary_users (items : dict) (acc : dict) : result dict :=
  match items with
  | [] => Ok acc
  | (u, info) :: rest =>
      created ← py_get1 info "created";
      summary_users rest (dict_set u (VDict [("created", created)]) acc)
  end.

Definition show_keystore (master_fernet : Fernet) : M unit :=
  unlocked ← try_except
    (ks ← load_keystore_decrypted master_fernet; ret (Some ks))
    (fun e =>
       if is_ValueError e then
         print "Cannot unlock keystore with provided passphrase.";;
         ret None
       else raise e);
  match unlocked with
  | None => ret tt
  | Some ks =>
      users ← lift (py_get ks "users" (VDict []));
      items ← lift (py_items users);
      users ← lift (summary_users items []);
      current_algo ← lift (py_get1 ks "current_algo");
      rotation_history ← lift (py_get ks "rotation_history" (VList []));
      let simple := VDict [("users", VDict users);
                           ("current_algo", current_algo);
                           ("rotation_history", rotation_history)] in
      print (json_dumps_indent simple)
  end.

Definition export_user_key (master_fernet : Fernet) (username : string) : M unit :=
  unlocked ← try_except
    (ks ← load_keystore_decrypted master_fernet; ret (Some ks))
    (fun e =>
       if is_ValueError e then
         print "Cannot unlock keystore with provided passphrase.";;
         ret None
       else raise e);
  match unlocked with
  | None => ret tt
  | Some ks =>
      raw ← lift (_get_raw_key_for_user ks username);
      match raw with
      | None | Some [] => print "No key for user."
      | Some raw =>
          shown ← lift (Utf8.decode (Base64.b64encode raw));
          print ("Key for " +:+ username +:+ " (base64): " +:+ shown);;
          append_audit ("EXPORT_KEY user=" +:+ username)
      end
  end.

(** Option 7 of the menu: the last 200 lines of the audit log. *)
Definition view_audit_log : M unit :=
  e ← path_exists AUDIT_LOG;
  if negb e then print "No audit log yet."
  else
    lines ← readlines AUDIT_LOG;
    let lines := last_n 200 lines in
    print (String.concat "" lines).

Definition print_menu : M unit :=
  print (nl +:+ "Menu:");;
  print "1) Register user";;
  print "2) Encrypt text";;
  print "3) Decrypt text";;
  print "4) Rotate algorithm";;
  print "5) Show keystore (summary)";;
  print "6) Export user key (admin)";;
  print "7) View audit log";;
  print "8) Exit".

(** The [while True] of [main], for at most [fuel] rounds: [Some tt] when
    the user chose to exit, [None] when the rounds ran out. *)
Fixpoint main_loop (fuel : nat) (master : Fernet) : M (option unit) :=
  match fuel with
  | O => ret None
  | S fuel =>
      print_menu;;
      choice ← input "Choice: ";
      let choice := str_strip choice in
      if String.eqb choice "1" then
        register_user master;; main_loop fuel master
      else if String.eqb choice "2" then
        encrypt_for_user master;; main_loop fuel master
      else if String.eqb choice "3" then
        decrypt_for_user master;; main_loop fuel master
      else if String.eqb choice "4" then
        rotate_algorithm master;; main_loop fuel master
      else if String.eqb choice "5" then
        show_keystore master;; main_loop fuel master
      else if String.eqb choice "6" then
        user ← input "Enter username to export key: ";
        let user := str_strip user in
        export_user_key master user;; main_loop fuel master
      else if String.eqb choice "7" then
        view_audit_log;; main_loop fuel master
      else if String.eqb choice "8" then
        print "Exiting.";; ret (Some tt)
      else
        print "Unknown option.";; main_loop fuel master
  end.

Definition main (fuel : nat) : M (option unit) :=
  print "CipherVault — secure vault";;
  master ← unlock_master;
  match master with
  | None => ret (Some tt)
  | Some master =>
      init_first_time master;;
      main_loop fuel master
  end.

End VaultAdmin.

(* ====================================================================== *)
(** * Outcomes: the documents and worlds the operations leave *)
(* ====================================================================== *)

Section Outcomes.
Context {cfg : Config} {prim : Primitives}.

(** What [load_json] returns for a file's content. *)
Definition parse_json_file (content : option bytes) : value :=
  match content with
  | None => VDict []
  | Some b =>
      match Utf8.decode b with
      | Ok s => match json_loads s with Some v => v | None => VDict [] end
      | Raise _ => VDict []
      end
  end.

(** The [try] of [load_keystore_decrypted], on an envelope. *)
Definition open_envelope (master_fernet : Fernet) (envelope : value) : result value :=
  payload ← py_getitem envelope "payload";
  token ← py_encode payload;
  raw ← Fernet_decrypt master_fernet token;
  s ← Utf8.decode raw;
  json_load s.

(** What [load_keystore_decrypted] returns for the keystore file's content. *)
Definition open_keystore (master_fernet : Fernet) (content : option bytes) : result value :=
  match content with
  | None => default_keystore
  | Some _ =>
      let envelope := parse_json_file content in
      if negb (truthy envelope) then default_keystore
      else
        match py_contains "payload" envelope with
        | Raise e => Raise e
        | Ok has =>
            if negb has then default_keystore
            else
              match open_envelope master_fernet envelope with
              | Ok ks => Ok ks
              | Raise e => if is_InvalidToken e then Raise wrong_passphrase else default_keystore
              end
        end
  end.

(** The token [save_keystore_encrypted] makes in a world. *)
Definition sealed_keystore (ks : value) (f : Fernet) (w : World) : bytes :=
  fernet_token (fernet_key f) (clock w 0%nat / 1000000)%Z
    (map (entropy w) (seq 0 16)) (Utf8.encode (json_dumps ks)).

Definition envelope_of (token : bytes) : value :=
  VDict [("v", VInt 1); ("payload", VStr (string_of_list_byte token))].

Definition envelope_bytes (token : bytes) : bytes :=
  Utf8.encode (json_dumps_indent (envelope_of token)).

(** The world after [Fernet_encrypt]: one clock reading and 16 random bytes
    are used up. *)
Definition after_encrypt (w : World) : World :=
  set_entropy (fun i => entropy w (16 + i)%nat)
    (set_clock (fun i => clock w (S i)) w).

(** The world after [save_keystore_encrypted]. *)
Definition after_save (ks : value) (f : Fernet) (w : World) : World :=
  let content := envelope_bytes (sealed_keystore ks f w) in
  let w1 := after_encrypt w in
  set_files
    (update (with_suffix_tmp KEYSTORE_PATH) None
       (update KEYSTORE_PATH (Some content)
          (update (with_suffix_tmp KEYSTORE_PATH) (Some content) (files w1))))
    (set_files (update (with_suffix_tmp KEYSTORE_PATH) (Some content) (files w1)) w1).

(** The salt [derive_master_key] uses in a world: the salt file's content, or
    16 fresh random bytes. *)
Definition salt_of (w : World) : bytes :=
  match files w SALT_PATH with
  | Some s => s
  | None => map (entropy w) (seq 0 16)
  end.

(** The world after [_ensure_salt]. *)
Definition after_ensure_salt (w : World) : World :=
  match files w SALT_PATH with
  | Some _ => w
  | None =>
      let w1 := set_entropy (fun i => entropy w (16 + i)%nat) w in
      set_files (update SALT_PATH (Some (map (entropy w) (seq 0 16))) (files w1)) w1
  end.

Definition after_print (s : string) (w : World) : World :=
  set_stdout (stdout w ++ [s]) w.

Definition after_tick (w : World) : World :=
  set_clock (fun i => clock w (S i)) w.

Definition after_random (n : nat) (w : World) : World :=
  set_entropy (fun i => entropy w (n + i)%nat) w.

Definition after_line (w : World) : World :=
  set_stdin (tail (stdin w)) w.

(** The line [append_audit] writes in a world. *)
Definition audit_line (entry : string) (w : World) : string :=
  (isoformat (clock w 0%nat) +:+ "Z") +:+ " " +:+ entry +:+ nl.

Definition audit_bytes (w : World) : bytes :=
  match files w AUDIT_LOG with Some b => b | None => [] end.

Definition after_audit (entry : string) (w : World) : World :=
  let w1 := after_tick w in
  set_files
    (update AUDIT_LOG (Some (audit_bytes w ++ Utf8.encode (audit_line entry w))) (files w1))
    w1.

(** The document a world's keystore file holds under a key. *)
Definition keystore_of (f : Fernet) (w : World) : result value :=
  open_keystore f (files w KEYSTORE_PATH).

(** The rotation history of a document: empty when there is none yet. *)
Definition history_of (d : dict) : list value :=
  match dict_get "rotation_history" d with
  | Some (VList l) => l
  | _ => []
  end.

(** [rotation_history] is absent or a list. *)
Definition history_ok (d : dict) : Prop :=
  dict_get "rotation_history" d = None
  \/ exists l, dict_get "rotation_history" d = Some (VList l).

Definition rotation_entry (when : string) (current : value) (new_algo : string) : value :=
  VDict [("when", VStr when); ("from", current); ("to", VStr new_algo)].

(** The document after a rotation from [current] to [new_algo]. *)
Definition rotated (d : dict) (current : value) (new_algo when : string) : dict :=
  dict_set "rotation_history"
    (VList (history_of d ++ [rotation_entry when current new_algo]))
    (dict_set "current_algo" (VStr new_algo) d).

(** The algorithm [secrets.choice] picks in a world. *)
Definition chosen (choices : list string) (w : World) : string :=
  nth (Byte.to_nat (entropy w 0%nat) mod List.length choices) choices "".

(** The world after a rotation that found an alternative. *)
Definition after_rotation (f : Fernet) (d : dict) (current : value) (w : World) : World :=
  let new_algo := chosen (rotation_choices current) w in
  let w1 := after_random 1 w in
  let when := isoformat (clock w1 0%nat) +:+ "Z" in
  let w2 := after_audit ("ROTATE from=" +:+ py_str current +:+ " to=" +:+ new_algo)
              (after_tick w1) in
  after_print ("Algorithm rotated to " +:+ new_algo)
    (after_save (VDict (rotated d current new_algo when)) f w2).

(** The [algo_history] a new key record takes over from the old one. *)
Definition kept_history (ksd : dict) (name : string) : value :=
  match dict_get name ksd with
  | Some (VDict old) =>
      match dict_get "algo_history" old with
      | Some h => h
      | None => VList []
      end
  | _ => VList []
  end.

Definition user_record (fp_h created : string) : value :=
  VDict [("fp_hash", VStr fp_h); ("created", VStr created)].

Definition key_record (raw_key : bytes) (algo_history : value) (created : string) : value :=
  VDict [("enc_key", VStr (string_of_list_byte (Base64.b64encode raw_key)));
         ("algo_history", algo_history);
         ("created", VStr created)].

(** The document after [register_user]. *)
Definition registered (d us ksd : dict) (name fp_h created : string)
    (raw_key : bytes) (created' : string) : dict :=
  dict_set "keys"
    (VDict (dict_set name (key_record raw_key (kept_history ksd name) created') ksd))
    (dict_set "users" (VDict (dict_set name (user_record fp_h created) us)) d).

(** The world after [register_user] read a name and a token. *)
Definition after_register (f : Fernet) (d us ksd : dict) (w : World) : World :=
  let w2 := after_line (after_line (after_print "Enter user name (owner/secretary): " w)) in
  let name := str_strip (nth 0 (stdin w) "") in
  let token := str_strip (nth 1 (stdin w) "") in
  let created := isoformat (clock w2 0%nat) +:+ "Z" in
  let w3 := after_tick w2 in
  let raw_key := map (entropy w3) (seq 0 32) in
  let w4 := after_random 32 w3 in
  let created' := isoformat (clock w4 0%nat) +:+ "Z" in
  let w5 := after_tick w4 in
  let w6 := after_audit ("REGISTER user=" +:+ name) w5 in
  let ks := VDict (registered d us ksd name (hash_fp token) created raw_key created') in
  after_print ("User " +:+ name +:+ " registered.") (after_save ks f w6).

(** A user record that is a dict. *)
Definition is_record (kv : string * value) : Prop :=
  exists info, snd kv = VDict info.

(** The stored hash of a record is not [fp_h]. *)
Definition no_match (fp_h : string) (kv : string * value) : Prop :=
  py_get1 (snd kv) "fp_hash" <> Ok (VStr fp_h).

(** The world after [authenticate_user] read a token and found [name]. *)
Definition after_auth_success (name : string) (w : World) : World :=
  after_audit ("AUTH success user=" +:+ name) (after_line w).

(** The world after [authenticate_user] read a token and found nobody. *)
Definition after_auth_failed (w : World) : World :=
  after_print "Authentication failed." (after_audit "AUTH failed" (after_line w)).

(** The ciphertext [fernet_encrypt] makes in a world. *)
Definition fernet_ciphertext (k : bytes) (plaintext : string) (w : World) : string :=
  string_of_list_byte
    (fernet_token k (clock w 0%nat / 1000000)%Z (map (entropy w) (seq 0 16))
       (Utf8.encode plaintext)).

(** The ciphertext [chacha_encrypt] makes in a world. *)
Definition chacha_ciphertext (k : bytes) (plaintext : string) (w : World) : string :=
  let nonce := map (entropy w) (seq 0 12) in
  string_of_list_byte
    (Base64.b64encode (nonce ++ chacha20poly1305_seal k nonce (Utf8.encode plaintext))).

Definition paste_prompt : string :=
  "Paste ciphertext or leave blank to read last file: ".

(** The world after the [try] of [decrypt_for_user], by what the dispatch
    gave: a plaintext, no algorithm of that name, or an exception. *)
Definition after_decrypt (user : string) (current_algo : value)
    (outcome : result (option string)) (w : World) : World :=
  match outcome with
  | Ok (Some pt) =>
      after_print pt
        (after_print ("Decrypted text:" +:+ nl)
           (after_audit ("DECRYPT success user=" +:+ user
                         +:+ " algo=" +:+ py_str current_algo) w))
  | Ok None => after_print "Unsupported algorithm." w
  | Raise e =>
      if is_InvalidToken e then
        after_audit ("DECRYPT failure user=" +:+ user +:+ " reason=InvalidToken")
          (after_print "Decryption failed: invalid token or wrong key." w)
      else
        after_audit ("DECRYPT error user=" +:+ user +:+ " err=" +:+ exn_msg e)
          (after_print ("Decryption error: " +:+ exn_msg e) w)
  end.

End Outcomes.

(* ===================================================================== *)
(** ** A model of the primitives *)
(* ===================================================================== *)

(** Symbolic stand-ins for the libraries: a hash that is an encoding, ciphers
    whose output carries the key, a serialiser that numbers the values.  They
    satisfy [PrimitiveLaws] and [PerfectCrypto], which therefore are
    consistent. *)
Module Model.

#[global] Instance byte_eq_dec : EqDecision byte := Byte.byte_eq_dec.

Definition marker_F : byte := "F"%byte.

Definition marker_C : byte := "C"%byte.

Definition sha256_hexdigest (data : bytes) : string :=
  string_of_list_byte (Base64.b64encode data).

Definition pbkdf2_hmac_sha256 (n : nat) (salt : bytes) (iterations : N)
    (password : bytes) : bytes :=
  take n (salt ++ password ++ replicate n x00).

Definition fernet_token (k : bytes) (t : Z) (iv m : bytes) : bytes :=
  Base64.b64encode (k ++ iv ++ m ++ [marker_F]).

Definition fernet_open (k token : bytes) : option bytes :=
  match Base64.urlsafe_b64decode token with
  | Ok raw =>
      if bool_decide (List.length k = 32%nat /\ take 32 raw = k
                      /\ last raw = Some marker_F /\ (49 <= List.length raw)%nat)
      then Some (take (List.length raw - 49) (drop 48 raw))
      else None
  | Raise _ => None
  end.

Definition chacha20poly1305_seal (k n m : bytes) : bytes :=
  k ++ n ++ m ++ [marker_C].

Definition chacha20poly1305_open (k n c : bytes) : option bytes :=
  if bool_decide (List.length k = 32%nat /\ List.length n = 12%nat
                  /\ take 32 c = k /\ take 12 (drop 32 c) = n
                  /\ last c = Some marker_C /\ (45 <= List.length c)%nat)
  then Some (take (List.length c - 45) (drop 44 c))
  else None.

(** Values as trees, trees as numbers, numbers as binary numerals. *)
Fixpoint to_tree (v : value) : gen_tree (Z + string) :=
  match v with
  | VNone => GenNode 0 []
  | VBool true => GenNode 1 []
  | VBool false => GenNode 2 []
  | VInt n => GenLeaf (inl n)
  | VStr s => GenLeaf (inr s)
  | VList l => GenNode 3 (map to_tree l)
  | VDict d =>
      GenNode 4
        ((fix go (d : dict) : list (gen_tree (Z + string)) :=
            match d with
            | [] => []
            | (k, v) :: d' => GenLeaf (inr k) :: to_tree v :: go d'
            end) d)
  end.

Fixpoint of_tree (t : gen_tree (Z + string)) : option value :=
  match t with
  | GenLeaf (inl n) => Some (VInt n)
  | GenLeaf (inr s) => Some (VStr s)
  | GenNode 0 [] => Some VNone
  | GenNode 1 [] => Some (VBool true)
  | GenNode 2 [] => Some (VBool false)
  | GenNode 3 ts =>
      option_map VList
        ((fix go (ts : list (gen_tree (Z + string))) : option (list value) :=
            match ts with
            | [] => Some []
            | t :: ts' =>
                match of_tree t, go ts' with
                | Some v, Some l => Some (v :: l)
                | _, _ => None
                end
            end) ts)
  | GenNode 4 ts =>
      option_map VDict
        ((fix go (ts : list (gen_tree (Z + string))) : option dict :=
            match ts with
            | [] => Some []
            | GenLeaf (inr k) :: t :: ts' =>
                match of_tree t, go ts' with
                | Some v, Some d => Some ((k, v) :: d)
                | _, _ => None
                end
            | _ => None
            end) ts)
  | _ => None
  end.

Fixpoint numeral (p : positive) : string :=
  match p with
  | xH => ""
  | xO p => String "0" (numeral p)
  | xI p => String "1" (numeral p)
  end.

Fixpoint of_numeral (s : string) : option positive :=
  match s with
  | EmptyString => Some xH
  | String c s' =>
      if Ascii.eqb c "0" then option_map xO (of_numeral s')
      else if Ascii.eqb c "1" then option_map xI (of_numeral s')
      else None
  end.

Definition json_dumps (v : value) : string := numeral (encode (to_tree v)).

Definition json_loads (s : string) : option value :=
  match of_numeral s with
  | Some p =>
      match decode p with
      | Some t =>
          match of_tree t with
          | Some v => if wf v then Some v else None
          | None => None
          end
      | None => None
      end
  | None => None
  end.

Definition py_str (v : value) : string :=
  match v with
  | VStr s => s
  | _ => "<" +:+ type_name v +:+ ">"
  end.

Definition isoformat (t : Z) : string := pretty t.

Fixpoint lstrip (s : string) : string :=
  match s with
  | String c s' => if Ascii.is_space c then lstrip s' else s
  | EmptyString => EmptyString
  end.

Definition str_strip (s : string) : string :=
  String.rev (lstrip (String.rev (lstrip s))).

Definition primitives : Primitives :=
  Build_Primitives sha256_hexdigest pbkdf2_hmac_sha256 fernet_token fernet_open
    chacha20poly1305_seal chacha20poly1305_open json_dumps json_dumps json_loads
    py_str isoformat str_strip.

End Model.

(** A world for examples: no file, nothing typed, a clock that ticks and a
    random source that counts. *)
Definition empty_world : World :=
  {| files := fun _ => None;
     stdin := [];
     stdout := [];
     clock := fun i => (1700000000000000 + Z.of_nat i)%Z;
     entropy := fun i => Base64.byte_of_N (N.of_nat i) |}.

Definition key_of (b : byte) : bytes := replicate 32 b.

Module Examples.

Definition fernet_1 : Fernet := {| fernet_key := key_of x01 |}.

Definition fernet_2 : Fernet := {| fernet_key := key_of x02 |}.

Definition fresh_keystore : value :=
  VDict [("users", VDict []); ("keys", VDict []); ("current_algo", VStr "fernet");
         ("rotation_history", VList [])].

End Examples.

(* ===================================================================== *)
(** ** Example worlds in the model *)
(* ===================================================================== *)

Module Run.

(** A configuration with one algorithm: a rotation finds no alternative. *)
Definition single_config : Config :=
  {| ALGORITHMS := ["fernet"]; KDF_ITERATIONS := 200000 |}.

Definition typed (lines : list string) (w : World) : World := set_stdin lines w.

(** The vault once [init_first_time] ran. *)
Definition initialised : World :=
  snd (@init_first_time vault_config Model.primitives Examples.fernet_1 empty_world).

Definition initialised_single : World :=
  snd (@init_first_time single_config Model.primitives Examples.fernet_1 empty_world).

(** The vault once "alice" registered with the token "tok-123". *)
Definition with_alice : World :=
  snd (@register_user vault_config Model.primitives Examples.fernet_1
         (typed ["alice"; "tok-123"] initialised)).

Definition alice_key : bytes :=
  map (fun i => Base64.byte_of_N (N.of_nat i)) (seq 16 32).

(** What "alice" gets for "hello world" under Fernet. *)
Definition alice_ciphertext : string :=
  @fernet_ciphertext Model.primitives alice_key "hello world" with_alice.

(** A keystore file whose payload decrypts to bytes that are not JSON. *)
Definition corrupt_payload : World :=
  set_files
    (update KEYSTORE_PATH
       (Some (@envelope_bytes Model.primitives
                (Model.fernet_token (key_of x01) 0 (replicate 16 x00)
                   (list_byte_of_string "not json"))))
       (files empty_world))
    empty_world.

End Run.

(* ====================================================================== *)
(** * Outcomes of the further operations *)
(* ====================================================================== *)

Section FurtherOutcomes.
Context {cfg : Config} {prim : Primitives}.

(** A later world: input was only consumed, output and the audit log only
    appended to, a salt that existed is the same, the keystore file was not
    removed and no temporary file left behind. *)
Record extends (w w' : World) : Prop := {
  ext_stdin : exists used, stdin w = used ++ stdin w';
  ext_stdout : exists more, stdout w' = stdout w ++ more;
  ext_audit : exists more, audit_bytes w' = audit_bytes w ++ more;
  ext_salt : forall s, files w SALT_PATH = Some s -> files w' SALT_PATH = Some s;
  ext_keystore : files w KEYSTORE_PATH <> None -> files w' KEYSTORE_PATH <> None;
  ext_tmp : forall p, files w (with_suffix_tmp p) = None ->
                      files w' (with_suffix_tmp p) = None;
}.

(** An operation that only leads to later worlds, whether it returns or
    raises. *)
Definition respects {A} (m : M A) : Prop := forall w, extends w (snd (m w)).

(** A path that [with_suffix('.tmp')] made. *)
Definition is_tmp (p : path) : bool :=
  match p with with_suffix_tmp _ => true | _ => false end.

(** The audit log of [w'] is that of [w] with something appended. *)
Definition audit_kept (w w' : World) : Prop :=
  exists more, audit_bytes w' = audit_bytes w ++ more.

(** The world after [atomic_write]. *)
Definition after_atomic_write (p : path) (data : string) (w : World) : World :=
  set_files
    (update (with_suffix_tmp p) None
       (update p (Some (Utf8.encode data))
          (update (with_suffix_tmp p) (Some (Utf8.encode data)) (files w))))
    (set_files (update (with_suffix_tmp p) (Some (Utf8.encode data)) (files w)) w).

(** The prompt of [encrypt_for_user]. *)
Definition encrypt_prompt : string := "Enter text to encrypt: ".

(** A user name that can be part of a file name, so that
    [DATA_DIR / f"{user}_last_cipher.txt"] is a file of the data directory:
    no path separator and no NUL in it. *)
Definition file_name (user : string) : bool :=
  forallb (fun b => negb (Byte.eqb b "/"%byte) && negb (Byte.eqb b x00))
    (list_byte_of_string user).

(** The world after [encrypt_for_user] stored a ciphertext. *)
Definition after_stored (user : string) (current_algo : value) (ct : string)
    (w : World) : World :=
  after_print "Encrypted text saved."
    (after_audit ("ENCRYPT success user=" +:+ user +:+ " algo=" +:+ py_str current_algo)
       (after_atomic_write (last_cipher user) ct w)).

End FurtherOutcomes.

(** What [show_keystore] keeps of a user record: its [created]. *)
Definition summary_entry (kv : string * value) : string * value :=
  (fst kv,
   VDict [("created",
           match snd kv with
           | VDict info =>
               match dict_get "created" info with Some c => c | None => VNone end
           | _ => VNone
           end)]).

(** The other of the two algorithms. *)
Definition other_algorithm (a : string) : string :=
  if String.eqb a "fernet" then "chacha20" else "fernet".

(** No character of the string is a blank. *)
Fixpoint no_space (s : string) : Prop :=
  match s with
  | EmptyString => True
  | String c s' => Ascii.is_space c = false /\ no_space s'
  end.

(** More example worlds. *)
Module Demo.

(** A world where a passphrase was used once, so that there is a salt. *)
Definition salted : World :=
  snd (@derive_master_key vault_config Model.primitives "correct-horse" empty_world).

(** A keystore where "carol" is a user and has no key record. *)
Definition keyless_keystore : value :=
  VDict [("users",
          VDict [("carol",
                  VDict [("fp_hash", VStr (@hash_fp Model.primitives "tok-c"));
                         ("created", VStr "2024-01-01T00:00:00Z")])]);
         ("keys", VDict []);
         ("current_algo", VStr "fernet")].

Definition keyless : World :=
  snd (@save_keystore_encrypted Model.primitives keyless_keystore Examples.fernet_1
         empty_world).

(** The document the keystore file of [Run.with_alice] holds. *)
Definition alice_keystore : dict :=
  [("users",
    VDict [("alice",
            VDict [("fp_hash", VStr (@hash_fp Model.primitives "tok-123"));
                   ("created", VStr "1700000000000002Z")])]);
   ("keys",
    VDict [("alice",
            VDict [("enc_key",
                    VStr (string_of_list_byte (Base64.b64encode Run.alice_key)));
                   ("algo_history", VList []);
                   ("created", VStr "1700000000000003Z")])]);
   ("current_algo", VStr "fernet");
   ("rotation_history", VList [])].

End Demo.

(* ====================================================================== *)
(** * Facts and theorems *)
(* ====================================================================== *)

(* ===================================================================== *)
(** ** Facts about base64 *)
(* ===================================================================== *)

Module Base64Facts.
Import Base64 Base64Tables.

Lemma byte_of_to_N b : byte_of_N (Byte.to_N b) = b.
Proof.
  unfold byte_of_N. rewrite N.mod_small.
  - now rewrite Byte.of_to_N.
  - pose proof (Byte.to_N_bounded b). lia.
Qed.

Lemma all_bytes_complete b : In b all_bytes.
Proof.
  unfold all_bytes. apply in_map_iff. exists (N.to_nat (Byte.to_N b)). split.
  - rewrite N2Nat.id. apply byte_of_to_N.
  - apply in_seq. pose proof (Byte.to_N_bounded b). lia.
Qed.

Lemma forall_byte (P : byte -> bool) :
  forallb P all_bytes = true -> forall b, P b = true.
Proof.
  intros H b. rewrite forallb_forall in H. apply H, all_bytes_complete.
Qed.

Lemma forall_byte2 (P : byte -> byte -> bool) :
  forallb (fun a => forallb (P a) all_bytes) all_bytes = true ->
  forall a b, P a b = true.
Proof.
  intros H a b.
  apply (forall_byte (P a)). apply (forall_byte _ H).
Qed.

Lemma check12_all a b : check12 a b = true.
Proof. apply forall_byte2. vm_compute. reflexivity. Qed.

Lemma check34_all b c : check34 b c = true.
Proof. apply forall_byte2. vm_compute. reflexivity. Qed.

Lemma list_ind3 {A} (P : list A -> Prop) :
  P [] -> (forall a, P [a]) -> (forall a b, P [a; b]) ->
  (forall a b c l, P l -> P (a :: b :: c :: l)) ->
  forall l, P l.
Proof.
  intros H0 H1 H2 H3. fix IH 1.
  intros [|a [|b [|c l]]]; [apply H0 | apply H1 | apply H2 | apply H3, IH].
Qed.

Lemma digit_ok_spec s :
  digit_ok s = true ->
  Byte.eqb (b2a_char s) BASE64_PAD = false /\ a2b_char (b2a_char s) = Some s.
Proof.
  unfold digit_ok. intros H. apply andb_true_iff in H as [H1 H2].
  apply negb_true_iff in H1. split; [exact H1|].
  destruct (a2b_char (b2a_char s)); [|discriminate].
  apply N.eqb_eq in H2. now subst.
Qed.

Lemma a2b_loop_digit s rest quad_pos leftchar pads out :
  digit_ok s = true ->
  a2b_loop (b2a_char s :: rest) quad_pos leftchar pads out =
  match quad_pos with
  | 0%nat => a2b_loop rest 1 s 0 out
  | 1%nat =>
      a2b_loop rest 2 (N.land s 0x0f) 0
        (out ++ [byte_of_N (N.lor (N.shiftl leftchar 2) (N.shiftr s 4))])
  | 2%nat =>
      a2b_loop rest 3 (N.land s 0x03) 0
        (out ++ [byte_of_N (N.lor (N.shiftl leftchar 4) (N.shiftr s 2))])
  | _ => a2b_loop rest 0 0 0 (out ++ [byte_of_N (N.lor (N.shiftl leftchar 6) s)])
  end.
Proof.
  intros H. apply digit_ok_spec in H as [H1 H2].
  cbn [a2b_loop]. now rewrite H1, H2.
Qed.

Lemma check12_spec a b :
  digit_ok (sextet1 a) = true /\ digit_ok (sextet2 a b) = true
  /\ byte_of_N (N.lor (N.shiftl (sextet1 a) 2) (N.shiftr (sextet2 a b) 4)) = a
  /\ N.land (sextet2 a b) 0x0f = N.shiftr (Byte.to_N b) 4.
Proof.
  pose proof (check12_all a b) as H. unfold check12 in H.
  rewrite !andb_true_iff in H. destruct H as [[[D1 D2] E1] E2].
  repeat split; auto.
  - now apply Byte.byte_dec_bl.
  - now apply N.eqb_eq.
Qed.

Lemma check34_spec b c :
  digit_ok (sextet3 b c) = true /\ digit_ok (sextet4 c) = true
  /\ byte_of_N (N.lor (N.shiftl (N.shiftr (Byte.to_N b) 4) 4) (N.shiftr (sextet3 b c) 2)) = b
  /\ N.land (sextet3 b c) 0x03 = N.shiftr (Byte.to_N c) 6
  /\ byte_of_N (N.lor (N.shiftl (N.shiftr (Byte.to_N c) 6) 6) (sextet4 c)) = c.
Proof.
  pose proof (check34_all b c) as H. unfold check34 in H.
  rewrite !andb_true_iff in H. destruct H as [[[[D3 D4] E3] E4] E5].
  repeat split; auto.
  - now apply Byte.byte_dec_bl.
  - now apply N.eqb_eq.
  - now apply Byte.byte_dec_bl.
Qed.

Lemma b2a_base64_cons3 a b c rest :
  b2a_base64 (a :: b :: c :: rest) =
  b2a_char (sextet1 a) :: b2a_char (sextet2 a b) :: b2a_char (sextet3 b c)
  :: b2a_char (sextet4 c) :: b2a_base64 rest.
Proof. reflexivity. Qed.

Lemma b2a_base64_1 a :
  b2a_base64 [a] =
  [b2a_char (sextet1 a); b2a_char (sextet2 a x00); BASE64_PAD; BASE64_PAD].
Proof.
  cbn [b2a_base64]. unfold sextet1, sextet2.
  change (N.shiftr (Byte.to_N x00) 4) with 0%N. now rewrite N.lor_0_r.
Qed.

Lemma b2a_base64_2 a b :
  b2a_base64 [a; b] =
  [b2a_char (sextet1 a); b2a_char (sextet2 a b); b2a_char (sextet3 b x00); BASE64_PAD].
Proof.
  cbn [b2a_base64]. unfold sextet1, sextet2, sextet3.
  change (N.shiftr (Byte.to_N x00) 6) with 0%N. now rewrite N.lor_0_r.
Qed.

(** Decoding inverts encoding. *)
Lemma a2b_loop_b2a data : forall out,
  a2b_loop (b2a_base64 data) 0 0 0 out = Ok (out ++ data).
Proof.
  induction data as [|a|a b|a b c rest IH] using list_ind3; intros out.
  - cbn. now rewrite app_nil_r.
  - rewrite b2a_base64_1.
    destruct (check12_spec a x00) as (D1 & D2 & E1 & _).
    rewrite (a2b_loop_digit _ _ _ _ _ _ D1), (a2b_loop_digit _ _ _ _ _ _ D2), E1.
    reflexivity.
  - rewrite b2a_base64_2.
    destruct (check12_spec a b) as (D1 & D2 & E1 & E2).
    destruct (check34_spec b x00) as (D3 & _ & E3 & _).
    rewrite (a2b_loop_digit _ _ _ _ _ _ D1), (a2b_loop_digit _ _ _ _ _ _ D2), E1, E2.
    rewrite (a2b_loop_digit _ _ _ _ _ _ D3), E3.
    cbn. now rewrite <- app_assoc.
  - rewrite b2a_base64_cons3.
    destruct (check12_spec a b) as (D1 & D2 & E1 & E2).
    destruct (check34_spec b c) as (D3 & D4 & E3 & E4 & E5).
    rewrite (a2b_loop_digit _ _ _ _ _ _ D1), (a2b_loop_digit _ _ _ _ _ _ D2), E1, E2.
    rewrite (a2b_loop_digit _ _ _ _ _ _ D3), E3, E4.
    rewrite (a2b_loop_digit _ _ _ _ _ _ D4), E5.
    rewrite IH. now rewrite <- !app_assoc.
Qed.

Lemma b64decode_bytes_b64encode data :
  b64decode_bytes (b64encode data) = Ok data.
Proof. apply (a2b_loop_b2a data []). Qed.

(** Every character the encoder writes satisfies [P] when the alphabet and
    the pad do. *)
Lemma b2a_base64_Forall (P : byte -> bool) data :
  forallb P table_b2a_base64 = true -> P BASE64_PAD = true ->
  forallb P (b2a_base64 data) = true.
Proof.
  intros Htab Hpad.
  assert (Hc : forall n, P (b2a_char n) = true).
  { intros n. unfold b2a_char. rewrite forallb_forall in Htab.
    destruct (Nat.lt_ge_cases (N.to_nat n) (List.length table_b2a_base64)) as [Hlt|Hge].
    - apply Htab, nth_In, Hlt.
    - rewrite nth_overflow by exact Hge. apply Htab. vm_compute. tauto. }
  induction data as [|a|a b|a b c rest IH] using list_ind3.
  - reflexivity.
  - cbn [b2a_base64 forallb]. now rewrite !Hc, Hpad.
  - cbn [b2a_base64 forallb]. now rewrite !Hc, Hpad.
  - cbn [b2a_base64 forallb]. now rewrite !Hc, IH.
Qed.

Lemma urlsafe_b64decode_b64encode data :
  urlsafe_b64decode (urlsafe_b64encode data) = Ok data.
Proof.
  unfold urlsafe_b64decode, urlsafe_b64encode.
  rewrite map_map.
  assert (H : map (fun c => urlsafe_decode_char (urlsafe_encode_char c)) (b64encode data)
              = b64encode data).
  { pose proof (b2a_base64_Forall
                  (fun c => Byte.eqb (urlsafe_decode_char (urlsafe_encode_char c)) c)
                  data eq_refl eq_refl) as HF.
    unfold b64encode. induction (b2a_base64 data) as [|c l IHl]; [reflexivity|].
    cbn in HF |- *. apply andb_prop in HF as [Hc Hl].
    apply Byte.byte_dec_bl in Hc. now rewrite Hc, IHl. }
  rewrite H. apply b64decode_bytes_b64encode.
Qed.

Lemma b64encode_graphic data :
  forallb Utf8.is_graphic (b64encode data) = true.
Proof. apply b2a_base64_Forall; reflexivity. Qed.

Lemma urlsafe_b64encode_graphic data :
  forallb Utf8.is_graphic (urlsafe_b64encode data) = true.
Proof.
  unfold urlsafe_b64encode.
  pose proof (b2a_base64_Forall (fun c => Utf8.is_graphic (urlsafe_encode_char c))
                data eq_refl eq_refl) as HF.
  unfold b64encode. rewrite forallb_forall in *.
  intros x Hx. apply in_map_iff in Hx as (c & <- & Hc). now apply HF.
Qed.

(** The url-safe decoder reads the standard alphabet too. *)
Lemma urlsafe_b64decode_std data :
  urlsafe_b64decode (b64encode data) = Ok data.
Proof.
  unfold urlsafe_b64decode.
  assert (H : map urlsafe_decode_char (b64encode data) = b64encode data).
  { pose proof (b2a_base64_Forall (fun c => Byte.eqb (urlsafe_decode_char c) c)
                  data eq_refl eq_refl) as HF.
    unfold b64encode. induction (b2a_base64 data) as [|c l IHl]; [reflexivity|].
    cbn in HF |- *. apply andb_prop in HF as [Hc Hl].
    apply Byte.byte_dec_bl in Hc. now rewrite Hc, IHl. }
  rewrite H. apply b64decode_bytes_b64encode.
Qed.

Lemma b64encode_ascii data : forallb Utf8.is_ascii (b64encode data) = true.
Proof. apply b2a_base64_Forall; reflexivity. Qed.

(** [base64.b64decode(base64.b64encode(data).decode('utf-8'))] *)
Lemma b64decode_b64encode data :
  b64decode (string_of_list_byte (b64encode data)) = Ok data.
Proof.
  unfold b64decode. rewrite list_byte_of_string_of_list_byte.
  rewrite b64encode_ascii. apply b64decode_bytes_b64encode.
Qed.

End Base64Facts.

(* ===================================================================== *)
(** ** Facts about text *)
(* ===================================================================== *)

Module Utf8Facts.

Import Utf8.

Lemma valid_ascii b : forallb is_ascii b = true -> valid b = true.
Proof.
  induction b as [|c b IH]; [reflexivity|].
  cbn [forallb]. intros H. apply andb_true_iff in H as [Hc Hb].
  unfold is_ascii in Hc. cbn [valid]. rewrite Hc. auto.
Qed.

Lemma graphic_ascii c : is_graphic c = true -> is_ascii c = true.
Proof.
  unfold is_graphic, is_ascii, between. rewrite !andb_true_iff, !N.leb_le. lia.
Qed.

Lemma valid_graphic b : forallb is_graphic b = true -> valid b = true.
Proof.
  intros H. apply valid_ascii. rewrite forallb_forall in *.
  intros c Hc. apply graphic_ascii, H, Hc.
Qed.

Lemma decode_valid b : valid b = true -> decode b = Ok (string_of_list_byte b).
Proof. unfold decode. now intros ->. Qed.

Lemma decode_encode s : text s -> decode (encode s) = Ok s.
Proof.
  unfold text, decode, encode. intros ->.
  now rewrite string_of_list_byte_of_string.
Qed.

Lemma encode_string_of b : encode (string_of_list_byte b) = b.
Proof. apply list_byte_of_string_of_list_byte. Qed.

Lemma decode_Ok b s : decode b = Ok s -> encode s = b /\ text s.
Proof.
  unfold decode, text. destruct (valid b) eqn:Hv; [|discriminate].
  intros [= <-]. rewrite encode_string_of. auto.
Qed.

End Utf8Facts.

(* ===================================================================== *)
(** ** Facts about dicts *)
(* ===================================================================== *)

Lemma dict_get_set k k' v d :
  dict_get k' (dict_set k v d) = if String.eqb k' k then Some v else dict_get k' d.
Proof.
  induction d as [|[k0 v0] d IH]; cbn.
  - destruct (String.eqb_spec k' k); reflexivity.
  - destruct (String.eqb_spec k k0) as [->|Hne]; cbn.
    + destruct (String.eqb_spec k' k0); reflexivity.
    + destruct (String.eqb_spec k' k0) as [->|Hne'].
      * destruct (String.eqb_spec k0 k); [congruence|reflexivity].
      * apply IH.
Qed.

Lemma dict_get_set_eq k v d : dict_get k (dict_set k v d) = Some v.
Proof. rewrite dict_get_set. now rewrite String.eqb_refl. Qed.

Lemma dict_get_set_ne k k' v d :
  k' <> k -> dict_get k' (dict_set k v d) = dict_get k' d.
Proof.
  intros H. rewrite dict_get_set.
  destruct (String.eqb_spec k' k); [contradiction|reflexivity].
Qed.

Lemma unique_keys_set k v d :
  unique_keys d = true -> unique_keys (dict_set k v d) = true.
Proof.
  induction d as [|[k0 v0] d IH]; cbn; [reflexivity|].
  destruct (dict_get k0 d) eqn:Hg; [discriminate|]. intros Hu.
  destruct (String.eqb_spec k k0) as [->|Hne]; cbn.
  - now rewrite Hg.
  - rewrite dict_get_set_ne by congruence. rewrite Hg. auto.
Qed.

Lemma wf_values_set k v d :
  wf v = true ->
  forallb (fun kv => wf (snd kv)) d = true ->
  forallb (fun kv => wf (snd kv)) (dict_set k v d) = true.
Proof.
  intros Hv. induction d as [|[k0 v0] d IH]; cbn.
  - now rewrite Hv.
  - intros H. apply andb_true_iff in H as [H0 Hd].
    destruct (String.eqb k k0); cbn; rewrite ?Hv, ?H0; auto.
Qed.

Lemma wf_dict_set k v d :
  wf (VDict d) = true -> wf v = true -> wf (VDict (dict_set k v d)) = true.
Proof.
  cbn. intros H Hv. apply andb_true_iff in H as [Hu Hd].
  now rewrite unique_keys_set, wf_values_set.
Qed.

Lemma wf_dict_get k d v :
  wf (VDict d) = true -> dict_get k d = Some v -> wf v = true.
Proof.
  cbn. intros H. apply andb_true_iff in H as [_ Hd]. revert Hd.
  induction d as [|[k0 v0] d IH]; cbn; [discriminate|].
  intros H. apply andb_true_iff in H as [H0 Hd].
  destruct (String.eqb k k0); [now intros [= <-]|auto].
Qed.

Lemma wf_append l x :
  wf (VList l) = true -> wf x = true -> wf (VList (l ++ [x])) = true.
Proof.
  cbn. intros Hl Hx. rewrite forallb_app. cbn. now rewrite Hl, Hx.
Qed.

(* ===================================================================== *)
(** ** The keystore envelope *)
(* ===================================================================== *)

(** Unfolds the monad's operations. *)
Ltac unfold_monad :=
  cbv [mbind mret M_bind M_ret bind ret lift raise try_except
       result_bind_inst result_ret result_bind].

Section KeystoreFacts.

Context {cfg : Config} {prim : Primitives} {laws : PrimitiveLaws}.

Lemma load_json_pure p w : load_json p w = (Ok (parse_json_file (files w p)), w).
Proof.
  unfold load_json, path_exists, read_text, read_bytes, json_load, parse_json_file.
  unfold_monad. destruct (files w p) as [b|] eqn:Hf; cbn; rewrite ?Hf; [|reflexivity].
  destruct (Utf8.decode b) as [s|e]; [|reflexivity].
  destruct (json_loads s); reflexivity.
Qed.

(** [load_keystore_decrypted] reads the keystore file and changes nothing. *)
Lemma load_keystore_decrypted_pure f w :
  load_keystore_decrypted f w = (open_keystore f (files w KEYSTORE_PATH), w).
Proof.
  unfold load_keystore_decrypted, open_keystore.
  unfold_monad. unfold path_exists at 1.
  destruct (files w KEYSTORE_PATH) as [b|] eqn:Hf; cbn [negb]; [|reflexivity].
  rewrite load_json_pure, Hf.
  set (envelope := parse_json_file (Some b)).
  destruct (truthy envelope); cbn [negb]; [|reflexivity].
  destruct (py_contains "payload" envelope) as [[|]|e]; cbn [negb]; try reflexivity.
  unfold open_envelope. unfold_monad.
  destruct (py_getitem envelope "payload") as [payload|e]; [|destruct (is_InvalidToken e); reflexivity].
  destruct (py_encode payload) as [token|e]; [|destruct (is_InvalidToken e); reflexivity].
  destruct (Fernet_decrypt f token) as [raw|e]; [|destruct (is_InvalidToken e); reflexivity].
  destruct (Utf8.decode raw) as [s|e]; [|destruct (is_InvalidToken e); reflexivity].
  destruct (json_load s) as [v|e]; [|destruct (is_InvalidToken e); reflexivity].
  reflexivity.
Qed.

Lemma Fernet_encrypt_spec f data w :
  Fernet_encrypt f data w =
  (Ok (fernet_token (fernet_key f) (clock w 0%nat / 1000000)%Z
         (map (entropy w) (seq 0 16)) data),
   after_encrypt w).
Proof. reflexivity. Qed.

Lemma save_keystore_encrypted_spec ks f w :
  save_keystore_encrypted ks f w = (Ok tt, after_save ks f w).
Proof.
  unfold save_keystore_encrypted. unfold_monad. rewrite Fernet_encrypt_spec.
  fold (sealed_keystore ks f w).
  rewrite (Utf8Facts.decode_valid (sealed_keystore ks f w))
    by apply Utf8Facts.valid_graphic, fernet_token_graphic.
  unfold save_json_atomic, atomic_write, write_text, write_bytes, os_replace.
  unfold_monad. cbn.
  destruct (decide (with_suffix_tmp KEYSTORE_PATH = with_suffix_tmp KEYSTORE_PATH)); [|congruence].
  reflexivity.
Qed.

Lemma files_after_save ks f w :
  files (after_save ks f w) KEYSTORE_PATH
  = Some (envelope_bytes (sealed_keystore ks f w)).
Proof. reflexivity. Qed.

Lemma files_after_save_other ks f w p :
  p <> KEYSTORE_PATH -> p <> with_suffix_tmp KEYSTORE_PATH ->
  files (after_save ks f w) p = files w p.
Proof.
  intros H1 H2. cbn. unfold update.
  destruct (decide (p = with_suffix_tmp KEYSTORE_PATH)); [contradiction|].
  destruct (decide (p = KEYSTORE_PATH)); [contradiction|reflexivity].
Qed.

Lemma parse_envelope_bytes token :
  parse_json_file (Some (envelope_bytes token)) = envelope_of token.
Proof.
  unfold parse_json_file, envelope_bytes.
  rewrite Utf8Facts.decode_valid by apply Utf8Facts.valid_ascii, json_dumps_indent_ascii.
  unfold Utf8.encode. rewrite string_of_list_byte_of_string.
  now rewrite json_loads_dumps_indent.
Qed.

(** Opening a stored envelope: the key rejects the token, or the payload is
    parsed, and a payload that does not parse gives the default. *)
Lemma open_keystore_envelope f token :
  open_keystore f (Some (envelope_bytes token)) =
  match fernet_open (fernet_key f) token with
  | None => Raise wrong_passphrase
  | Some raw =>
      match (s ← Utf8.decode raw; json_load s) with
      | Ok ks => Ok ks
      | Raise _ => default_keystore
      end
  end.
Proof.
  unfold open_keystore. rewrite parse_envelope_bytes.
  cbn [envelope_of truthy negb py_contains dict_get].
  cbn. unfold open_envelope, Fernet_decrypt. cbn.
  rewrite list_byte_of_string_of_list_byte.
  unfold_monad.
  destruct (fernet_open (fernet_key f) token) as [raw|]; [|reflexivity].
  unfold Utf8.decode. destruct (Utf8.valid raw); [|reflexivity].
  unfold json_load. destruct (json_loads _); reflexivity.
Qed.

Lemma master_key_to_fernet_Ok mk :
  List.length mk = 32%nat -> master_key_to_fernet mk = Ok {| fernet_key := mk |}.
Proof.
  intros H. unfold master_key_to_fernet, Fernet_init.
  rewrite Base64Facts.urlsafe_b64decode_b64encode, H. reflexivity.
Qed.

Lemma master_key_to_fernet_inv mk f :
  master_key_to_fernet mk = Ok f ->
  fernet_key f = mk /\ List.length mk = 32%nat.
Proof.
  unfold master_key_to_fernet, Fernet_init.
  rewrite Base64Facts.urlsafe_b64decode_b64encode.
  destruct (List.length mk =? 32)%nat eqn:H; [|discriminate].
  intros [= <-]. apply Nat.eqb_eq in H. auto.
Qed.

Lemma length_token_bytes n w : List.length (map (entropy w) (seq 0 n)) = n.
Proof. now rewrite length_map, length_seq. Qed.

(** Saving and loading with the same key gives the document back. *)
Lemma load_after_save ks f w :
  List.length (fernet_key f) = 32%nat -> wf ks = true ->
  open_keystore f (files (after_save ks f w) KEYSTORE_PATH) = Ok ks.
Proof.
  intros Hk Hwf. rewrite files_after_save, open_keystore_envelope.
  unfold sealed_keystore.
  rewrite fernet_open_token by (auto using length_token_bytes).
  rewrite Utf8Facts.decode_valid by apply Utf8Facts.valid_ascii, json_dumps_ascii.
  unfold_monad. unfold Utf8.encode. rewrite string_of_list_byte_of_string.
  unfold json_load. now rewrite json_loads_dumps.
Qed.

End KeystoreFacts.

(* ===================================================================== *)
(** ** The model satisfies the laws *)
(* ===================================================================== *)

Module ModelFacts.

Import Model.

(** Induction on values, through their lists. *)
Lemma value_ind_nested (P : value -> Prop) :
  P VNone -> (forall b, P (VBool b)) -> (forall n, P (VInt n)) ->
  (forall s, P (VStr s)) ->
  (forall l, Forall P l -> P (VList l)) ->
  (forall d, Forall (fun kv => P (snd kv)) d -> P (VDict d)) ->
  forall v, P v.
Proof.
  intros HN HB HI HS HL HD. fix IH 1. intros [|b|n|s|l|d].
  - exact HN.
  - apply HB.
  - apply HI.
  - apply HS.
  - apply HL. induction l as [|x l IHl]; constructor; [apply IH|exact IHl].
  - apply HD. induction d as [|[k x] d IHd]; constructor; [apply IH|exact IHd].
Qed.

Lemma of_tree_to_tree v : of_tree (to_tree v) = Some v.
Proof.
  induction v as [|[]|n|s|l IH|d IH] using value_ind_nested; try reflexivity.
  - cbn [to_tree of_tree]. induction IH as [|x l Hx _ IHl]; [reflexivity|].
    cbn [map]. rewrite Hx.
    cbn [option_map] in IHl |- *.
    match type of IHl with option_map _ ?g = _ => destruct g as [l'|] eqn:Hg end;
      [|discriminate].
    cbn in IHl. injection IHl as ->. reflexivity.
  - cbn [to_tree of_tree]. induction IH as [|[k x] d Hx _ IHd]; [reflexivity|].
    cbn [snd] in Hx. rewrite Hx.
    match type of IHd with option_map _ ?g = _ => destruct g as [d'|] eqn:Hg end;
      [|discriminate].
    cbn in IHd. injection IHd as ->. reflexivity.
Qed.

Lemma of_numeral_numeral p : of_numeral (numeral p) = Some p.
Proof. induction p as [p IH|p IH|]; cbn; rewrite ?IH; reflexivity. Qed.

Lemma json_loads_dumps v : wf v = true -> json_loads (json_dumps v) = Some v.
Proof.
  intros H. unfold json_loads, json_dumps.
  now rewrite of_numeral_numeral, decode_encode, of_tree_to_tree, H.
Qed.

Lemma json_loads_wf s v : json_loads s = Some v -> wf v = true.
Proof.
  unfold json_loads.
  destruct (of_numeral s) as [p|]; [|discriminate].
  destruct (decode p) as [t|]; [|discriminate].
  destruct (of_tree t) as [v'|]; [|discriminate].
  destruct (wf v') eqn:H; [|discriminate]. now intros [= <-].
Qed.

Lemma json_dumps_ascii v :
  forallb Utf8.is_ascii (Utf8.encode (json_dumps v)) = true.
Proof.
  unfold json_dumps, Utf8.encode. induction (encode (to_tree v)) as [p IH|p IH|].
  - exact IH.
  - exact IH.
  - reflexivity.
Qed.

Lemma pbkdf2_length n salt iterations password :
  List.length (pbkdf2_hmac_sha256 n salt iterations password) = n.
Proof.
  unfold pbkdf2_hmac_sha256.
  rewrite length_take, !length_app, length_replicate. lia.
Qed.

Lemma last_drop_snoc {A} n (l : list A) x :
  last (drop n (l ++ [x])) = Some x \/ drop n (l ++ [x]) = [].
Proof.
  destruct (decide (n <= List.length l)%nat) as [Hle|Hgt].
  - left. rewrite drop_app_le by exact Hle. apply last_snoc.
  - right. apply drop_ge. rewrite length_app. cbn. lia.
Qed.

Lemma fernet_open_token k t iv m :
  List.length k = 32%nat -> List.length iv = 16%nat ->
  fernet_open k (fernet_token k t iv m) = Some m.
Proof.
  intros Hk Hiv. unfold fernet_open, fernet_token.
  rewrite Base64Facts.urlsafe_b64decode_std.
  rewrite bool_decide_eq_true_2.
  - f_equal. rewrite !length_app, Hk, Hiv. cbn [List.length].
    replace (32 + (16 + (List.length m + 1)) - 49)%nat with (List.length m) by lia.
    rewrite (app_assoc k iv), drop_app_length' by (rewrite length_app; lia).
    now rewrite take_app_length.
  - repeat split.
    + exact Hk.
    + now apply take_app_length'.
    + rewrite !app_assoc. apply last_snoc.
    + rewrite !length_app. cbn. lia.
Qed.

Lemma fernet_wrong_key k k' t iv m :
  List.length k = 32%nat -> List.length k' = 32%nat -> k <> k' ->
  fernet_open k' (fernet_token k t iv m) = None.
Proof.
  intros Hk Hk' Hne. unfold fernet_open, fernet_token.
  rewrite Base64Facts.urlsafe_b64decode_std.
  rewrite bool_decide_eq_false_2; [reflexivity|].
  intros (_ & Ht & _). rewrite take_app_length' in Ht by auto. contradiction.
Qed.

Lemma split_last {A} (l : list A) x :
  last l = Some x -> l = take (List.length l - 1) l ++ [x].
Proof.
  intros H. apply last_Some in H as [l' ->].
  rewrite length_app. cbn.
  replace (List.length l' + 1 - 1)%nat with (List.length l') by lia.
  now rewrite take_app_length.
Qed.

Lemma last_drop_lt {A} n (l : list A) :
  (n < List.length l)%nat -> last (drop n l) = last l.
Proof.
  intros H. rewrite <- (take_drop n l) at 2.
  rewrite last_app. destruct (last (drop n l)) eqn:Hl; [reflexivity|].
  apply last_None in Hl. apply (f_equal List.length) in Hl.
  rewrite length_drop in Hl. cbn in Hl. lia.
Qed.

Lemma fernet_authentic k token m :
  fernet_open k token = Some m ->
  exists t iv,
    List.length iv = 16%nat
    /\ Base64.urlsafe_b64decode token
       = Base64.urlsafe_b64decode (fernet_token k t iv m).
Proof.
  unfold fernet_open. destruct (Base64.urlsafe_b64decode token) as [raw|] eqn:Hd;
    [|discriminate].
  case_bool_decide as Hc; [|discriminate]. intros [= <-].
  destruct Hc as (Hk & Ht & Hl & Hlen).
  exists 0%Z, (take 16 (drop 32 raw)). split.
  - rewrite length_take, length_drop. lia.
  - unfold fernet_token. rewrite Base64Facts.urlsafe_b64decode_std. f_equal.
    rewrite <- Ht.
    rewrite <- (take_drop 32 raw) at 1. f_equal.
    rewrite <- (take_drop 16 (drop 32 raw)) at 1. f_equal.
    rewrite drop_drop. change (32 + 16)%nat with 48%nat.
    assert (Hl' : last (drop 48 raw) = Some marker_F)
      by (rewrite last_drop_lt by lia; exact Hl).
    apply split_last in Hl'. rewrite length_drop in Hl'.
    replace (List.length raw - 48 - 1)%nat with (List.length raw - 49)%nat in Hl' by lia.
    exact Hl'.
Qed.

Lemma chacha20poly1305_open_seal k n m :
  List.length k = 32%nat -> List.length n = 12%nat ->
  chacha20poly1305_open k n (chacha20poly1305_seal k n m) = Some m.
Proof.
  intros Hk Hn. unfold chacha20poly1305_open, chacha20poly1305_seal.
  rewrite bool_decide_eq_true_2.
  - f_equal. rewrite !length_app, Hk, Hn. cbn [List.length].
    replace (32 + (12 + (List.length m + 1)) - 45)%nat with (List.length m) by lia.
    rewrite (app_assoc k n), drop_app_length' by (rewrite length_app; lia).
    now rewrite take_app_length.
  - repeat split; auto.
    + now apply take_app_length'.
    + rewrite drop_app_length' by auto. now apply take_app_length'.
    + rewrite !app_assoc. apply last_snoc.
    + rewrite !length_app. cbn. lia.
Qed.

Lemma chacha20poly1305_wrong_key k k' n m :
  List.length k = 32%nat -> List.length k' = 32%nat -> k <> k' ->
  chacha20poly1305_open k' n (chacha20poly1305_seal k n m) = None.
Proof.
  intros Hk Hk' Hne. unfold chacha20poly1305_open, chacha20poly1305_seal.
  rewrite bool_decide_eq_false_2; [reflexivity|].
  intros (_ & _ & Ht & _). rewrite take_app_length' in Ht by auto. contradiction.
Qed.

Lemma chacha20poly1305_authentic k n c m :
  chacha20poly1305_open k n c = Some m -> c = chacha20poly1305_seal k n m.
Proof.
  unfold chacha20poly1305_open, chacha20poly1305_seal.
  case_bool_decide as Hc; [|discriminate]. intros [= <-].
  destruct Hc as (Hk & Hn & Htk & Htn & Hl & Hlen).
  rewrite <- (take_drop 32 c) at 1. rewrite Htk. f_equal.
  rewrite <- (take_drop 12 (drop 32 c)) at 1. rewrite Htn. f_equal.
  rewrite drop_drop. change (32 + 12)%nat with 44%nat.
  assert (Hl' : last (drop 44 c) = Some marker_C)
    by (rewrite last_drop_lt by lia; exact Hl).
  apply split_last in Hl'. rewrite length_drop in Hl'.
  replace (List.length c - 44 - 1)%nat with (List.length c - 45)%nat in Hl' by lia.
  exact Hl'.
Qed.

Lemma fernet_rejects_chacha k k' n m :
  fernet_open k (Base64.b64encode (n ++ chacha20poly1305_seal k' n m)) = None.
Proof.
  unfold fernet_open, chacha20poly1305_seal.
  rewrite Base64Facts.urlsafe_b64decode_std.
  rewrite bool_decide_eq_false_2; [reflexivity|].
  intros (_ & _ & Hl & _). rewrite !app_assoc, last_snoc in Hl. discriminate.
Qed.

Lemma chacha_rejects_fernet k k' t iv m data :
  Base64.b64decode_bytes (fernet_token k t iv m) = Ok data ->
  chacha20poly1305_open k' (take 12 data) (drop 12 data) = None.
Proof.
  unfold fernet_token. rewrite Base64Facts.b64decode_bytes_b64encode.
  intros [= <-]. unfold chacha20poly1305_open.
  rewrite bool_decide_eq_false_2; [reflexivity|].
  intros (_ & _ & _ & _ & Hl & _).
  rewrite !app_assoc in Hl.
  destruct (last_drop_snoc 12 ((k ++ iv) ++ m) marker_F) as [H|H];
    rewrite H in Hl; discriminate.
Qed.

Lemma fernet_token_graphic k t iv m :
  forallb Utf8.is_graphic (fernet_token k t iv m) = true.
Proof. apply Base64Facts.b64encode_graphic. Qed.

Lemma laws : @PrimitiveLaws primitives.
Proof.
  constructor.
  - exact pbkdf2_length.
  - exact fernet_open_token.
  - exact fernet_token_graphic.
  - exact chacha20poly1305_open_seal.
  - exact json_loads_dumps.
  - exact json_loads_dumps.
  - exact json_loads_wf.
  - exact json_dumps_ascii.
  - exact json_dumps_ascii.
Qed.

Lemma pbkdf2_salt_injective n salt salt' iterations password :
  (16 <= n)%nat -> List.length salt = 16%nat -> List.length salt' = 16%nat ->
  salt <> salt' ->
  pbkdf2_hmac_sha256 n salt iterations password
  <> pbkdf2_hmac_sha256 n salt' iterations password.
Proof.
  intros Hn Hs Hs' Hne Heq. apply Hne.
  apply (f_equal (take 16)) in Heq. unfold pbkdf2_hmac_sha256 in Heq.
  rewrite !take_take, !Nat.min_l in Heq by exact Hn.
  now rewrite !take_app_length' in Heq by auto.
Qed.

Lemma sha256_injective data data' :
  sha256_hexdigest data = sha256_hexdigest data' -> data = data'.
Proof.
  unfold sha256_hexdigest. intros H.
  apply (f_equal list_byte_of_string) in H.
  rewrite !list_byte_of_string_of_list_byte in H.
  apply (f_equal Base64.b64decode_bytes) in H.
  rewrite !Base64Facts.b64decode_bytes_b64encode in H. congruence.
Qed.

Lemma perfect : @PerfectCrypto primitives.
Proof.
  constructor.
  - exact fernet_wrong_key.
  - exact fernet_authentic.
  - exact chacha20poly1305_wrong_key.
  - exact chacha20poly1305_authentic.
  - exact fernet_rejects_chacha.
  - exact chacha_rejects_fernet.
  - exact sha256_injective.
  - exact pbkdf2_salt_injective.
Qed.

End ModelFacts.

(* ===================================================================== *)
(** ** Master key derivation; the envelope theorems *)
(* ===================================================================== *)

Section MasterKey.

Context {cfg : Config} {prim : Primitives} {laws : PrimitiveLaws}.

Lemma _ensure_salt_spec w : _ensure_salt w = (Ok (salt_of w), after_ensure_salt w).
Proof.
  unfold _ensure_salt, salt_of, after_ensure_salt, path_exists, read_bytes.
  unfold_monad. destruct (files w SALT_PATH) as [s|] eqn:Hs; cbn; rewrite ?Hs; reflexivity.
Qed.

Lemma derive_master_key_spec passphrase w :
  derive_master_key passphrase w =
  (Ok (pbkdf2_hmac_sha256 32 (salt_of w) KDF_ITERATIONS (Utf8.encode passphrase)),
   after_ensure_salt w).
Proof.
  unfold derive_master_key. unfold_monad. now rewrite _ensure_salt_spec.
Qed.

Lemma files_after_ensure_salt w :
  files (after_ensure_salt w) SALT_PATH = Some (salt_of w).
Proof.
  unfold after_ensure_salt, salt_of.
  destruct (files w SALT_PATH) as [s|] eqn:Hs; [exact Hs|].
  cbn. unfold update. now destruct (decide (SALT_PATH = SALT_PATH)).
Qed.

Lemma files_after_ensure_salt_other w p :
  p <> SALT_PATH -> files (after_ensure_salt w) p = files w p.
Proof.
  intros Hp. unfold after_ensure_salt.
  destruct (files w SALT_PATH); [reflexivity|].
  cbn. unfold update. now destruct (decide (p = SALT_PATH)).
Qed.

Lemma salt_persisted w : salt_of (after_ensure_salt w) = salt_of w.
Proof. unfold salt_of at 1. now rewrite files_after_ensure_salt. Qed.

Lemma after_ensure_salt_idem w :
  after_ensure_salt (after_ensure_salt w) = after_ensure_salt w.
Proof. unfold after_ensure_salt at 1. now rewrite files_after_ensure_salt. Qed.

End MasterKey.

Section EnvelopeClaims.

Context {cfg : Config} {prim : Primitives} {laws : PrimitiveLaws}.

(** C1.  A keystore saved under one key and loaded under a key that rejects
    the stored token: [load_keystore_decrypted] raises the error "Master
    passphrase doesn't match stored keystore." and does not return the default
    document, in every later world that holds the same keystore file. *)
Theorem wrong_key_raises_wrong_passphrase
    (ks : value) (f1 f2 : Fernet) (w w0 : World) (token : bytes) :
  Fernet_encrypt f1 (Utf8.encode (json_dumps ks)) w = (Ok token, w0) ->
  Fernet_decrypt f2 token = Raise (Exn InvalidToken "") ->
  exists w1,
    save_keystore_encrypted ks f1 w = (Ok tt, w1)
    /\ forall w2, files w2 KEYSTORE_PATH = files w1 KEYSTORE_PATH ->
         load_keystore_decrypted f2 w2 = (Raise wrong_passphrase, w2)
         /\ Raise wrong_passphrase <> default_keystore.
Proof.
  intros Henc Hdec. exists (after_save ks f1 w). split.
  - apply save_keystore_encrypted_spec.
  - intros w2 Hfiles. split.
    + rewrite load_keystore_decrypted_pure, Hfiles, files_after_save.
      rewrite open_keystore_envelope.
      rewrite Fernet_encrypt_spec in Henc.
      assert (Htok : sealed_keystore ks f1 w = token)
        by (unfold sealed_keystore; congruence).
      rewrite Htok. unfold Fernet_decrypt in Hdec.
      destruct (fernet_open (fernet_key f2) token); [discriminate|reflexivity].
    + unfold default_keystore, ALGORITHMS_0. destruct ALGORITHMS; discriminate.
Qed.

(** C2.  For every passphrase and every document, saving the document under
    the key derived from the passphrase, deriving the key again and loading
    returns the document. *)
Theorem keystore_round_trip (passphrase : string) (ks : value) (w : World) :
  wf ks = true ->
  exists w',
    (mk ← derive_master_key passphrase;
     f ← lift (master_key_to_fernet mk);
     save_keystore_encrypted ks f;;
     mk' ← derive_master_key passphrase;
     f' ← lift (master_key_to_fernet mk');
     load_keystore_decrypted f') w = (Ok ks, w').
Proof.
  intros Hwf. unfold_monad.
  rewrite derive_master_key_spec.
  set (mk := pbkdf2_hmac_sha256 32 (salt_of w) KDF_ITERATIONS (Utf8.encode passphrase)).
  assert (Hlen : List.length mk = 32%nat) by apply pbkdf2_length.
  rewrite (master_key_to_fernet_Ok mk Hlen).
  rewrite save_keystore_encrypted_spec.
  rewrite derive_master_key_spec.
  set (w1 := after_save _ _ _).
  assert (Hsalt : salt_of w1 = salt_of w).
  { unfold salt_of at 1. unfold w1.
    rewrite files_after_save_other by discriminate.
    now rewrite files_after_ensure_salt. }
  rewrite Hsalt. fold mk. rewrite (master_key_to_fernet_Ok mk Hlen).
  rewrite load_keystore_decrypted_pure.
  rewrite files_after_ensure_salt_other by discriminate.
  unfold w1. rewrite load_after_save by auto.
  eexists. reflexivity.
Qed.

(** C10.  The envelope file parses, its payload decrypts under the key, and
    the decrypted bytes are not UTF-8 or not JSON: [load_keystore_decrypted]
    raises nothing and returns the default document. *)
Theorem corrupt_payload_gives_default
    (f : Fernet) (w : World) (envelope : value) (payload : string) (raw : bytes)
    (e : exn) (a : string) (rest : list string) :
  ALGORITHMS = a :: rest ->
  load_json KEYSTORE_PATH w = (Ok envelope, w) ->
  py_getitem envelope "payload" = Ok (VStr payload) ->
  Fernet_decrypt f (Utf8.encode payload) = Ok raw ->
  (s ← Utf8.decode raw; json_load s) = Raise e ->
  load_keystore_decrypted f w =
  (Ok (VDict [("users", VDict []); ("keys", VDict []); ("current_algo", VStr a)]), w).
Proof.
  intros Halg Hjson Hitem Hdec Hparse.
  rewrite load_keystore_decrypted_pure. f_equal.
  rewrite load_json_pure in Hjson. injection Hjson as Henv.
  assert (Hdef : default_keystore
                 = Ok (VDict [("users", VDict []); ("keys", VDict []);
                              ("current_algo", VStr a)])).
  { unfold default_keystore, ALGORITHMS_0. now rewrite Halg. }
  unfold open_keystore.
  destruct (files w KEYSTORE_PATH) as [b|] eqn:Hf.
  2:{ cbn in Henv. subst envelope. discriminate. }
  rewrite Henv.
  destruct envelope as [| | | | |d]; try discriminate.
  cbn in Hitem. destruct (dict_get "payload" d) as [x|] eqn:Hg; [|discriminate].
  injection Hitem as ->.
  assert (Ht : truthy (VDict d) = true) by (destruct d; [discriminate|reflexivity]).
  rewrite Ht. cbn [negb py_contains]. rewrite Hg. cbn [negb].
  unfold open_envelope. cbn [py_getitem]. rewrite Hg.
  unfold_monad. cbn [py_encode]. fold (Utf8.encode payload). rewrite Hdec.
  revert Hparse. unfold_monad. unfold Utf8.decode, json_load.
  destruct (Utf8.valid raw).
  - destruct (json_loads _); [discriminate|]. intros _. exact Hdef.
  - intros _. exact Hdef.
Qed.

End EnvelopeClaims.

Section DerivationClaims.

Context {cfg : Config} {prim : Primitives} {laws : PrimitiveLaws}
        {perfect : PerfectCrypto}.

(** C9.  Deriving twice with the persisted salt gives the same 32 bytes;
    two different 16-byte salts give different keys; the salt is 16 random
    bytes written when there is no salt file, and a salt file that exists is
    read and left as it is. *)
Theorem derive_master_key_salted (passphrase : string) (w : World) :
  (exists key w1,
      derive_master_key passphrase w = (Ok key, w1)
      /\ List.length key = 32%nat
      /\ derive_master_key passphrase w1 = (Ok key, w1)
      /\ (forall s, files w SALT_PATH = Some s ->
            w1 = w
            /\ key = pbkdf2_hmac_sha256 32 s KDF_ITERATIONS (Utf8.encode passphrase))
      /\ (files w SALT_PATH = None ->
            exists s, token_bytes 16 w = (Ok s, set_entropy (entropy w1) w)
                      /\ List.length s = 16%nat
                      /\ files w1 SALT_PATH = Some s
                      /\ key = pbkdf2_hmac_sha256 32 s KDF_ITERATIONS
                                 (Utf8.encode passphrase)))
  /\ (forall w' s s',
        files w SALT_PATH = Some s -> files w' SALT_PATH = Some s' ->
        List.length s = 16%nat -> List.length s' = 16%nat -> s <> s' ->
        fst (derive_master_key passphrase w) <> fst (derive_master_key passphrase w')).
Proof.
  split.
  - eexists _, _. split; [apply derive_master_key_spec|].
    split; [apply pbkdf2_length|].
    split.
    { rewrite derive_master_key_spec, salt_persisted, after_ensure_salt_idem.
      reflexivity. }
    split.
    + intros s Hs. unfold after_ensure_salt, salt_of. now rewrite Hs.
    + intros Hs. exists (map (entropy w) (seq 0 16)).
      unfold after_ensure_salt, salt_of. rewrite Hs. cbn.
      split; [reflexivity|]. split; [reflexivity|]. split; [|reflexivity].
      unfold update. now destruct (decide (SALT_PATH = SALT_PATH)).
  - intros w' s s' Hs Hs' Hl Hl' Hne.
    rewrite !derive_master_key_spec. cbn [fst]. unfold salt_of.
    rewrite Hs, Hs'. intros [= Heq]. revert Heq.
    apply pbkdf2_salt_injective; auto. lia.
Qed.

End DerivationClaims.

Lemma wrong_key_raises_wrong_passphrase_witness :
  exists w1,
    @save_keystore_encrypted Model.primitives Examples.fresh_keystore Examples.fernet_1
      empty_world = (Ok tt, w1)
    /\ forall w2, files w2 KEYSTORE_PATH = files w1 KEYSTORE_PATH ->
         @load_keystore_decrypted vault_config Model.primitives Examples.fernet_2 w2
         = (Raise wrong_passphrase, w2)
         /\ Raise wrong_passphrase <> @default_keystore vault_config.
Proof.
  eapply (@wrong_key_raises_wrong_passphrase vault_config Model.primitives
            ModelFacts.laws Examples.fresh_keystore Examples.fernet_1 Examples.fernet_2
            empty_world).
  - reflexivity.
  - vm_compute. reflexivity.
Defined.

Lemma keystore_round_trip_witness :
  wf Examples.fresh_keystore = true
  /\ exists w',
       (mk ← @derive_master_key vault_config Model.primitives "correct-horse";
        f ← lift (master_key_to_fernet mk);
        @save_keystore_encrypted Model.primitives Examples.fresh_keystore f;;
        mk' ← @derive_master_key vault_config Model.primitives "correct-horse";
        f' ← lift (master_key_to_fernet mk');
        @load_keystore_decrypted vault_config Model.primitives f') empty_world
       = (Ok Examples.fresh_keystore, w').
Proof.
  split; [reflexivity|].
  apply (@keystore_round_trip vault_config Model.primitives ModelFacts.laws).
  reflexivity.
Defined.

(* ===================================================================== *)
(** ** The worlds the operations leave *)
(* ===================================================================== *)

Section Worlds.

Context {cfg : Config} {prim : Primitives} {laws : PrimitiveLaws}.

Lemma print_spec s w : print s w = (Ok tt, after_print s w).
Proof. reflexivity. Qed.

Lemma now_iso_spec w : now_iso w = (Ok (isoformat (clock w 0%nat) +:+ "Z"), after_tick w).
Proof. reflexivity. Qed.

Lemma token_bytes_spec n w :
  token_bytes n w = (Ok (map (entropy w) (seq 0 n)), after_random n w).
Proof. reflexivity. Qed.

Lemma append_audit_spec entry w : append_audit entry w = (Ok tt, after_audit entry w).
Proof. reflexivity. Qed.

Lemma read_line_spec l rest w :
  stdin w = l :: rest -> read_line w = (Ok l, after_line w).
Proof. unfold read_line, after_line. now intros ->. Qed.

Lemma secrets_choice_spec a l w :
  secrets_choice (a :: l) w
  = (Ok (nth (Byte.to_nat (entropy w 0%nat) mod List.length (a :: l)) (a :: l) a),
     after_random 1 w).
Proof. reflexivity. Qed.

Lemma secrets_choice_In (a : string) (l : list string) (w : World) :
  In (nth (Byte.to_nat (entropy w 0%nat) mod List.length (a :: l)) (a :: l) a) (a :: l).
Proof. apply nth_In, Nat.mod_upper_bound. discriminate. Qed.

Lemma load_keystore_decrypted_spec f w :
  load_keystore_decrypted f w = (keystore_of f w, w).
Proof. apply load_keystore_decrypted_pure. Qed.

Lemma default_keystore_wf ks : default_keystore = Ok ks -> wf ks = true.
Proof.
  unfold default_keystore, ALGORITHMS_0. destruct ALGORITHMS; [discriminate|].
  cbn. now intros [= <-].
Qed.

(** A document read from the keystore is well formed. *)
Lemma keystore_of_wf f w ks : keystore_of f w = Ok ks -> wf ks = true.
Proof.
  unfold keystore_of, open_keystore.
  destruct (files w KEYSTORE_PATH) as [b|]; [|apply default_keystore_wf].
  destruct (negb (truthy _)); [apply default_keystore_wf|].
  destruct (py_contains _ _) as [[|]|]; cbn [negb];
    [|apply default_keystore_wf|discriminate].
  destruct (open_envelope f _) as [ks'|e] eqn:He.
  - intros [= <-]. revert He. unfold open_envelope. unfold_monad.
    destruct (py_getitem _ _); [|discriminate].
    destruct (py_encode _); [|discriminate].
    destruct (Fernet_decrypt _ _); [|discriminate].
    destruct (Utf8.decode _); [|discriminate].
    unfold json_load. destruct (json_loads _) eqn:Hj; [|discriminate].
    intros [= <-]. eapply json_loads_wf, Hj.
  - destruct (is_InvalidToken e); [discriminate|apply default_keystore_wf].
Qed.

Lemma keystore_of_after_save ks f w :
  List.length (fernet_key f) = 32%nat -> wf ks = true ->
  keystore_of f (after_save ks f w) = Ok ks.
Proof. apply load_after_save. Qed.

End Worlds.

(* ===================================================================== *)
(** ** Rotation *)
(* ===================================================================== *)

Lemma dict_set_set k v v' d : dict_set k v (dict_set k v' d) = dict_set k v d.
Proof.
  induction d as [|[k0 v0] d IH]; cbn.
  - now rewrite String.eqb_refl.
  - destruct (String.eqb_spec k k0) as [->|Hne]; cbn.
    + now rewrite String.eqb_refl.
    + destruct (String.eqb_spec k k0); [contradiction|]. now rewrite IH.
Qed.

Section Rotation.

Context {cfg : Config} {prim : Primitives} {laws : PrimitiveLaws}.

Lemma rotate_algorithm_noop f w d current :
  keystore_of f w = Ok (VDict d) ->
  get_current_algo (VDict d) = Ok current ->
  rotation_choices current = [] ->
  rotate_algorithm f w = (Ok tt, after_print "No alternative algorithm available." w).
Proof.
  intros Hks Hcur Hch. unfold rotate_algorithm. unfold_monad.
  rewrite load_keystore_decrypted_spec, Hks, Hcur, Hch. reflexivity.
Qed.

Lemma rotate_algorithm_success f w d current :
  keystore_of f w = Ok (VDict d) ->
  get_current_algo (VDict d) = Ok current ->
  rotation_choices current <> [] ->
  history_ok d ->
  rotate_algorithm f w = (Ok tt, after_rotation f d current w).
Proof.
  intros Hks Hcur Hch Hh. unfold rotate_algorithm, after_rotation, chosen. unfold_monad.
  rewrite load_keystore_decrypted_spec, Hks, Hcur.
  destruct (rotation_choices current) as [|a l] eqn:Hc; [contradiction|].
  rewrite secrets_choice_spec.
  set (new_algo := nth _ (a :: l) a).
  assert (Hnew : nth (Byte.to_nat (entropy w 0%nat) mod List.length (a :: l)) (a :: l) ""
                 = new_algo).
  { apply nth_indep, Nat.mod_upper_bound. discriminate. }
  rewrite Hnew.
  cbn [py_setitem py_setdefault].
  set (w1 := after_random 1 w).
  assert (Hg : dict_get "rotation_history" (dict_set "current_algo" (VStr new_algo) d)
               = dict_get "rotation_history" d) by (now apply dict_get_set_ne).
  rewrite Hg. unfold rotated, history_of.
  destruct Hh as [Hn|[h Hs]].
  - rewrite Hn. cbn [py_append]. rewrite now_iso_spec. cbn [py_setitem].
    rewrite dict_set_set. rewrite append_audit_spec, save_keystore_encrypted_spec.
    reflexivity.
  - rewrite Hs. cbn [py_append]. rewrite now_iso_spec. cbn [py_setitem].
    rewrite append_audit_spec, save_keystore_encrypted_spec.
    reflexivity.
Qed.

Lemma eq_str_true v s : eq_str v s = true -> v = VStr s.
Proof.
  destruct v; try discriminate. cbn. intros H. apply String.eqb_eq in H. now subst.
Qed.

Lemma rotation_choices_In current a :
  In a (rotation_choices current) -> In a ALGORITHMS /\ VStr a <> current.
Proof.
  unfold rotation_choices. rewrite filter_In. intros [Hin Hne]. split; [exact Hin|].
  intros <-. cbn in Hne. now rewrite String.eqb_refl in Hne.
Qed.

Lemma chosen_In choices w : choices <> [] -> In (chosen choices w) choices.
Proof.
  intros H. unfold chosen. apply nth_In, Nat.mod_upper_bound.
  destruct choices; [contradiction|discriminate].
Qed.

Lemma history_of_wf d : wf (VDict d) = true -> wf (VList (history_of d)) = true.
Proof.
  intros H. unfold history_of.
  destruct (dict_get "rotation_history" d) as [[| | | |l|]|] eqn:Hg; try reflexivity.
  eapply wf_dict_get; eauto.
Qed.

Lemma get_current_algo_wf d current :
  wf (VDict d) = true -> get_current_algo (VDict d) = Ok current -> wf current = true.
Proof.
  intros H. unfold get_current_algo. unfold_monad.
  destruct ALGORITHMS_0 as [a|]; [|discriminate]. cbn.
  destruct (dict_get "current_algo" d) eqn:Hg; intros [= <-]; [|reflexivity].
  eapply wf_dict_get; eauto.
Qed.

Lemma rotated_wf d current new_algo when :
  wf (VDict d) = true -> wf current = true ->
  wf (VDict (rotated d current new_algo when)) = true.
Proof.
  intros Hd Hc. unfold rotated. apply wf_dict_set.
  - now apply wf_dict_set.
  - apply wf_append; [now apply history_of_wf|]. cbn. now rewrite Hc.
Qed.

Lemma keystore_of_after_rotation f w d current :
  List.length (fernet_key f) = 32%nat ->
  wf (VDict d) = true -> wf current = true ->
  keystore_of f (after_rotation f d current w)
  = Ok (VDict (rotated d current (chosen (rotation_choices current) w)
                 (isoformat (clock w 0%nat) +:+ "Z"))).
Proof.
  intros Hk Hd Hc. unfold after_rotation.
  change (keystore_of f (after_print ?s ?w')) with (keystore_of f w').
  rewrite keystore_of_after_save; auto using rotated_wf.
Qed.

Lemma init_first_time_spec f w a rest :
  files w KEYSTORE_PATH = None -> ALGORITHMS = a :: rest ->
  init_first_time f w =
  (Ok tt,
   after_audit "INIT keystore"
     (after_save (VDict [("users", VDict []); ("keys", VDict []);
                         ("current_algo", VStr a); ("rotation_history", VList [])])
        f w)).
Proof.
  intros Hf Ha. unfold init_first_time, path_exists, ALGORITHMS_0. unfold_monad.
  rewrite Hf, Ha. cbn. rewrite save_keystore_encrypted_spec. reflexivity.
Qed.

Lemma chained_snoc init hist cur when new_algo :
  chained init hist cur ->
  chained init (hist ++ [rotation_entry when cur new_algo]) (VStr new_algo).
Proof.
  revert init. induction hist as [|e hist IH]; intros init; cbn.
  - intros ->. split; [reflexivity|]. exists (VStr new_algo). split; reflexivity.
  - intros (Hfrom & to & Hto & Hrest). split; [exact Hfrom|].
    exists to. split; [exact Hto|]. apply IH, Hrest.
Qed.

(** [n] rotations, each finding an alternative, extend a chained history by
    [n] entries. *)
Lemma rotations_chain f init a0 rest n :
  List.length (fernet_key f) = 32%nat ->
  ALGORITHMS = a0 :: rest ->
  (forall current, rotation_choices current <> []) ->
  forall w d hist cur,
    keystore_of f w = Ok (VDict d) ->
    dict_get "rotation_history" d = Some (VList hist) ->
    dict_get "current_algo" d = Some cur ->
    chained init hist cur ->
    exists w' d' hist' cur',
      rotations f n w = (Ok tt, w')
      /\ keystore_of f w' = Ok (VDict d')
      /\ dict_get "rotation_history" d' = Some (VList hist')
      /\ List.length hist' = (List.length hist + n)%nat
      /\ dict_get "current_algo" d' = Some cur'
      /\ chained init hist' cur'.
Proof.
  intros Hk Ha Halt. induction n as [|n IH]; intros w d hist cur Hks Hh Hc Hch.
  - exists w, d, hist, cur. repeat split; auto.
  - assert (Hwf : wf (VDict d) = true) by (eapply keystore_of_wf; eauto).
    assert (Hcur : get_current_algo (VDict d) = Ok cur).
    { unfold get_current_algo, ALGORITHMS_0. rewrite Ha. cbn. now rewrite Hc. }
    assert (Hwc : wf cur = true) by (eapply wf_dict_get; eauto).
    set (new_algo := chosen (rotation_choices cur) w).
    set (when := isoformat (clock w 0%nat) +:+ "Z").
    destruct (IH (after_rotation f d cur w) (rotated d cur new_algo when)
                (hist ++ [rotation_entry when cur new_algo]) (VStr new_algo))
      as (w' & d' & hist' & cur' & Hrun & Hks' & Hh' & Hlen & Hc' & Hch').
    + now apply keystore_of_after_rotation.
    + unfold rotated. rewrite dict_get_set_eq. unfold history_of. now rewrite Hh.
    + unfold rotated. rewrite dict_get_set_ne by discriminate. apply dict_get_set_eq.
    + now apply chained_snoc.
    + exists w', d', hist', cur'. repeat split; auto.
      * cbn [rotations]. unfold_monad.
        rewrite (rotate_algorithm_success f w d cur); auto.
        right. eauto.
      * rewrite Hlen, length_app. cbn. lia.
Qed.

End Rotation.

Section RotationClaims.

Context {cfg : Config} {prim : Primitives} {laws : PrimitiveLaws}.

(** C6.  [rotate_algorithm] on a keystore whose current algorithm reads as
    [current]: with no other algorithm in [ALGORITHMS] it prints that there is
    none, raises nothing and leaves every file as it was; otherwise the new
    algorithm is one of [ALGORITHMS] other than [current], the saved keystore
    has it as [current_algo], its [rotation_history] is the old one with one
    entry [{when, from, to}] appended, every other field is as before, and the
    audit log has one more line. *)
Theorem rotate_algorithm_rotates
    (f : Fernet) (w : World) (d : dict) (current : value) :
  List.length (fernet_key f) = 32%nat ->
  load_keystore_decrypted f w = (Ok (VDict d), w) ->
  get_current_algo (VDict d) = Ok current ->
  history_ok d ->
  (rotation_choices current = [] ->
     exists w',
       rotate_algorithm f w = (Ok tt, w')
       /\ stdout w' = stdout w ++ ["No alternative algorithm available."]
       /\ files w' = files w
       /\ load_keystore_decrypted f w' = (Ok (VDict d), w'))
  /\ (rotation_choices current <> [] ->
     exists w' new_algo when d',
       rotate_algorithm f w = (Ok tt, w')
       /\ In new_algo (rotation_choices current)
       /\ In new_algo ALGORITHMS
       /\ VStr new_algo <> current
       /\ load_keystore_decrypted f w' = (Ok (VDict d'), w')
       /\ dict_get "current_algo" d' = Some (VStr new_algo)
       /\ dict_get "rotation_history" d'
          = Some (VList (history_of d
                         ++ [VDict [("when", VStr when); ("from", current);
                                    ("to", VStr new_algo)]]))
       /\ (forall k, k <> "current_algo" -> k <> "rotation_history" ->
             dict_get k d' = dict_get k d)
       /\ stdout w' = stdout w ++ ["Algorithm rotated to " +:+ new_algo]
       /\ exists t,
            files w' AUDIT_LOG
            = Some (audit_bytes w
                    ++ Utf8.encode (t +:+ " "
                                    +:+ ("ROTATE from=" +:+ py_str current
                                         +:+ " to=" +:+ new_algo) +:+ nl))).
Proof.
  intros Hk Hload Hcur Hh.
  rewrite load_keystore_decrypted_spec in Hload.
  assert (Hks : keystore_of f w = Ok (VDict d)) by congruence.
  assert (Hwf : wf (VDict d) = true) by (eapply keystore_of_wf; eauto).
  assert (Hwc : wf current = true) by (eapply get_current_algo_wf; eauto).
  split.
  - intros Hnone. exists (after_print "No alternative algorithm available." w).
    split; [now apply (rotate_algorithm_noop f w d current)|].
    split; [reflexivity|]. split; [reflexivity|].
    rewrite load_keystore_decrypted_spec. f_equal. exact Hks.
  - intros Hsome.
    set (new_algo := chosen (rotation_choices current) w).
    set (when := isoformat (clock w 0%nat) +:+ "Z").
    exists (after_rotation f d current w), new_algo, when,
           (rotated d current new_algo when).
    assert (Hin : In new_algo (rotation_choices current)) by now apply chosen_In.
    destruct (rotation_choices_In current new_algo Hin) as [HinA Hne].
    split; [now apply rotate_algorithm_success|].
    split; [exact Hin|]. split; [exact HinA|]. split; [exact Hne|].
    split.
    { rewrite load_keystore_decrypted_spec. f_equal.
      now apply keystore_of_after_rotation. }
    split.
    { unfold rotated. rewrite dict_get_set_ne by discriminate. apply dict_get_set_eq. }
    split.
    { unfold rotated. now rewrite dict_get_set_eq. }
    split.
    { intros k Hk1 Hk2. unfold rotated. now rewrite !dict_get_set_ne. }
    split; [reflexivity|].
    exists (isoformat (clock w 1%nat) +:+ "Z"). unfold after_rotation.
    cbn [files after_print set_stdout].
    rewrite files_after_save_other by discriminate.
    cbn. unfold update. destruct (decide (AUDIT_LOG = AUDIT_LOG)); [|congruence].
    reflexivity.
Qed.

(** C7.  From a fresh keystore, [n] rotations that each find an alternative
    leave a [rotation_history] of [n] entries, the first starting at the
    initial algorithm, each starting where the one before ended, and
    [current_algo] where the last one ended. *)
Theorem rotation_history_chain
    (f : Fernet) (w : World) (n : nat) (a0 : string) (rest : list string) :
  List.length (fernet_key f) = 32%nat ->
  files w KEYSTORE_PATH = None ->
  ALGORITHMS = a0 :: rest ->
  (forall current, rotation_choices current <> []) ->
  exists w' d' hist current,
    (init_first_time f;; rotations f n) w = (Ok tt, w')
    /\ load_keystore_decrypted f w' = (Ok (VDict d'), w')
    /\ dict_get "rotation_history" d' = Some (VList hist)
    /\ List.length hist = n
    /\ dict_get "current_algo" d' = Some current
    /\ chained (VStr a0) hist current.
Proof.
  intros Hk Hf Ha Halt.
  set (fresh := [("users", VDict []); ("keys", VDict []);
                 ("current_algo", VStr a0); ("rotation_history", VList [])]).
  set (w0 := after_audit "INIT keystore" (after_save (VDict fresh) f w)).
  destruct (rotations_chain f (VStr a0) a0 rest n Hk Ha Halt w0 fresh [] (VStr a0))
    as (w' & d' & hist & cur & Hrun & Hks & Hh & Hlen & Hc & Hch).
  - unfold w0. change (keystore_of f (after_audit ?e ?w')) with (keystore_of f w').
    now apply keystore_of_after_save.
  - reflexivity.
  - reflexivity.
  - reflexivity.
  - exists w', d', hist, cur. repeat split; auto.
    + unfold_monad. rewrite (init_first_time_spec f w a0 rest Hf Ha). exact Hrun.
    + rewrite load_keystore_decrypted_spec. now f_equal.
Qed.

End RotationClaims.

(* ===================================================================== *)
(** ** Registration *)
(* ===================================================================== *)

Section Registration.

Context {cfg : Config} {prim : Primitives} {laws : PrimitiveLaws}.

Lemma eqb_empty_false s : s <> "" -> String.eqb s "" = false.
Proof. intros H. now apply String.eqb_neq. Qed.

Lemma register_user_spec f w d us ksd nline tline rest :
  keystore_of f w = Ok (VDict d) ->
  dict_get "users" d = Some (VDict us) ->
  dict_get "keys" d = Some (VDict ksd) ->
  (dict_get (str_strip nline) ksd = None
   \/ exists old, dict_get (str_strip nline) ksd = Some (VDict old)) ->
  stdin w = nline :: tline :: rest ->
  str_strip nline <> "" -> str_strip tline <> "" ->
  register_user f w = (Ok tt, after_register f d us ksd w).
Proof.
  intros Hks Hus Hkeys Hold Hin Hn Ht.
  unfold register_user, after_register, input, getpass. unfold_monad.
  rewrite load_keystore_decrypted_spec, Hks, print_spec.
  rewrite (read_line_spec nline (tline :: rest)) by (cbn; exact Hin).
  rewrite (eqb_empty_false _ Hn).
  rewrite (read_line_spec tline rest) by (cbn; now rewrite Hin).
  rewrite (eqb_empty_false _ Ht).
  rewrite now_iso_spec. cbn [py_getitem]. rewrite Hus. cbn [py_setitem].
  rewrite token_bytes_spec.
  rewrite (Utf8Facts.decode_valid (Base64.b64encode _))
    by apply Utf8Facts.valid_graphic, Base64Facts.b64encode_graphic.
  cbn [py_get]. rewrite dict_get_set_ne by discriminate. rewrite Hkeys.
  rewrite Hin. cbn [nth py_get].
  unfold registered, kept_history, key_record, user_record.
  destruct Hold as [Hnone|[old Hsome]].
  - rewrite Hnone. cbn [py_get dict_get]. rewrite now_iso_spec.
    cbn [py_getitem]. rewrite dict_get_set_ne by discriminate. rewrite Hkeys.
    cbn [py_setitem]. rewrite append_audit_spec, save_keystore_encrypted_spec.
    reflexivity.
  - rewrite Hsome. cbn [py_get]. rewrite now_iso_spec.
    cbn [py_getitem]. rewrite dict_get_set_ne by discriminate. rewrite Hkeys.
    cbn [py_setitem]. rewrite append_audit_spec, save_keystore_encrypted_spec.
    reflexivity.
Qed.

Lemma kept_history_wf ksd name :
  wf (VDict ksd) = true -> wf (kept_history ksd name) = true.
Proof.
  intros H. unfold kept_history.
  destruct (dict_get name ksd) as [[| | | | |old]|] eqn:Hg; try reflexivity.
  destruct (dict_get "algo_history" old) eqn:Hh; [|reflexivity].
  apply (wf_dict_get "algo_history" old); [|exact Hh].
  exact (wf_dict_get name ksd _ H Hg).
Qed.

Lemma registered_wf d us ksd name fp_h created raw_key created' :
  wf (VDict d) = true ->
  dict_get "users" d = Some (VDict us) ->
  dict_get "keys" d = Some (VDict ksd) ->
  wf (VDict (registered d us ksd name fp_h created raw_key created')) = true.
Proof.
  intros Hd Hus Hkeys. unfold registered.
  assert (Hwu : wf (VDict us) = true) by exact (wf_dict_get "users" d _ Hd Hus).
  assert (Hwk : wf (VDict ksd) = true) by exact (wf_dict_get "keys" d _ Hd Hkeys).
  apply wf_dict_set.
  - apply wf_dict_set; [exact Hd|]. apply wf_dict_set; [exact Hwu|reflexivity].
  - apply wf_dict_set; [exact Hwk|]. unfold key_record. cbn.
    now rewrite kept_history_wf.
Qed.

Lemma keystore_of_after_register f w d us ksd :
  List.length (fernet_key f) = 32%nat ->
  wf (VDict d) = true ->
  dict_get "users" d = Some (VDict us) ->
  dict_get "keys" d = Some (VDict ksd) ->
  exists created created',
    keystore_of f (after_register f d us ksd w)
    = Ok (VDict (registered d us ksd (str_strip (nth 0 (stdin w) ""))
                   (hash_fp (str_strip (nth 1 (stdin w) ""))) created
                   (map (entropy w) (seq 0 32)) created')).
Proof.
  intros Hk Hd Hus Hkeys. eexists _, _. unfold after_register.
  change (keystore_of f (after_print ?s ?w')) with (keystore_of f w').
  rewrite keystore_of_after_save; [reflexivity|exact Hk|].
  now apply registered_wf.
Qed.

End Registration.

(* ===================================================================== *)
(** ** Authentication *)
(* ===================================================================== *)

Section Authentication.

Context {cfg : Config} {prim : Primitives} {laws : PrimitiveLaws}.

Lemma eq_str_false v s : v <> VStr s -> eq_str v s = false.
Proof.
  intros H. destruct v; try reflexivity. cbn. apply String.eqb_neq. congruence.
Qed.

Lemma scan_users_none fp_h items w :
  Forall is_record items -> Forall (no_match fp_h) items ->
  scan_users fp_h items w = (Ok None, w).
Proof.
  induction items as [|[name info] items IH]; intros Hr Hn; [reflexivity|].
  inversion Hr as [|? ? [i Hi] Hr']; subst. inversion Hn as [|? ? Hno Hn']; subst.
  cbn in Hi. subst info. unfold no_match in Hno. cbn in Hno.
  cbn [scan_users]. unfold_monad. cbn [py_get1 py_get].
  rewrite eq_str_false by congruence. now apply IH.
Qed.

Lemma scan_users_match fp_h pre name info post w :
  Forall is_record pre -> Forall (no_match fp_h) pre ->
  py_get1 info "fp_hash" = Ok (VStr fp_h) ->
  scan_users fp_h (pre ++ (name, info) :: post) w
  = (Ok (Some name), after_audit ("AUTH success user=" +:+ name) w).
Proof.
  intros Hr Hn Hm. induction pre as [|[n0 i0] pre IH].
  - cbn [app scan_users]. unfold_monad. rewrite Hm. cbn [eq_str].
    rewrite String.eqb_refl. now rewrite append_audit_spec.
  - inversion Hr as [|? ? [i Hi] Hr']; subst. inversion Hn as [|? ? Hno Hn']; subst.
    cbn in Hi. subst i0. unfold no_match in Hno. cbn in Hno.
    cbn [app scan_users]. unfold_monad. cbn [py_get1 py_get].
    rewrite eq_str_false by congruence. now apply IH.
Qed.

Lemma authenticate_user_start f w ks items line rest :
  keystore_of f w = Ok ks ->
  (users ← py_get ks "users" (VDict []); py_items users) = Ok items ->
  stdin w = line :: rest ->
  str_strip line <> "" ->
  authenticate_user f w =
  match scan_users (hash_fp (str_strip line)) items (after_line w) with
  | (Ok (Some name), w') => (Ok (Some name), w')
  | (Ok None, w') => (Ok None, after_print "Authentication failed."
                                 (after_audit "AUTH failed" w'))
  | (Raise e, w') => (Raise e, w')
  end.
Proof.
  intros Hks Hitems Hin Hne. unfold authenticate_user, getpass. unfold_monad.
  rewrite load_keystore_decrypted_spec, Hks.
  rewrite (read_line_spec line rest) by exact Hin.
  rewrite (eqb_empty_false _ Hne).
  revert Hitems. unfold_monad.
  destruct (py_get ks "users" (VDict [])) as [users|]; [|discriminate].
  intros ->.
  destruct (scan_users _ items (after_line w)) as [[[name|]|e] w']; reflexivity.
Qed.

Lemma authenticate_user_match f w ks pre name info post line rest :
  keystore_of f w = Ok ks ->
  (users ← py_get ks "users" (VDict []); py_items users)
  = Ok (pre ++ (name, info) :: post) ->
  stdin w = line :: rest ->
  str_strip line <> "" ->
  Forall is_record pre ->
  Forall (no_match (hash_fp (str_strip line))) pre ->
  py_get1 info "fp_hash" = Ok (VStr (hash_fp (str_strip line))) ->
  authenticate_user f w = (Ok (Some name), after_auth_success name w).
Proof.
  intros Hks Hitems Hin Hne Hr Hn Hm.
  rewrite (authenticate_user_start f w ks _ line rest Hks Hitems Hin Hne).
  now rewrite scan_users_match.
Qed.

Lemma authenticate_user_no_match f w ks items line rest :
  keystore_of f w = Ok ks ->
  (users ← py_get ks "users" (VDict []); py_items users) = Ok items ->
  stdin w = line :: rest ->
  str_strip line <> "" ->
  Forall is_record items ->
  Forall (no_match (hash_fp (str_strip line))) items ->
  authenticate_user f w = (Ok None, after_auth_failed w).
Proof.
  intros Hks Hitems Hin Hne Hr Hn.
  rewrite (authenticate_user_start f w ks _ line rest Hks Hitems Hin Hne).
  now rewrite scan_users_none.
Qed.

End Authentication.

Section RegistryClaims.

Context {cfg : Config} {prim : Primitives} {laws : PrimitiveLaws}.

(** C5, as amended.  Registering again a user who has a key record replaces
    the user's metadata and the key record: [enc_key] becomes the base64 of 32
    bytes newly drawn from the random source, only [algo_history] is taken
    over from the old record; the records of other users and the other fields
    of the keystore stay as they were. *)
Theorem register_user_again_replaces_key
    (f : Fernet) (w : World) (d us ksd old_user old_key : dict)
    (nline tline : string) (rest : list string) :
  List.length (fernet_key f) = 32%nat ->
  load_keystore_decrypted f w = (Ok (VDict d), w) ->
  dict_get "users" d = Some (VDict us) ->
  dict_get "keys" d = Some (VDict ksd) ->
  stdin w = nline :: tline :: rest ->
  str_strip nline <> "" -> str_strip tline <> "" ->
  dict_get (str_strip nline) us = Some (VDict old_user) ->
  dict_get (str_strip nline) ksd = Some (VDict old_key) ->
  exists w' d' us' ksd' raw_key w0 created created',
    register_user f w = (Ok tt, w')
    /\ load_keystore_decrypted f w' = (Ok (VDict d'), w')
    /\ dict_get "users" d' = Some (VDict us')
    /\ dict_get "keys" d' = Some (VDict ksd')
    /\ dict_get (str_strip nline) us'
       = Some (VDict [("fp_hash", VStr (hash_fp (str_strip tline)));
                      ("created", VStr created)])
    /\ token_bytes 32 w = (Ok raw_key, w0)
    /\ dict_get (str_strip nline) ksd'
       = Some (VDict [("enc_key", VStr (string_of_list_byte (Base64.b64encode raw_key)));
                      ("algo_history",
                       match dict_get "algo_history" old_key with
                       | Some h => h
                       | None => VList []
                       end);
                      ("created", VStr created')])
    /\ (forall u, u <> str_strip nline ->
          dict_get u us' = dict_get u us /\ dict_get u ksd' = dict_get u ksd)
    /\ (forall k, k <> "users" -> k <> "keys" -> dict_get k d' = dict_get k d).
Proof.
  intros Hk Hload Hus Hkeys Hin Hn Ht Hou Hok.
  rewrite load_keystore_decrypted_spec in Hload.
  assert (Hks : keystore_of f w = Ok (VDict d)) by congruence.
  assert (Hwf : wf (VDict d) = true) by (eapply keystore_of_wf; eauto).
  destruct (keystore_of_after_register f w d us ksd Hk Hwf Hus Hkeys)
    as (created & created' & Hafter).
  rewrite Hin in Hafter. cbn [nth] in Hafter.
  eexists (after_register f d us ksd w), _, _, _, _, _, created, created'.
  split.
  { apply (register_user_spec f w d us ksd nline tline rest); eauto. }
  split.
  { rewrite load_keystore_decrypted_spec. f_equal. exact Hafter. }
  unfold registered.
  split.
  { rewrite dict_get_set_ne by discriminate. apply dict_get_set_eq. }
  split.
  { apply dict_get_set_eq. }
  split.
  { apply dict_get_set_eq. }
  split.
  { apply token_bytes_spec. }
  split.
  { rewrite dict_get_set_eq. unfold key_record, kept_history. now rewrite Hok. }
  split.
  - intros u Hu. now rewrite !dict_get_set_ne.
  - intros k Hk1 Hk2. now rewrite !dict_get_set_ne.
Qed.

(** The scan of [authenticate_user]: it hashes the stripped token and
    returns the first user, in the order of the keystore, whose stored hash is
    that hash, writing "AUTH success user=<name>" to the audit log; when no
    stored hash is that hash it returns nothing, writes "AUTH failed" and
    prints "Authentication failed.".  The audit line is made of the clock's
    reading and the user's name only. *)
Lemma authenticate_user_scans
    (f : Fernet) (w : World) (ks : value) (items : dict)
    (line : string) (rest : list string) :
  load_keystore_decrypted f w = (Ok ks, w) ->
  (users ← py_get ks "users" (VDict []); py_items users) = Ok items ->
  Forall is_record items ->
  stdin w = line :: rest ->
  str_strip line <> "" ->
  (forall pre name info post,
      items = pre ++ (name, info) :: post ->
      py_get1 info "fp_hash" = Ok (VStr (hash_fp (str_strip line))) ->
      Forall (no_match (hash_fp (str_strip line))) pre ->
      exists w',
        authenticate_user f w = (Ok (Some name), w')
        /\ stdin w' = rest /\ stdout w' = stdout w
        /\ files w' AUDIT_LOG
           = Some (audit_bytes w
                   ++ Utf8.encode ((isoformat (clock w 0%nat) +:+ "Z") +:+ " "
                                   +:+ ("AUTH success user=" +:+ name) +:+ nl)))
  /\ (Forall (no_match (hash_fp (str_strip line))) items ->
      exists w',
        authenticate_user f w = (Ok None, w')
        /\ stdin w' = rest
        /\ stdout w' = stdout w ++ ["Authentication failed."]
        /\ files w' AUDIT_LOG
           = Some (audit_bytes w
                   ++ Utf8.encode ((isoformat (clock w 0%nat) +:+ "Z") +:+ " "
                                   +:+ "AUTH failed" +:+ nl))).
Proof.
  intros Hload Hitems Hrec Hin Hne.
  rewrite load_keystore_decrypted_spec in Hload.
  assert (Hks : keystore_of f w = Ok ks) by congruence.
  split.
  - intros pre name info post -> Hm Hpre.
    exists (after_auth_success name w). split.
    + apply (authenticate_user_match f w ks pre name info post line rest); auto.
      apply Forall_app in Hrec. tauto.
    + unfold after_auth_success, after_line. cbn. rewrite Hin.
      unfold update. destruct (decide (AUDIT_LOG = AUDIT_LOG)); [|congruence].
      auto.
  - intros Hno. exists (after_auth_failed w). split.
    + apply (authenticate_user_no_match f w ks items line rest); auto.
    + unfold after_auth_failed, after_line. cbn. rewrite Hin.
      unfold update. destruct (decide (AUDIT_LOG = AUDIT_LOG)); [|congruence].
      auto.
Qed.

Lemma stdin_after_register f d us ksd w :
  stdin (after_register f d us ksd w) = tail (tail (stdin w)).
Proof. reflexivity. Qed.

Lemma stdin_after_init f ks w :
  stdin (after_audit "INIT keystore" (after_save ks f w)) = stdin w.
Proof. reflexivity. Qed.

Lemma hash_fp_injective {perfect : PerfectCrypto} t t' :
  hash_fp t = hash_fp t' -> t = t'.
Proof.
  unfold hash_fp, Utf8.encode. intros H. apply sha256_injective in H.
  apply (f_equal string_of_list_byte) in H.
  now rewrite !string_of_list_byte_of_string in H.
Qed.

(** Two users and three tokens: after two users registered in a fresh vault with
    different names and different tokens, each token authenticates its user
    and any other token authenticates nobody. *)
Lemma authenticate_user_exact {perfect : PerfectCrypto}
    (f : Fernet) (w : World) (a : string) (algos : list string)
    (n1 t1 n2 t2 t : string) (rest : list string) :
  List.length (fernet_key f) = 32%nat ->
  files w KEYSTORE_PATH = None ->
  ALGORITHMS = a :: algos ->
  stdin w = n1 :: t1 :: n2 :: t2 :: t :: rest ->
  str_strip n1 <> "" -> str_strip t1 <> "" ->
  str_strip n2 <> "" -> str_strip t2 <> "" -> str_strip t <> "" ->
  str_strip n1 <> str_strip n2 ->
  str_strip t1 <> str_strip t2 ->
  exists w',
    (init_first_time f;; register_user f;; register_user f;; authenticate_user f) w
    = (Ok (if String.eqb (str_strip t) (str_strip t1) then Some (str_strip n1)
           else if String.eqb (str_strip t) (str_strip t2) then Some (str_strip n2)
           else None), w').
Proof.
  intros Hk Hf Ha Hin Hn1 Ht1 Hn2 Ht2 Ht Hnn Htt.
  set (fresh := [("users", VDict []); ("keys", VDict []);
                 ("current_algo", VStr a); ("rotation_history", VList [])]).
  set (w0 := after_audit "INIT keystore" (after_save (VDict fresh) f w)).
  assert (Hks0 : keystore_of f w0 = Ok (VDict fresh)).
  { unfold w0. change (keystore_of f (after_audit ?e ?w')) with (keystore_of f w').
    now apply keystore_of_after_save. }
  assert (Hin0 : stdin w0 = n1 :: t1 :: n2 :: t2 :: t :: rest) by exact Hin.
  (* first registration *)
  set (w1 := after_register f fresh [] [] w0).
  assert (Hreg1 : register_user f w0 = (Ok tt, w1)).
  { unfold w1.
    apply (register_user_spec f w0 fresh [] [] n1 t1 (n2 :: t2 :: t :: rest)
             Hks0 eq_refl eq_refl (or_introl eq_refl) Hin0 Hn1 Ht1). }
  destruct (keystore_of_after_register f w0 fresh [] [] Hk eq_refl eq_refl eq_refl)
    as (c1 & c1' & Hks1).
  fold w1 in Hks1. rewrite Hin0 in Hks1. cbn [nth] in Hks1.
  set (d1 := registered fresh [] [] (str_strip n1) (hash_fp (str_strip t1)) c1
               (map (entropy w0) (seq 0 32)) c1') in Hks1.
  set (us1 := dict_set (str_strip n1) (user_record (hash_fp (str_strip t1)) c1) []).
  set (ksd1 := dict_set (str_strip n1)
                 (key_record (map (entropy w0) (seq 0 32))
                    (kept_history [] (str_strip n1)) c1') []).
  assert (Hus1 : dict_get "users" d1 = Some (VDict us1)) by reflexivity.
  assert (Hkeys1 : dict_get "keys" d1 = Some (VDict ksd1)) by reflexivity.
  assert (Hin1 : stdin w1 = n2 :: t2 :: t :: rest).
  { unfold w1. now rewrite stdin_after_register, Hin0. }
  assert (Hwf1 : wf (VDict d1) = true) by (eapply keystore_of_wf; eauto).
  (* second registration *)
  set (w2 := after_register f d1 us1 ksd1 w1).
  assert (Hold2 : dict_get (str_strip n2) ksd1 = None).
  { unfold ksd1. cbn [dict_get dict_set].
    destruct (String.eqb_spec (str_strip n2) (str_strip n1)); [congruence|reflexivity]. }
  assert (Hreg2 : register_user f w1 = (Ok tt, w2)).
  { unfold w2.
    apply (register_user_spec f w1 d1 us1 ksd1 n2 t2 (t :: rest)
             Hks1 Hus1 Hkeys1 (or_introl Hold2) Hin1 Hn2 Ht2). }
  destruct (keystore_of_after_register f w1 d1 us1 ksd1 Hk Hwf1 Hus1 Hkeys1)
    as (c2 & c2' & Hks2).
  fold w2 in Hks2. rewrite Hin1 in Hks2. cbn [nth] in Hks2.
  assert (Hin2 : stdin w2 = t :: rest).
  { unfold w2. now rewrite stdin_after_register, Hin1. }
  set (rec1 := user_record (hash_fp (str_strip t1)) c1).
  set (rec2 := user_record (hash_fp (str_strip t2)) c2).
  assert (Hitems :
            (users ← py_get (VDict (registered d1 us1 ksd1 (str_strip n2)
                                       (hash_fp (str_strip t2)) c2
                                       (map (entropy w1) (seq 0 32)) c2'))
                        "users" (VDict []);
             py_items users)
            = Ok ([(str_strip n1, rec1)] ++ (str_strip n2, rec2) :: [])).
  { unfold registered. unfold_monad. cbn [py_get].
    rewrite dict_get_set_ne by discriminate. rewrite dict_get_set_eq.
    cbn [py_items]. unfold us1. cbn [dict_set].
    destruct (String.eqb_spec (str_strip n2) (str_strip n1)); [congruence|].
    reflexivity. }
  (* the run *)
  unfold_monad. rewrite (init_first_time_spec f w a algos Hf Ha).
  fold fresh. fold w0. rewrite Hreg1, Hreg2.
  destruct (String.eqb_spec (str_strip t) (str_strip t1)) as [E1|N1].
  - eexists.
    apply (authenticate_user_match f w2 _ [] (str_strip n1) rec1
             [(str_strip n2, rec2)] t rest Hks2 Hitems Hin2 Ht).
    + constructor.
    + constructor.
    + rewrite E1. reflexivity.
  - destruct (String.eqb_spec (str_strip t) (str_strip t2)) as [E2|N2].
    + eexists.
      apply (authenticate_user_match f w2 _ [(str_strip n1, rec1)] (str_strip n2) rec2
               [] t rest Hks2 Hitems Hin2 Ht).
      * repeat constructor. now exists [("fp_hash", VStr (hash_fp (str_strip t1)));
                                        ("created", VStr c1)].
      * repeat constructor. unfold no_match.
        cbn [snd py_get1 py_get dict_get rec1 user_record]. intros [= H].
        apply hash_fp_injective in H. congruence.
      * rewrite E2. reflexivity.
    + eexists.
      apply (authenticate_user_no_match f w2 _ _ t rest Hks2 Hitems Hin2 Ht).
      * repeat constructor; eexists; reflexivity.
      * repeat constructor; unfold no_match;
          cbn [snd py_get1 py_get dict_get rec1 rec2 user_record]; intros [= H];
          apply hash_fp_injective in H; congruence.
Qed.

(** C8.  [authenticate_user] hashes the stripped token and scans the users
    in the order of the keystore: it returns the first whose stored hash is
    that hash and logs "AUTH success user=<name>", or returns nothing, logs
    "AUTH failed" and prints "Authentication failed."; the logged line is made
    of the clock's reading and the user's name, never of the token.  In
    particular, after two users registered in a fresh vault with different
    names and tokens, each token authenticates its user and any other token
    nobody. *)
Theorem authenticate_user_first_match {perfect : PerfectCrypto} :
  (forall (f : Fernet) (w : World) (ks : value) (items : dict)
          (line : string) (rest : list string),
      load_keystore_decrypted f w = (Ok ks, w) ->
      (users ← py_get ks "users" (VDict []); py_items users) = Ok items ->
      Forall is_record items ->
      stdin w = line :: rest ->
      str_strip line <> "" ->
      (forall pre name info post,
          items = pre ++ (name, info) :: post ->
          py_get1 info "fp_hash" = Ok (VStr (hash_fp (str_strip line))) ->
          Forall (no_match (hash_fp (str_strip line))) pre ->
          exists w',
            authenticate_user f w = (Ok (Some name), w')
            /\ stdin w' = rest /\ stdout w' = stdout w
            /\ files w' AUDIT_LOG
               = Some (audit_bytes w
                       ++ Utf8.encode ((isoformat (clock w 0%nat) +:+ "Z") +:+ " "
                                       +:+ ("AUTH success user=" +:+ name) +:+ nl)))
      /\ (Forall (no_match (hash_fp (str_strip line))) items ->
          exists w',
            authenticate_user f w = (Ok None, w')
            /\ stdin w' = rest
            /\ stdout w' = stdout w ++ ["Authentication failed."]
            /\ files w' AUDIT_LOG
               = Some (audit_bytes w
                       ++ Utf8.encode ((isoformat (clock w 0%nat) +:+ "Z") +:+ " "
                                       +:+ "AUTH failed" +:+ nl))))
  /\ (forall (f : Fernet) (w : World) (a : string) (algos : list string)
             (n1 t1 n2 t2 t : string) (rest : list string),
      List.length (fernet_key f) = 32%nat ->
      files w KEYSTORE_PATH = None ->
      ALGORITHMS = a :: algos ->
      stdin w = n1 :: t1 :: n2 :: t2 :: t :: rest ->
      str_strip n1 <> "" -> str_strip t1 <> "" ->
      str_strip n2 <> "" -> str_strip t2 <> "" -> str_strip t <> "" ->
      str_strip n1 <> str_strip n2 ->
      str_strip t1 <> str_strip t2 ->
      exists w',
        (init_first_time f;; register_user f;; register_user f;; authenticate_user f) w
        = (Ok (if String.eqb (str_strip t) (str_strip t1) then Some (str_strip n1)
               else if String.eqb (str_strip t) (str_strip t2) then Some (str_strip n2)
               else None), w')).
Proof.
  split.
  - intros f w ks items line rest. apply authenticate_user_scans.
  - intros f w a algos n1 t1 n2 t2 t rest. apply authenticate_user_exact.
Qed.

End RegistryClaims.

(* ===================================================================== *)
(** ** The ciphers *)
(* ===================================================================== *)

Section CipherFacts.

Context {cfg : Config} {prim : Primitives} {laws : PrimitiveLaws}.

Lemma Fernet_init_Ok k :
  List.length k = 32%nat ->
  Fernet_init (Base64.urlsafe_b64encode k) = Ok {| fernet_key := k |}.
Proof. apply master_key_to_fernet_Ok. Qed.

Lemma fernet_encrypt_spec k plaintext w :
  List.length k = 32%nat ->
  fernet_encrypt k plaintext w = (Ok (fernet_ciphertext k plaintext w), after_encrypt w).
Proof.
  intros Hk. unfold fernet_encrypt, fernet_ciphertext. unfold_monad.
  rewrite (Fernet_init_Ok k Hk), Fernet_encrypt_spec.
  now rewrite Utf8Facts.decode_valid
    by apply Utf8Facts.valid_graphic, fernet_token_graphic.
Qed.

Lemma chacha_encrypt_spec k plaintext w :
  List.length k = 32%nat ->
  chacha_encrypt k plaintext w = (Ok (chacha_ciphertext k plaintext w), after_random 12 w).
Proof.
  intros Hk. unfold chacha_encrypt, chacha_ciphertext, ChaCha20Poly1305_init,
    ChaCha20Poly1305_encrypt. unfold_monad.
  rewrite Hk. cbn [Nat.eqb]. rewrite token_bytes_spec, length_token_bytes.
  cbn [Nat.eqb aead_key].
  now rewrite Utf8Facts.decode_valid
    by apply Utf8Facts.valid_graphic, Base64Facts.b64encode_graphic.
Qed.

Lemma fernet_decrypt_open k ciphertext :
  List.length k = 32%nat ->
  fernet_decrypt k ciphertext =
  match fernet_open k (Utf8.encode ciphertext) with
  | Some pt => Utf8.decode pt
  | None => Raise (Exn InvalidToken "")
  end.
Proof.
  intros Hk. unfold fernet_decrypt, Fernet_decrypt. unfold_monad.
  rewrite (Fernet_init_Ok k Hk). cbn [fernet_key].
  destruct (fernet_open k (Utf8.encode ciphertext)); reflexivity.
Qed.

Lemma chacha_decrypt_open k ciphertext :
  List.length k = 32%nat ->
  chacha_decrypt k ciphertext =
  match Base64.b64decode ciphertext with
  | Ok data =>
      if (List.length (take 12 data) =? 12)%nat then
        match chacha20poly1305_open k (take 12 data) (drop 12 data) with
        | Some pt => Utf8.decode pt
        | None => Raise (Exn InvalidTag "")
        end
      else Raise (Exn ValueError "Nonce must be 12 bytes")
  | Raise e => Raise e
  end.
Proof.
  intros Hk. unfold chacha_decrypt, ChaCha20Poly1305_init, ChaCha20Poly1305_decrypt.
  unfold_monad. destruct (Base64.b64decode ciphertext) as [data|e]; [|reflexivity].
  rewrite Hk. cbn [Nat.eqb aead_key].
  destruct (List.length (take 12 data) =? 12)%nat; [|reflexivity].
  destruct (chacha20poly1305_open k (take 12 data) (drop 12 data)); reflexivity.
Qed.

Lemma fernet_round_trip k plaintext w :
  List.length k = 32%nat -> Utf8.text plaintext ->
  fernet_decrypt k (fernet_ciphertext k plaintext w) = Ok plaintext.
Proof.
  intros Hk Ht. rewrite fernet_decrypt_open by exact Hk.
  unfold fernet_ciphertext. rewrite Utf8Facts.encode_string_of.
  rewrite fernet_open_token by auto using length_token_bytes.
  now apply Utf8Facts.decode_encode.
Qed.

Lemma chacha_round_trip k plaintext w :
  List.length k = 32%nat -> Utf8.text plaintext ->
  chacha_decrypt k (chacha_ciphertext k plaintext w) = Ok plaintext.
Proof.
  intros Hk Ht. rewrite chacha_decrypt_open by exact Hk.
  unfold chacha_ciphertext. rewrite Base64Facts.b64decode_b64encode.
  rewrite take_app_length' by (now rewrite length_token_bytes).
  rewrite drop_app_length' by (now rewrite length_token_bytes).
  rewrite length_token_bytes. cbn [Nat.eqb].
  rewrite chacha20poly1305_open_seal by auto using length_token_bytes.
  now apply Utf8Facts.decode_encode.
Qed.

End CipherFacts.

(** The decoder skips a character outside the alphabet. *)
Lemma b64decode_skips_bang s : Base64.b64decode ("!" +:+ s) = Base64.b64decode s.
Proof.
  unfold Base64.b64decode.
  change (list_byte_of_string ("!" +:+ s)) with ("!"%byte :: list_byte_of_string s).
  reflexivity.
Qed.

Lemma chacha_decrypt_skips_bang {prim : Primitives} k s :
  chacha_decrypt k ("!" +:+ s) = chacha_decrypt k s.
Proof. unfold chacha_decrypt. now rewrite b64decode_skips_bang. Qed.

Section CipherClaims.

Context {cfg : Config} {prim : Primitives} {laws : PrimitiveLaws}
        {perfect : PerfectCrypto}.


End CipherClaims.


(* ===================================================================== *)
(** ** Decryption follows the keystore *)
(* ===================================================================== *)

Section Dispatch.

Context {cfg : Config} {prim : Primitives} {laws : PrimitiveLaws}.

Lemma decrypt_for_user_pasted f w w1 ks user current raw_key cline rest :
  authenticate_user f w = (Ok (Some user), w1) ->
  user <> "" ->
  keystore_of f w1 = Ok ks ->
  get_current_algo ks = Ok current ->
  _get_raw_key_for_user ks user = Ok (Some raw_key) ->
  raw_key <> [] ->
  stdin w1 = cline :: rest ->
  str_strip cline <> "" ->
  decrypt_for_user f w =
  (Ok tt,
   after_decrypt user current (decrypt_dispatch current raw_key (str_strip cline))
     (after_line (after_print paste_prompt w1))).
Proof.
  intros Hauth Hu Hks Hcur Hkey Hne Hin Hc.
  unfold decrypt_for_user, input. unfold_monad. rewrite Hauth.
  destruct user as [|c0 user0]; [contradiction|].
  rewrite load_keystore_decrypted_spec, Hks, Hcur, Hkey.
  destruct raw_key as [|b0 raw0]; [contradiction|].
  rewrite print_spec. fold paste_prompt.
  rewrite (read_line_spec cline rest) by exact Hin.
  rewrite (eqb_empty_false _ Hc).
  unfold after_decrypt.
  destruct (decrypt_dispatch current (b0 :: raw0) (str_strip cline)) as [[pt|]|e].
  - rewrite append_audit_spec, !print_spec. reflexivity.
  - rewrite print_spec. reflexivity.
  - destruct (is_InvalidToken e).
    + rewrite print_spec, append_audit_spec. reflexivity.
    + rewrite print_spec, append_audit_spec. reflexivity.
Qed.

Lemma b64decode_string_of b :
  forallb Utf8.is_ascii b = true ->
  Base64.b64decode (string_of_list_byte b) = Base64.b64decode_bytes b.
Proof.
  intros H. unfold Base64.b64decode.
  now rewrite list_byte_of_string_of_list_byte, H.
Qed.

Lemma graphic_all_ascii b :
  forallb Utf8.is_graphic b = true -> forallb Utf8.is_ascii b = true.
Proof.
  rewrite !forallb_forall. intros H c Hc. apply Utf8Facts.graphic_ascii, H, Hc.
Qed.

(** A ciphertext made under one algorithm gives no plaintext under another
    name: the other cipher rejects it, or the name is not supported. *)
Lemma decrypt_dispatch_other_algorithm {perfect : PerfectCrypto}
    (k : bytes) (plaintext ct A B : string) (w0 w0' : World) :
  List.length k = 32%nat ->
  encrypt_dispatch (VStr A) k plaintext w0 = (Ok (Some ct), w0') ->
  B <> A ->
  decrypt_dispatch (VStr B) k ct = Ok None
  \/ exists e, decrypt_dispatch (VStr B) k ct = Raise e.
Proof.
  intros Hk Henc Hne. unfold encrypt_dispatch in Henc. unfold decrypt_dispatch.
  cbn [eq_str] in *. revert Henc. unfold_monad.
  destruct (String.eqb_spec A "fernet") as [->|HA1].
  - rewrite (fernet_encrypt_spec k plaintext w0 Hk). intros [= <- _].
    destruct (String.eqb_spec B "fernet") as [->|HB1]; [contradiction|].
    destruct (String.eqb_spec B "chacha20") as [->|HB2]; [|now left].
    right. rewrite chacha_decrypt_open by exact Hk.
    unfold fernet_ciphertext.
    rewrite b64decode_string_of by apply graphic_all_ascii, fernet_token_graphic.
    destruct (Base64.b64decode_bytes _) as [data|e] eqn:Hd; [|eauto].
    destruct (List.length (take 12 data) =? 12)%nat; [|eauto].
    rewrite (chacha_rejects_fernet _ _ _ _ _ _ Hd). eauto.
  - destruct (String.eqb_spec A "chacha20") as [->|HA2]; [|discriminate].
    rewrite (chacha_encrypt_spec k plaintext w0 Hk). intros [= <- _].
    destruct (String.eqb_spec B "fernet") as [->|HB1].
    + right. rewrite fernet_decrypt_open by exact Hk.
      unfold chacha_ciphertext. rewrite Utf8Facts.encode_string_of.
      rewrite fernet_rejects_chacha. eauto.
    + destruct (String.eqb_spec B "chacha20") as [->|HB2]; [contradiction|now left].
Qed.

Lemma encrypt_dispatch_fernet k plaintext w :
  List.length k = 32%nat ->
  encrypt_dispatch (VStr "fernet") k plaintext w
  = (Ok (Some (fernet_ciphertext k plaintext w)), after_encrypt w).
Proof.
  intros Hk. unfold encrypt_dispatch. cbn [eq_str String.eqb Ascii.eqb Bool.eqb].
  unfold_monad. now rewrite fernet_encrypt_spec.
Qed.

(** A rotation leaves the users and the keys as they are. *)
Lemma rotated_users d current new_algo when :
  py_get (VDict (rotated d current new_algo when)) "users" (VDict [])
  = py_get (VDict d) "users" (VDict []).
Proof. unfold rotated. cbn [py_get]. now rewrite !dict_get_set_ne by discriminate. Qed.

Lemma rotated_raw_key d current new_algo when user :
  _get_raw_key_for_user (VDict (rotated d current new_algo when)) user
  = _get_raw_key_for_user (VDict d) user.
Proof.
  unfold _get_raw_key_for_user, rotated. unfold_monad. cbn [py_get].
  now rewrite !dict_get_set_ne by discriminate.
Qed.

Lemma rotated_current_algo d current current' new_algo when :
  get_current_algo (VDict d) = Ok current' ->
  get_current_algo (VDict (rotated d current new_algo when)) = Ok (VStr new_algo).
Proof.
  unfold get_current_algo, rotated. unfold_monad.
  destruct ALGORITHMS_0; [|discriminate]. intros _. cbn [py_get].
  rewrite dict_get_set_ne by discriminate. now rewrite dict_get_set_eq.
Qed.

End Dispatch.

(** What each step leaves of the terminal and of the keystore file. *)
Section Projections.

Context {cfg : Config} {prim : Primitives}.

Lemma stdout_after_print s w : stdout (after_print s w) = stdout w ++ [s].
Proof. reflexivity. Qed.

Lemma stdout_after_audit e w : stdout (after_audit e w) = stdout w.
Proof. reflexivity. Qed.

Lemma stdout_after_line w : stdout (after_line w) = stdout w.
Proof. reflexivity. Qed.

Lemma stdout_after_save ks f w : stdout (after_save ks f w) = stdout w.
Proof. reflexivity. Qed.

Lemma stdout_after_tick w : stdout (after_tick w) = stdout w.
Proof. reflexivity. Qed.

Lemma stdout_after_random n w : stdout (after_random n w) = stdout w.
Proof. reflexivity. Qed.

Lemma stdin_after_print s w : stdin (after_print s w) = stdin w.
Proof. reflexivity. Qed.

Lemma stdin_after_audit e w : stdin (after_audit e w) = stdin w.
Proof. reflexivity. Qed.

Lemma stdin_after_line w : stdin (after_line w) = tail (stdin w).
Proof. reflexivity. Qed.

Lemma stdin_after_save ks f w : stdin (after_save ks f w) = stdin w.
Proof. reflexivity. Qed.

Lemma stdin_after_tick w : stdin (after_tick w) = stdin w.
Proof. reflexivity. Qed.

Lemma stdin_after_random n w : stdin (after_random n w) = stdin w.
Proof. reflexivity. Qed.

Lemma keystore_of_after_print f s w : keystore_of f (after_print s w) = keystore_of f w.
Proof. reflexivity. Qed.

Lemma keystore_of_after_audit f e w : keystore_of f (after_audit e w) = keystore_of f w.
Proof. reflexivity. Qed.

Lemma keystore_of_after_line f w : keystore_of f (after_line w) = keystore_of f w.
Proof. reflexivity. Qed.

Lemma stdout_after_rotation f d current w :
  stdout (after_rotation f d current w)
  = stdout w ++ ["Algorithm rotated to " +:+ chosen (rotation_choices current) w].
Proof. reflexivity. Qed.

Lemma stdin_after_rotation f d current w :
  stdin (after_rotation f d current w) = stdin w.
Proof. reflexivity. Qed.

Lemma keystore_of_after_decrypt f user current outcome w :
  keystore_of f (after_decrypt user current outcome w) = keystore_of f w.
Proof.
  unfold after_decrypt. destruct outcome as [[pt|]|e]; try reflexivity.
  destruct (is_InvalidToken e); reflexivity.
Qed.

End Projections.

Create Rewrite HintDb world.

#[global] Hint Rewrite
  @stdout_after_print @stdout_after_audit @stdout_after_line @stdout_after_tick
  @stdout_after_random @stdin_after_print @stdin_after_audit @stdin_after_line
  @stdin_after_tick @stdin_after_random
  @keystore_of_after_print @keystore_of_after_audit @keystore_of_after_line
  @keystore_of_after_decrypt : world.

#[global] Hint Rewrite @stdout_after_save @stdin_after_save @stdout_after_rotation
  @stdin_after_rotation : world.

Section DispatchClaims.

Context {cfg : Config} {prim : Primitives} {laws : PrimitiveLaws}
        {perfect : PerfectCrypto}.

(** C4.  [decrypt_for_user] decrypts with the algorithm the keystore names
    as [current_algo] when it runs: what it prints and logs is what
    [decrypt_dispatch] gives for that name, the user's key and the pasted
    ciphertext.  So, for a ciphertext made under algorithm [A] with the user's
    key: after a rotation, which moves [current_algo] to some [B] other than
    [A] and leaves the key as it is, [decrypt_for_user] prints no plaintext
    but that the algorithm is unsupported, the token invalid, or a decryption
    error. *)
Theorem decrypt_uses_live_algorithm :
  (forall (f : Fernet) (w w1 : World) (ks : value) (user : string) (current : value)
          (raw_key : bytes) (cline : string) (rest : list string),
      authenticate_user f w = (Ok (Some user), w1) ->
      user <> "" ->
      load_keystore_decrypted f w1 = (Ok ks, w1) ->
      get_current_algo ks = Ok current ->
      _get_raw_key_for_user ks user = Ok (Some raw_key) ->
      raw_key <> [] ->
      stdin w1 = cline :: rest ->
      str_strip cline <> "" ->
      decrypt_for_user f w =
      (Ok tt,
       after_decrypt user current (decrypt_dispatch current raw_key (str_strip cline))
         (after_line
            (after_print "Paste ciphertext or leave blank to read last file: " w1))))
  /\ (forall (f : Fernet) (w : World) (d pre post : dict) (user : string) (info : value)
             (A : string) (k : bytes) (plaintext ct : string) (w0 w0' : World)
             (tline cline : string) (rest : list string),
      List.length (fernet_key f) = 32%nat ->
      load_keystore_decrypted f w = (Ok (VDict d), w) ->
      history_ok d ->
      get_current_algo (VDict d) = Ok (VStr A) ->
      rotation_choices (VStr A) <> [] ->
      (users ← py_get (VDict d) "users" (VDict []); py_items users)
      = Ok (pre ++ (user, info) :: post) ->
      Forall is_record pre ->
      Forall (no_match (hash_fp (str_strip tline))) pre ->
      py_get1 info "fp_hash" = Ok (VStr (hash_fp (str_strip tline))) ->
      user <> "" ->
      _get_raw_key_for_user (VDict d) user = Ok (Some k) ->
      List.length k = 32%nat ->
      encrypt_dispatch (VStr A) k plaintext w0 = (Ok (Some ct), w0') ->
      stdin w = tline :: cline :: rest ->
      str_strip tline <> "" ->
      str_strip cline = ct ->
      ct <> "" ->
      exists w' d' B msg,
        (rotate_algorithm f;; decrypt_for_user f) w = (Ok tt, w')
        /\ load_keystore_decrypted f w' = (Ok (VDict d'), w')
        /\ get_current_algo (VDict d') = Ok (VStr B)
        /\ B <> A
        /\ _get_raw_key_for_user (VDict d') user = Ok (Some k)
        /\ stdout w'
           = stdout w ++ ["Algorithm rotated to " +:+ B;
                          "Paste ciphertext or leave blank to read last file: ";
                          msg]
        /\ (msg = "Unsupported algorithm."
            \/ msg = "Decryption failed: invalid token or wrong key."
            \/ exists e, msg = "Decryption error: " +:+ exn_msg e)).
Proof.
  split.
  - intros f w w1 ks user current raw_key cline rest Hauth Hu Hload Hcur Hkey Hne Hin Hc.
    rewrite load_keystore_decrypted_spec in Hload.
    apply (decrypt_for_user_pasted f w w1 ks user current raw_key cline rest); auto.
    congruence.
  - intros f w d pre post user info A k plaintext ct w0 w0' tline cline rest
      Hk Hload Hh Hcur Hch Hitems Hrec Hno Hm Hu Hkey Hklen Henc Hin Ht Hc Hct.
    rewrite load_keystore_decrypted_spec in Hload.
    assert (Hks : keystore_of f w = Ok (VDict d)) by congruence.
    assert (Hwf : wf (VDict d) = true) by (eapply keystore_of_wf; eauto).
    set (B := chosen (rotation_choices (VStr A)) w).
    set (when := isoformat (clock w 0%nat) +:+ "Z").
    set (d' := rotated d (VStr A) B when).
    assert (HB : B <> A).
    { pose proof (chosen_In (rotation_choices (VStr A)) w Hch) as Hin'.
      apply rotation_choices_In in Hin' as [_ Hne]. fold B in Hne. congruence. }
    pose proof (rotate_algorithm_success f w d (VStr A) Hks Hcur Hch Hh) as Hrot.
    pose proof (keystore_of_after_rotation f w d (VStr A) Hk Hwf eq_refl) as Hks1.
    fold B when d' in Hks1.
    set (w1 := after_rotation f d (VStr A) w) in *.
    assert (Hin1 : stdin w1 = tline :: cline :: rest).
    { unfold w1. now rewrite stdin_after_rotation. }
    assert (Hitems1 : (users ← py_get (VDict d') "users" (VDict []); py_items users)
                      = Ok (pre ++ (user, info) :: post)).
    { unfold d'. unfold_monad. rewrite rotated_users. exact Hitems. }
    pose proof (authenticate_user_match f w1 (VDict d') pre user info post tline
                  (cline :: rest) Hks1 Hitems1 Hin1 Ht Hrec Hno Hm) as Hauth.
    set (w2 := after_auth_success user w1) in *.
    assert (Hks2 : keystore_of f w2 = Ok (VDict d')).
    { unfold w2, after_auth_success. now autorewrite with world. }
    assert (Hin2 : stdin w2 = cline :: rest).
    { unfold w2, after_auth_success. autorewrite with world. now rewrite Hin1. }
    assert (Hcur' : get_current_algo (VDict d') = Ok (VStr B))
      by (unfold d'; eapply rotated_current_algo; eauto).
    assert (Hkey' : _get_raw_key_for_user (VDict d') user = Ok (Some k))
      by (unfold d'; now rewrite rotated_raw_key).
    assert (Hkne : k <> []) by (intros ->; discriminate).
    assert (Hc' : str_strip cline <> "") by congruence.
    pose proof (decrypt_for_user_pasted f w1 w2 (VDict d') user (VStr B) k cline rest
                  Hauth Hu Hks2 Hcur' Hkey' Hkne Hin2 Hc') as Hdec.
    rewrite Hc in Hdec.
    set (w3 := after_line (after_print paste_prompt w2)) in *.
    assert (Hout3 : stdout w3 = stdout w ++ ["Algorithm rotated to " +:+ B; paste_prompt]).
    { unfold w3, w2, after_auth_success, w1. autorewrite with world.
      fold B. now rewrite <- app_assoc. }
    assert (Hks3 : keystore_of f w3 = Ok (VDict d')).
    { unfold w3. now autorewrite with world. }
    assert (Hrun : forall w', decrypt_for_user f w1 = (Ok tt, w') ->
                     (rotate_algorithm f;; decrypt_for_user f) w = (Ok tt, w')).
    { intros w' Hd. unfold_monad. now rewrite Hrot. }
    destruct (decrypt_dispatch_other_algorithm k plaintext ct A B w0 w0' Hklen Henc HB)
      as [Hnone|[e He]].
    + rewrite Hnone in Hdec. cbn [after_decrypt] in Hdec.
      exists (after_print "Unsupported algorithm." w3), d', B, "Unsupported algorithm.".
      split; [now apply Hrun|].
      split; [rewrite load_keystore_decrypted_spec; f_equal;
              now autorewrite with world|].
      split; [exact Hcur'|]. split; [exact HB|]. split; [exact Hkey'|].
      split; [|now left].
      autorewrite with world. rewrite Hout3, <- app_assoc. reflexivity.
    + rewrite He in Hdec. cbn [after_decrypt] in Hdec.
      destruct (is_InvalidToken e).
      * eexists _, d', B, "Decryption failed: invalid token or wrong key.".
        split; [apply Hrun, Hdec|].
        split; [rewrite load_keystore_decrypted_spec; f_equal;
                now autorewrite with world|].
        split; [exact Hcur'|]. split; [exact HB|]. split; [exact Hkey'|].
        split; [|now right; left].
        autorewrite with world. rewrite Hout3, <- app_assoc. reflexivity.
      * eexists _, d', B, ("Decryption error: " +:+ exn_msg e).
        split; [apply Hrun, Hdec|].
        split; [rewrite load_keystore_decrypted_spec; f_equal;
                now autorewrite with world|].
        split; [exact Hcur'|]. split; [exact HB|]. split; [exact Hkey'|].
        split; [|right; right; now exists e].
        autorewrite with world. rewrite Hout3, <- app_assoc. reflexivity.
Qed.

End DispatchClaims.

(* ===================================================================== *)
(** ** The theorems at work in the model *)
(* ===================================================================== *)

(** Settles [load_keystore_decrypted f w = (Ok ks, w)] by running it. *)
Ltac run_load :=
  rewrite load_keystore_decrypted_spec;
  apply (f_equal (fun r => (r, _)));
  vm_compute; reflexivity.

Lemma vault_config_has_alternative (current : value) :
  @rotation_choices vault_config current <> [].
Proof.
  unfold rotation_choices. cbn [ALGORITHMS vault_config List.filter].
  destruct (eq_str current "fernet") eqn:E1; cbn [negb]; [|discriminate].
  apply eq_str_true in E1. subst current. discriminate.
Qed.


(** C6 at the fresh vault, where the alternative to "fernet" is "chacha20",
    and at a vault configured with one algorithm, where there is none. *)
Lemma rotate_algorithm_rotates_witness :
  (exists w',
      @rotate_algorithm vault_config Model.primitives Examples.fernet_1 Run.initialised
      = (Ok tt, w')
      /\ stdout w' = stdout Run.initialised ++ ["Algorithm rotated to chacha20"])
  /\ (exists w',
      @rotate_algorithm Run.single_config Model.primitives Examples.fernet_1
        Run.initialised_single = (Ok tt, w')
      /\ stdout w' = stdout Run.initialised_single
                     ++ ["No alternative algorithm available."]
      /\ files w' = files Run.initialised_single).
Proof.
  split.
  - destruct (@rotate_algorithm_rotates vault_config Model.primitives ModelFacts.laws
                Examples.fernet_1 Run.initialised
                [("users", VDict []); ("keys", VDict []);
                 ("current_algo", VStr "fernet"); ("rotation_history", VList [])]
                (VStr "fernet"))
      as [_ H].
    + reflexivity.
    + run_load.
    + reflexivity.
    + right. exists []. reflexivity.
    + destruct H as (w' & new_algo & when & d' & Hrun & Hin & _ & _ & _ & _ & _ & _ & Hout & _).
      * discriminate.
      * exists w'. split; [exact Hrun|].
        destruct Hin as [<-|[]]. exact Hout.
  - destruct (@rotate_algorithm_rotates Run.single_config Model.primitives ModelFacts.laws
                Examples.fernet_1 Run.initialised_single
                [("users", VDict []); ("keys", VDict []);
                 ("current_algo", VStr "fernet"); ("rotation_history", VList [])]
                (VStr "fernet"))
      as [H _].
    + reflexivity.
    + run_load.
    + reflexivity.
    + right. exists []. reflexivity.
    + destruct H as (w' & Hrun & Hout & Hfiles & _); [reflexivity|].
      exists w'. auto.
Defined.

(** C7 at three rotations of a fresh vault. *)
Lemma rotation_history_chain_witness :
  exists w' d' hist current,
    (@init_first_time vault_config Model.primitives Examples.fernet_1;;
     @rotations vault_config Model.primitives Examples.fernet_1 3) empty_world
    = (Ok tt, w')
    /\ @load_keystore_decrypted vault_config Model.primitives Examples.fernet_1 w'
       = (Ok (VDict d'), w')
    /\ dict_get "rotation_history" d' = Some (VList hist)
    /\ List.length hist = 3%nat
    /\ dict_get "current_algo" d' = Some current
    /\ chained (VStr "fernet") hist current.
Proof.
  apply (@rotation_history_chain vault_config Model.primitives ModelFacts.laws
           Examples.fernet_1 empty_world 3 "fernet" ["chacha20"]).
  - reflexivity.
  - reflexivity.
  - reflexivity.
  - exact vault_config_has_alternative.
Defined.

(** C9 at a passphrase in a world with no salt file. *)
Lemma derive_master_key_salted_witness :
  exists key w1,
    @derive_master_key vault_config Model.primitives "correct-horse" empty_world
    = (Ok key, w1)
    /\ List.length key = 32%nat
    /\ @derive_master_key vault_config Model.primitives "correct-horse" w1 = (Ok key, w1).
Proof.
  destruct (@derive_master_key_salted vault_config Model.primitives ModelFacts.laws
              ModelFacts.perfect "correct-horse" empty_world)
    as [(key & w1 & H1 & H2 & H3 & _) _].
  exists key, w1. auto.
Defined.

(** C10 at a keystore file whose payload decrypts to "not json". *)
Lemma corrupt_payload_gives_default_witness :
  @load_keystore_decrypted vault_config Model.primitives Examples.fernet_1
    Run.corrupt_payload
  = (Ok (VDict [("users", VDict []); ("keys", VDict []);
                ("current_algo", VStr "fernet")]),
     Run.corrupt_payload).
Proof.
  eapply (@corrupt_payload_gives_default vault_config Model.primitives
            Examples.fernet_1 Run.corrupt_payload _ _ _ _ "fernet" ["chacha20"]).
  - reflexivity.
  - rewrite load_json_pure. apply (f_equal (fun r => (Ok r, _))).
    vm_compute. reflexivity.
  - vm_compute. reflexivity.
  - vm_compute. reflexivity.
  - vm_compute. reflexivity.
Defined.

(** C5 as stated fails: "alice", registered, registers again; the raw key the
    keystore holds for her afterwards is another one. *)
Lemma reregistration_changes_raw_key :
  exists k1 k2,
    fst (@register_user vault_config Model.primitives Examples.fernet_1
           (Run.typed ["alice"; "tok-123"] Run.with_alice)) = Ok tt
    /\ (ks ← fst (@load_keystore_decrypted vault_config Model.primitives
                    Examples.fernet_1 Run.with_alice);
        _get_raw_key_for_user ks "alice") = Ok (Some k1)
    /\ (ks ← fst (@load_keystore_decrypted vault_config Model.primitives
                    Examples.fernet_1
                    (snd (@register_user vault_config Model.primitives Examples.fernet_1
                            (Run.typed ["alice"; "tok-123"] Run.with_alice))));
        _get_raw_key_for_user ks "alice") = Ok (Some k2)
    /\ k1 <> k2.
Proof.
  eexists _, _. split; [vm_compute; reflexivity|].
  split; [vm_compute; reflexivity|].
  split; [vm_compute; reflexivity|].
  discriminate.
Qed.

(** C5, as amended, at "alice" registering again with another token. *)
Lemma register_user_again_replaces_key_witness :
  exists w' d' us' ksd' raw_key w0 created created',
    @register_user vault_config Model.primitives Examples.fernet_1
      (Run.typed ["alice"; "tok-456"] Run.with_alice) = (Ok tt, w')
    /\ @load_keystore_decrypted vault_config Model.primitives Examples.fernet_1 w'
       = (Ok (VDict d'), w')
    /\ dict_get "users" d' = Some (VDict us')
    /\ dict_get "keys" d' = Some (VDict ksd')
    /\ dict_get "alice" us'
       = Some (VDict [("fp_hash", VStr (@hash_fp Model.primitives "tok-456"));
                      ("created", VStr created)])
    /\ token_bytes 32 (Run.typed ["alice"; "tok-456"] Run.with_alice) = (Ok raw_key, w0)
    /\ dict_get "alice" ksd'
       = Some (VDict [("enc_key", VStr (string_of_list_byte (Base64.b64encode raw_key)));
                      ("algo_history", VList []);
                      ("created", VStr created')]).
Proof.
  pose proof (fun d us ksd old_user old_key =>
                @register_user_again_replaces_key vault_config Model.primitives
                  ModelFacts.laws Examples.fernet_1
                  (Run.typed ["alice"; "tok-456"] Run.with_alice)
                  d us ksd old_user old_key "alice" "tok-456" []) as H.
  edestruct H
    as (w' & d' & us' & ksd' & raw_key & w0 & created & created'
        & Hrun & Hload & Hus & Hkeys & Hu & Htok & Hk & _).
  - reflexivity.
  - run_load.
  - reflexivity.
  - reflexivity.
  - reflexivity.
  - vm_compute. discriminate.
  - vm_compute. discriminate.
  - vm_compute. reflexivity.
  - vm_compute. reflexivity.
  - exists w', d', us', ksd', raw_key, w0, created, created'.
    repeat (split; [assumption|]). exact Hk.
Defined.

(** C8 at "alice" and "bob" registered in a fresh vault, and bob's token
    typed. *)
Lemma authenticate_user_first_match_witness :
  exists w',
    (@init_first_time vault_config Model.primitives Examples.fernet_1;;
     @register_user vault_config Model.primitives Examples.fernet_1;;
     @register_user vault_config Model.primitives Examples.fernet_1;;
     @authenticate_user vault_config Model.primitives Examples.fernet_1)
      (Run.typed ["alice"; "tok-a"; "bob"; "tok-b"; "tok-b"] empty_world)
    = (Ok (Some "bob"), w').
Proof.
  destruct (proj2 (@authenticate_user_first_match vault_config Model.primitives
                     ModelFacts.laws ModelFacts.perfect)
              Examples.fernet_1
              (Run.typed ["alice"; "tok-a"; "bob"; "tok-b"; "tok-b"] empty_world)
              "fernet" ["chacha20"] "alice" "tok-a" "bob" "tok-b" "tok-b" [])
    as [w' Hrun].
  - reflexivity.
  - reflexivity.
  - reflexivity.
  - reflexivity.
  - vm_compute. discriminate.
  - vm_compute. discriminate.
  - vm_compute. discriminate.
  - vm_compute. discriminate.
  - vm_compute. discriminate.
  - vm_compute. discriminate.
  - vm_compute. discriminate.
  - exists w'. rewrite Hrun. apply (f_equal (fun r => (Ok r, w'))).
    vm_compute. reflexivity.
Defined.

(** C4 at "alice", her Fernet ciphertext of "hello world", and a rotation to
    "chacha20". *)
Lemma decrypt_uses_live_algorithm_witness :
  exists w' d' B msg,
    (@rotate_algorithm vault_config Model.primitives Examples.fernet_1;;
     @decrypt_for_user vault_config Model.primitives Examples.fernet_1)
      (Run.typed ["tok-123"; Run.alice_ciphertext] Run.with_alice) = (Ok tt, w')
    /\ @load_keystore_decrypted vault_config Model.primitives Examples.fernet_1 w'
       = (Ok (VDict d'), w')
    /\ @get_current_algo vault_config (VDict d') = Ok (VStr B)
    /\ B <> "fernet"
    /\ _get_raw_key_for_user (VDict d') "alice" = Ok (Some Run.alice_key)
    /\ stdout w'
       = stdout (Run.typed ["tok-123"; Run.alice_ciphertext] Run.with_alice)
         ++ ["Algorithm rotated to " +:+ B;
             "Paste ciphertext or leave blank to read last file: "; msg]
    /\ (msg = "Unsupported algorithm."
        \/ msg = "Decryption failed: invalid token or wrong key."
        \/ exists e, msg = "Decryption error: " +:+ exn_msg e).
Proof.
  eapply (proj2 (@decrypt_uses_live_algorithm vault_config Model.primitives
                   ModelFacts.laws ModelFacts.perfect)
            Examples.fernet_1
            (Run.typed ["tok-123"; Run.alice_ciphertext] Run.with_alice)
            _ [] _ "alice" _ "fernet" Run.alice_key "hello world" Run.alice_ciphertext
            Run.with_alice _ "tok-123" Run.alice_ciphertext []).
  - reflexivity.
  - run_load.
  - right. eexists. reflexivity.
  - reflexivity.
  - exact (vault_config_has_alternative _).
  - vm_compute. reflexivity.
  - constructor.
  - constructor.
  - vm_compute. reflexivity.
  - discriminate.
  - vm_compute. reflexivity.
  - reflexivity.
  - apply (@encrypt_dispatch_fernet Model.primitives ModelFacts.laws). reflexivity.
  - reflexivity.
  - vm_compute. discriminate.
  - vm_compute. reflexivity.
  - vm_compute. discriminate.
Defined.

(* ====================================================================== *)
(** * Further facts and theorems *)
(* ====================================================================== *)

(* ===================================================================== *)
(** ** What no operation does *)
(* ===================================================================== *)

Create HintDb respects.

Section Frames.

Context {cfg : Config} {prim : Primitives}.

Lemma extends_refl w : extends w w.
Proof.
  split; auto.
  - now exists [].
  - exists []. now rewrite app_nil_r.
  - exists []. now rewrite app_nil_r.
Qed.

Lemma extends_trans w1 w2 w3 : extends w1 w2 -> extends w2 w3 -> extends w1 w3.
Proof.
  intros [[u1 H1] [o1 H2] [a1 H3] H4 H5 H6] [[u2 H1'] [o2 H2'] [a2 H3'] H4' H5' H6'].
  split; auto.
  - exists (u1 ++ u2). now rewrite H1, H1', app_assoc.
  - exists (o1 ++ o2). now rewrite H2', H2, app_assoc.
  - exists (a1 ++ a2). now rewrite H3', H3, app_assoc.
Qed.

Lemma respects_ret {A} (a : A) : respects (mret a).
Proof. intros w. apply extends_refl. Qed.

Lemma respects_raise {A} e : respects (@raise A e).
Proof. intros w. apply extends_refl. Qed.

Lemma respects_lift {A} (r : result A) : respects (lift r).
Proof. intros w. apply extends_refl. Qed.

Lemma respects_bind {A B} (m : M A) (k : A -> M B) :
  respects m -> (forall a, respects (k a)) -> respects (mbind k m).
Proof.
  intros Hm Hk w. unfold_monad. specialize (Hm w).
  destruct (m w) as [[a|e] w']; cbn [snd] in *; [|exact Hm].
  eapply extends_trans; [exact Hm|apply Hk].
Qed.

Lemma respects_try_except {A} (body : M A) (handler : exn -> M A) :
  respects body -> (forall e, respects (handler e)) -> respects (try_except body handler).
Proof.
  intros Hm Hk w. unfold try_except. specialize (Hm w).
  destruct (body w) as [[a|e] w']; cbn [snd] in *; [exact Hm|].
  eapply extends_trans; [exact Hm|apply Hk].
Qed.

(** *** The primitives *)

Lemma respects_path_exists p : respects (path_exists p).
Proof. intros w. apply extends_refl. Qed.

Lemma respects_read_bytes p : respects (read_bytes p).
Proof. intros w. unfold read_bytes. destruct (files w p); apply extends_refl. Qed.

Lemma respects_print s : respects (print s).
Proof.
  intros w. split; cbn; auto.
  - now exists [].
  - now exists [s].
  - exists []. now rewrite app_nil_r.
Qed.

Lemma respects_read_line : respects read_line.
Proof.
  intros w. unfold read_line. destruct (stdin w) as [|l rest] eqn:Hin;
    [apply extends_refl|].
  split; cbn; auto.
  - exists [l]. now rewrite Hin.
  - exists []. now rewrite app_nil_r.
  - exists []. now rewrite app_nil_r.
Qed.

Lemma respects_read_clock : respects read_clock.
Proof.
  intros w. split; cbn; auto.
  - now exists [].
  - exists []. now rewrite app_nil_r.
  - exists []. now rewrite app_nil_r.
Qed.

Lemma respects_token_bytes n : respects (token_bytes n).
Proof.
  intros w. split; cbn; auto.
  - now exists [].
  - exists []. now rewrite app_nil_r.
  - exists []. now rewrite app_nil_r.
Qed.

Lemma respects_append_audit_log data : respects (append_text AUDIT_LOG data).
Proof.
  intros w. split; cbn; auto.
  - now exists [].
  - exists []. now rewrite app_nil_r.
  - exists (Utf8.encode data). unfold audit_bytes. cbn. unfold update.
    destruct (decide (AUDIT_LOG = AUDIT_LOG)); [reflexivity|congruence].
Qed.

Lemma respects_atomic_write p data :
  p <> AUDIT_LOG -> p <> SALT_PATH -> is_tmp p = false ->
  respects (atomic_write p data).
Proof.
  intros Ha Hs Ht w. unfold atomic_write, write_text, write_bytes, os_replace.
  unfold_monad. cbn [files set_files]. unfold update at 1.
  destruct (decide (with_suffix_tmp p = with_suffix_tmp p)); [|congruence].
  split; cbn; auto.
  - now exists [].
  - exists []. now rewrite app_nil_r.
  - exists []. rewrite app_nil_r. unfold audit_bytes. cbn. unfold update.
    destruct (decide (AUDIT_LOG = with_suffix_tmp p)); [discriminate|].
    destruct (decide (AUDIT_LOG = p)); [congruence|reflexivity].
  - intros s Hsalt. unfold update.
    destruct (decide (SALT_PATH = with_suffix_tmp p)); [discriminate|].
    destruct (decide (SALT_PATH = p)); [congruence|exact Hsalt].
  - intros Hk. unfold update.
    destruct (decide (KEYSTORE_PATH = with_suffix_tmp p)); [discriminate|].
    destruct (decide (KEYSTORE_PATH = p)); [discriminate|exact Hk].
  - intros q Hq. unfold update.
    destruct (decide (with_suffix_tmp q = with_suffix_tmp p)); [reflexivity|].
    destruct (decide (with_suffix_tmp q = p)) as [<-|]; [discriminate|exact Hq].
Qed.

Lemma respects_ensure_salt : respects _ensure_salt.
Proof.
  intros w. rewrite _ensure_salt_spec. cbn [snd]. unfold after_ensure_salt.
  destruct (files w SALT_PATH) as [s|] eqn:Hs; [apply extends_refl|].
  split; cbn; auto.
  - now exists [].
  - exists []. now rewrite app_nil_r.
  - exists []. now rewrite app_nil_r.
  - intros s Hs'. congruence.
Qed.

(** *** The operations *)

#[local] Hint Resolve respects_ret respects_raise respects_lift respects_path_exists
  respects_read_bytes respects_print respects_read_line respects_read_clock
  respects_token_bytes respects_append_audit_log respects_ensure_salt : respects.

Ltac respects_step :=
  first
    [ apply respects_ret | apply respects_raise | apply respects_lift
    | solve [auto with respects]
    | apply respects_bind; [|intros ?]
    | apply respects_try_except; [|intros ?]
    | match goal with
      | |- respects (if ?b then _ else _) => destruct b
      | |- respects (match ?x with _ => _ end) => destruct x
      end ].

Ltac respects_auto := cbv zeta; repeat (respects_step; cbv beta zeta).

Lemma respects_input prompt : respects (input prompt).
Proof. unfold input. respects_auto. Qed.

Lemma respects_getpass prompt : respects (getpass prompt).
Proof. unfold getpass. respects_auto. Qed.

Lemma respects_read_text p : respects (read_text p).
Proof. unfold read_text. respects_auto. Qed.

Lemma respects_now_iso : respects now_iso.
Proof. unfold now_iso. respects_auto. Qed.

Lemma respects_secrets_choice l : respects (secrets_choice l).
Proof. unfold secrets_choice. respects_auto. Qed.

#[local] Hint Resolve respects_input respects_getpass respects_read_text
  respects_now_iso respects_secrets_choice : respects.

Lemma respects_load_json p : respects (load_json p).
Proof. unfold load_json. respects_auto. Qed.

Lemma respects_append_audit entry : respects (append_audit entry).
Proof. unfold append_audit. respects_auto. Qed.

Lemma respects_save_json_atomic_keystore obj :
  respects (save_json_atomic KEYSTORE_PATH obj).
Proof. unfold save_json_atomic. now apply respects_atomic_write. Qed.

Lemma respects_derive_master_key passphrase : respects (derive_master_key passphrase).
Proof. unfold derive_master_key. respects_auto. Qed.

Lemma respects_Fernet_encrypt f data : respects (Fernet_encrypt f data).
Proof. unfold Fernet_encrypt. respects_auto. Qed.

#[local] Hint Resolve respects_load_json respects_append_audit
  respects_save_json_atomic_keystore respects_derive_master_key
  respects_Fernet_encrypt : respects.

Lemma respects_save_keystore_encrypted ks f : respects (save_keystore_encrypted ks f).
Proof. unfold save_keystore_encrypted. respects_auto. Qed.

Lemma respects_load_keystore_decrypted f : respects (load_keystore_decrypted f).
Proof. unfold load_keystore_decrypted. respects_auto. Qed.

#[local] Hint Resolve respects_save_keystore_encrypted
  respects_load_keystore_decrypted : respects.

Lemma respects_register_user f : respects (register_user f).
Proof. unfold register_user. respects_auto. Qed.

Lemma respects_scan_users fp_h items : respects (scan_users fp_h items).
Proof.
  induction items as [|[name info] rest IH]; cbn [scan_users]; respects_auto.
Qed.

#[local] Hint Resolve respects_scan_users : respects.

Lemma respects_authenticate_user f : respects (authenticate_user f).
Proof. unfold authenticate_user. respects_auto. Qed.

Lemma respects_rotate_algorithm f : respects (rotate_algorithm f).
Proof. unfold rotate_algorithm. respects_auto. Qed.

Lemma respects_fernet_encrypt k plaintext : respects (fernet_encrypt k plaintext).
Proof. unfold fernet_encrypt. respects_auto. Qed.

Lemma respects_chacha_encrypt k plaintext : respects (chacha_encrypt k plaintext).
Proof. unfold chacha_encrypt. respects_auto. Qed.

#[local] Hint Resolve respects_authenticate_user respects_fernet_encrypt
  respects_chacha_encrypt : respects.

Lemma respects_encrypt_dispatch a k plaintext : respects (encrypt_dispatch a k plaintext).
Proof. unfold encrypt_dispatch. respects_auto. Qed.

Lemma respects_atomic_write_cipher user ct : respects (atomic_write (last_cipher user) ct).
Proof. now apply respects_atomic_write. Qed.

#[local] Hint Resolve respects_encrypt_dispatch respects_atomic_write_cipher : respects.

Lemma respects_encrypt_for_user f : respects (encrypt_for_user f).
Proof. unfold encrypt_for_user. respects_auto. Qed.

Lemma respects_decrypt_for_user f : respects (decrypt_for_user f).
Proof. unfold decrypt_for_user. respects_auto. Qed.

Lemma respects_unlock_master : respects unlock_master.
Proof. unfold unlock_master. respects_auto. Qed.

Lemma respects_init_first_time f : respects (init_first_time f).
Proof. unfold init_first_time. respects_auto. Qed.

Lemma respects_load_keystore : respects load_keystore.
Proof. unfold load_keystore. respects_auto. Qed.

Lemma respects_show_keystore f : respects (show_keystore f).
Proof. unfold show_keystore. respects_auto. Qed.

Lemma respects_export_user_key f user : respects (export_user_key f user).
Proof. unfold export_user_key. respects_auto. Qed.

Lemma respects_view_audit_log : respects view_audit_log.
Proof. unfold view_audit_log, readlines. respects_auto. Qed.

Lemma respects_print_menu : respects print_menu.
Proof. unfold print_menu. respects_auto. Qed.

#[local] Hint Resolve respects_register_user respects_rotate_algorithm
  respects_encrypt_for_user respects_decrypt_for_user respects_unlock_master
  respects_init_first_time respects_show_keystore respects_export_user_key
  respects_view_audit_log respects_print_menu : respects.

Lemma respects_main_loop fuel f : respects (main_loop fuel f).
Proof.
  induction fuel as [|fuel IH]; cbn [main_loop]; respects_auto.
Qed.

Lemma respects_main fuel : respects (main fuel).
Proof.
  unfold main. pose proof respects_main_loop. respects_auto.
Qed.

(** *** The loop ends *)

Lemma extends_stdin_length w w' :
  extends w w' -> (List.length (stdin w') <= List.length (stdin w))%nat.
Proof. intros [[used H] _ _ _ _ _]. rewrite H, length_app. lia. Qed.

Lemma respects_stdin_length {A} (m : M A) a w w' :
  respects m -> m w = (Ok a, w') ->
  (List.length (stdin w') <= List.length (stdin w))%nat.
Proof.
  intros Hm Hrun. apply extends_stdin_length.
  specialize (Hm w). now rewrite Hrun in Hm.
Qed.

Lemma input_consumes prompt l w w' :
  input prompt w = (Ok l, w') ->
  S (List.length (stdin w')) = List.length (stdin w).
Proof.
  unfold input, print, read_line. unfold_monad. cbn.
  destruct (stdin w) as [|l0 rest]; [discriminate|].
  now intros [= _ <-].
Qed.

(** A run that goes on after an operation has not run out of rounds if
    what comes after has not. *)
Lemma bind_not_out {A} (m : M A) (k : A -> M (option unit)) w :
  (forall a w', m w = (Ok a, w') -> fst (k a w') <> Ok None) ->
  fst (mbind k m w) <> Ok None.
Proof.
  intros H. unfold_monad. destruct (m w) as [[a|e] w'] eqn:Hm.
  - now apply H.
  - discriminate.
Qed.

Lemma main_loop_not_out fuel f w :
  (List.length (stdin w) < fuel)%nat -> fst (main_loop fuel f w) <> Ok None.
Proof.
  revert w. induction fuel as [|fuel IH]; intros w Hlt; [lia|].
  cbn [main_loop].
  apply bind_not_out. intros [] w1 H1.
  apply (respects_stdin_length _ _ _ _ respects_print_menu) in H1.
  apply bind_not_out. intros choice w2 H2. apply input_consumes in H2.
  assert (Hlt2 : (List.length (stdin w2) < fuel)%nat) by lia.
  assert (Hnext : forall (m : M unit), respects m ->
             fst (mbind (fun _ => main_loop fuel f) m w2) <> Ok None).
  { intros m Hm. apply bind_not_out. intros [] w3 H3. apply IH.
    apply (respects_stdin_length _ _ _ _ Hm) in H3. lia. }
  cbv zeta.
  repeat match goal with
         | |- fst ((if ?b then _ else _) _) <> _ => destruct b
         end;
    try (apply Hnext; auto with respects; fail).
  - apply bind_not_out. intros user w3 H3. apply input_consumes in H3.
    apply bind_not_out. intros [] w4 H4. apply IH.
    apply (respects_stdin_length _ _ _ _ (respects_export_user_key f _)) in H4. lia.
  - discriminate.
Qed.

Lemma bind_same {A B} (m : M A) (k k' : A -> M B) w :
  (forall a w', m w = (Ok a, w') -> k a w' = k' a w') ->
  mbind k m w = mbind k' m w.
Proof.
  intros H. unfold_monad. destruct (m w) as [[a|e] w'] eqn:Hm; [now apply H|reflexivity].
Qed.

Lemma bind_not_out_inv {A} (m : M A) (k : A -> M (option unit)) w a w' :
  fst (mbind k m w) <> Ok None -> m w = (Ok a, w') -> fst (k a w') <> Ok None.
Proof. unfold_monad. intros H Hm. now rewrite Hm in H. Qed.

(** More rounds than a run needed change nothing. *)
Lemma main_loop_more_fuel fuel fuel' f w :
  fst (main_loop fuel f w) <> Ok None -> (fuel <= fuel')%nat ->
  main_loop fuel' f w = main_loop fuel f w.
Proof.
  revert fuel' w. induction fuel as [|fuel IH]; intros fuel' w Hout Hle.
  { now contradiction Hout. }
  destruct fuel' as [|fuel']; [lia|]. assert (Hle' : (fuel <= fuel')%nat) by lia.
  revert Hout. cbn [main_loop]. intros Hout.
  apply bind_same. intros [] w1 H1.
  apply (bind_not_out_inv _ _ _ _ _ Hout) in H1 as Hout1.
  apply bind_same. intros choice w2 H2.
  apply (bind_not_out_inv _ _ _ _ _ Hout1) in H2 as Hout2.
  revert Hout2. cbv zeta.
  assert (Hnext : forall (m : M unit),
             fst (mbind (fun _ => main_loop fuel f) m w2) <> Ok None ->
             mbind (fun _ => main_loop fuel' f) m w2
             = mbind (fun _ => main_loop fuel f) m w2).
  { intros m Hm. apply bind_same. intros [] w3 H3. apply IH; [|exact Hle'].
    exact (bind_not_out_inv _ _ _ _ _ Hm H3). }
  repeat match goal with
         | |- fst ((if ?b then _ else _) _) <> _ -> _ => destruct b
         end;
    try (exact (Hnext _)).
  - intros Hm. apply bind_same. intros user w3 H3.
    apply (bind_not_out_inv _ _ _ _ _ Hm) in H3 as Hm3.
    cbv zeta in *. apply bind_same. intros [] w4 H4. apply IH; [|exact Hle'].
    exact (bind_not_out_inv _ _ _ _ _ Hm3 H4).
  - reflexivity.
Qed.

End Frames.

Section SessionTheorems.

Context {cfg : Config} {prim : Primitives}.

(** X1.  The audit log is append-only: whatever the user types and however
    it ends, a session of [main] of any number of rounds, and each operation
    of the menu on its own, leaves an audit log that is the old one with
    bytes added at the end; nothing is rewritten, truncated or removed. *)
Theorem audit_log_append_only (fuel : nat) (master : Fernet) (username : string)
    (w : World) :
  audit_kept w (snd (main fuel w))
  /\ audit_kept w (snd (init_first_time master w))
  /\ audit_kept w (snd (register_user master w))
  /\ audit_kept w (snd (authenticate_user master w))
  /\ audit_kept w (snd (encrypt_for_user master w))
  /\ audit_kept w (snd (decrypt_for_user master w))
  /\ audit_kept w (snd (rotate_algorithm master w))
  /\ audit_kept w (snd (show_keystore master w))
  /\ audit_kept w (snd (export_user_key master username w))
  /\ audit_kept w (snd (view_audit_log w)).
Proof.
  repeat split; apply ext_audit.
  - apply respects_main.
  - apply respects_init_first_time.
  - apply respects_register_user.
  - apply respects_authenticate_user.
  - apply respects_encrypt_for_user.
  - apply respects_decrypt_for_user.
  - apply respects_rotate_algorithm.
  - apply respects_show_keystore.
  - apply respects_export_user_key.
  - apply respects_view_audit_log.
Qed.

(** X2.  A salt file that exists is never written again: after a session of
    [main] of any number of rounds it holds the same bytes, so every
    passphrase still derives the master key it derived before. *)
Theorem salt_is_never_rewritten (fuel : nat) (w : World) (s : bytes)
    (passphrase : string) :
  files w SALT_PATH = Some s ->
  files (snd (main fuel w)) SALT_PATH = Some s
  /\ fst (derive_master_key passphrase (snd (main fuel w)))
     = fst (derive_master_key passphrase w).
Proof.
  intros Hs.
  assert (Hs' : files (snd (main fuel w)) SALT_PATH = Some s)
    by (apply (ext_salt _ _ (respects_main fuel w)), Hs).
  split; [exact Hs'|].
  rewrite !derive_master_key_spec. cbn [fst]. unfold salt_of. now rewrite Hs, Hs'.
Qed.

(** X3.  No temporary file is left behind and the keystore file is never
    removed: a [.tmp] file that did not exist before a session of [main]
    does not exist after it, and a keystore file that existed still does. *)
Theorem no_temporary_file_left (fuel : nat) (w : World) (p : path) :
  files w (with_suffix_tmp p) = None ->
  files (snd (main fuel w)) (with_suffix_tmp p) = None
  /\ (files w KEYSTORE_PATH <> None -> files (snd (main fuel w)) KEYSTORE_PATH <> None).
Proof.
  intros Hp. split.
  - apply (ext_tmp _ _ (respects_main fuel w)), Hp.
  - apply (ext_keystore _ _ (respects_main fuel w)).
Qed.

(** X4.  [main] ends on every finite input: with more rounds than there are
    lines to read the loop does not run out of rounds, it ends because the
    user chose to exit or because an exception went up (the end of the input
    among them), and any larger number of rounds gives the same result and
    the same world. *)
Theorem main_ends (fuel fuel' : nat) (w : World) :
  (List.length (stdin w) < fuel)%nat -> (fuel <= fuel')%nat ->
  (fst (main fuel w) = Ok (Some tt) \/ exists e, fst (main fuel w) = Raise e)
  /\ main fuel' w = main fuel w.
Proof.
  intros Hlt Hle.
  assert (Hout : fst (main fuel w) <> Ok None).
  { unfold main. apply bind_not_out. intros [] w1 H1.
    apply (respects_stdin_length _ _ _ _ (respects_print _)) in H1.
    apply bind_not_out. intros [f|] w2 H2; [|discriminate].
    apply (respects_stdin_length _ _ _ _ respects_unlock_master) in H2.
    apply bind_not_out. intros [] w3 H3.
    apply (respects_stdin_length _ _ _ _ (respects_init_first_time f)) in H3.
    apply main_loop_not_out. lia. }
  split.
  - destruct (fst (main fuel w)) as [[[]|]|e]; [now left|contradiction|eauto].
  - revert Hout. unfold main. intros Hout.
    apply bind_same. intros [] w1 H1.
    apply (bind_not_out_inv _ _ _ _ _ Hout) in H1 as Hout1.
    apply bind_same. intros [f|] w2 H2; [|reflexivity].
    apply (bind_not_out_inv _ _ _ _ _ Hout1) in H2 as Hout2.
    apply bind_same. intros [] w3 H3.
    apply (bind_not_out_inv _ _ _ _ _ Hout2) in H3 as Hout3.
    now apply main_loop_more_fuel.
Qed.

End SessionTheorems.

(* ===================================================================== *)
(** ** Files, the master key and the keystore at their edges *)
(* ===================================================================== *)

Section Edges.

Context {cfg : Config} {prim : Primitives} {laws : PrimitiveLaws}.

Lemma atomic_write_spec p data w :
  atomic_write p data w = (Ok tt, after_atomic_write p data w).
Proof.
  unfold atomic_write, write_text, write_bytes, os_replace, after_atomic_write.
  unfold_monad. cbn [files set_files]. unfold update at 1.
  destruct (decide (with_suffix_tmp p = with_suffix_tmp p)); [reflexivity|congruence].
Qed.

Lemma files_after_atomic_write p data w :
  is_tmp p = false ->
  files (after_atomic_write p data w) p = Some (Utf8.encode data).
Proof.
  intros Hp. cbn. unfold update.
  destruct (decide (p = with_suffix_tmp p)) as [E|_]; [now rewrite E in Hp|].
  destruct (decide (p = p)); [reflexivity|congruence].
Qed.

Lemma files_after_atomic_write_other p data w q :
  q <> p -> q <> with_suffix_tmp p ->
  files (after_atomic_write p data w) q = files w q.
Proof.
  intros H1 H2. cbn. unfold update.
  destruct (decide (q = with_suffix_tmp p)); [contradiction|].
  destruct (decide (q = p)); [contradiction|reflexivity].
Qed.


(** X6.  [load_json] never raises and changes nothing: a file that is not
    there, is not UTF-8 or is not JSON reads as the empty dict, any other as
    the value it holds. *)
Theorem load_json_never_raises (p : path) (w : World) :
  exists v,
    load_json p w = (Ok v, w)
    /\ (files w p = None -> v = VDict [])
    /\ (forall b, files w p = Some b -> Utf8.valid b = false -> v = VDict [])
    /\ (forall b, files w p = Some b ->
          json_loads (string_of_list_byte b) = None -> v = VDict [])
    /\ (forall b v', files w p = Some b -> Utf8.valid b = true ->
          json_loads (string_of_list_byte b) = Some v' -> v = v').
Proof.
  exists (parse_json_file (files w p)). split; [apply load_json_pure|].
  unfold parse_json_file, Utf8.decode.
  split; [now intros ->|]. split; [|split].
  - intros b -> Hv. now rewrite Hv.
  - intros b -> Hj. destruct (Utf8.valid b); [now rewrite Hj|reflexivity].
  - intros b v' -> Hv Hj. now rewrite Hv, Hj.
Qed.

(** X7.  What [save_json_atomic] wrote, [load_json] reads back: the same
    value, for every value with each key once in a dict. *)
Theorem save_json_atomic_then_load_json (p : path) (obj : value) (w : World) :
  is_tmp p = false -> wf obj = true ->
  exists w',
    (save_json_atomic p obj;; load_json p) w = (Ok obj, w')
    /\ files w' p = Some (Utf8.encode (json_dumps_indent obj)).
Proof.
  intros Hp Hwf. exists (after_atomic_write p (json_dumps_indent obj) w).
  unfold save_json_atomic. unfold_monad.
  rewrite atomic_write_spec, load_json_pure.
  rewrite files_after_atomic_write by exact Hp. split; [|reflexivity].
  f_equal. f_equal. unfold parse_json_file.
  rewrite Utf8Facts.decode_valid by apply Utf8Facts.valid_ascii, json_dumps_indent_ascii.
  unfold Utf8.encode. rewrite string_of_list_byte_of_string.
  now rewrite json_loads_dumps_indent.
Qed.

(** X8.  [master_key_to_fernet] accepts exactly the keys of 32 bytes, and
    the [Fernet] it makes holds the key it was given; any other length is a
    [ValueError]. *)
Theorem master_key_to_fernet_32_bytes (mk : bytes) :
  (List.length mk = 32%nat -> master_key_to_fernet mk = Ok {| fernet_key := mk |})
  /\ (List.length mk <> 32%nat ->
      master_key_to_fernet mk
      = Raise (Exn ValueError "Fernet key must be 32 url-safe base64-encoded bytes.")).
Proof.
  split; [apply master_key_to_fernet_Ok|].
  intros H. unfold master_key_to_fernet, Fernet_init.
  rewrite Base64Facts.urlsafe_b64decode_b64encode.
  apply Nat.eqb_neq in H. now rewrite H.
Qed.

(** X9.  [unlock_master] on a line typed: a passphrase that is blank once
    stripped is refused with a message, nothing derived and no salt written;
    any other gives the [Fernet] of the key derived from the stripped
    passphrase and the salt, which is then in the salt file, and prints
    nothing. *)
Theorem unlock_master_outcome (line : string) (rest : list string) (w : World) :
  stdin w = line :: rest ->
  (str_strip line = "" ->
     unlock_master w = (Ok None, after_print "Passphrase required." (after_line w)))
  /\ (str_strip line <> "" ->
     exists w',
       unlock_master w
       = (Ok (Some {| fernet_key :=
                        pbkdf2_hmac_sha256 32 (salt_of w) KDF_ITERATIONS
                          (Utf8.encode (str_strip line)) |}), w')
       /\ files w' SALT_PATH = Some (salt_of w)
       /\ stdin w' = rest /\ stdout w' = stdout w).
Proof.
  intros Hin. unfold unlock_master, getpass. unfold_monad.
  rewrite (read_line_spec line rest) by exact Hin. split.
  - intros ->. reflexivity.
  - intros Hne. rewrite (eqb_empty_false _ Hne).
    rewrite derive_master_key_spec.
    rewrite master_key_to_fernet_Ok by apply pbkdf2_length.
    eexists. split; [reflexivity|].
    split; [rewrite files_after_ensure_salt; unfold salt_of; reflexivity|].
    split.
    + unfold after_ensure_salt, after_line. cbn [files set_stdin].
      destruct (files w SALT_PATH); cbn; now rewrite Hin.
    + unfold after_ensure_salt, after_line. cbn [files set_stdin].
      destruct (files w SALT_PATH); reflexivity.
Qed.

Lemma py_contains_dict_set k v d :
  py_contains k (VDict (dict_set k v d)) = Ok true.
Proof. cbn [py_contains]. now rewrite dict_get_set_eq. Qed.


(** X11.  [load_keystore_decrypted] only reads: whether it returns or
    raises, the world is as before.  With no keystore file it returns the
    default document.  It raises nothing but the wrong-passphrase error, a
    [TypeError] (the file holds a number or a boolean) and an [IndexError]
    ([ALGORITHMS] is empty): no parse or decoding error reaches the
    caller. *)
Theorem load_keystore_decrypted_only_reads (f : Fernet) (w : World) :
  snd (load_keystore_decrypted f w) = w
  /\ (files w KEYSTORE_PATH = None ->
      fst (load_keystore_decrypted f w) = default_keystore)
  /\ (forall e, fst (load_keystore_decrypted f w) = Raise e ->
        e = wrong_passphrase \/ exn_cls e = TypeError \/ exn_cls e = IndexError).
Proof.
  rewrite load_keystore_decrypted_pure. cbn [fst snd].
  split; [reflexivity|]. split; [now intros ->|].
  intros e. unfold open_keystore.
  assert (Hdef : default_keystore = Raise e -> exn_cls e = IndexError).
  { unfold default_keystore, ALGORITHMS_0. unfold_monad.
    destruct ALGORITHMS; [|discriminate]. now intros [= <-]. }
  destruct (files w KEYSTORE_PATH) as [b|]; [|auto].
  destruct (truthy _); cbn [negb]; [|auto].
  destruct (py_contains "payload" _) as [[|]|e'] eqn:Hc; cbn [negb]; [|auto|].
  - destruct (open_envelope f _) as [ks|e']; [discriminate|].
    destruct (is_InvalidToken e'); [intros [= <-]; now left|auto].
  - intros [= <-]. right. left.
    destruct (parse_json_file (Some b)); cbn in Hc; try discriminate;
      now injection Hc as <-.
Qed.

(** X12.  [init_first_time] creates the keystore once: run again it does
    nothing, so twice is the same as once; and after it returned there is a
    keystore file. *)
Theorem init_first_time_idempotent (f : Fernet) (w : World) :
  (init_first_time f;; init_first_time f) w = init_first_time f w
  /\ (forall w', init_first_time f w = (Ok tt, w') -> files w' KEYSTORE_PATH <> None).
Proof.
  assert (H : forall w', init_first_time f w = (Ok tt, w') ->
                files w' KEYSTORE_PATH <> None).
  { unfold init_first_time, path_exists. unfold_monad.
    destruct (files w KEYSTORE_PATH) as [b|] eqn:Hf.
    - intros w' [= <-]. now rewrite Hf.
    - destruct ALGORITHMS_0 as [a|e]; [|discriminate].
      rewrite save_keystore_encrypted_spec, append_audit_spec.
      intros w' [= <-].
      change (files (after_audit ?e ?w0) KEYSTORE_PATH) with (files w0 KEYSTORE_PATH).
      now rewrite files_after_save. }
  split; [|exact H].
  unfold_monad. destruct (init_first_time f w) as [[[]|e] w'] eqn:Hrun; [|reflexivity].
  specialize (H w' eq_refl).
  unfold init_first_time, path_exists. unfold_monad.
  destruct (files w' KEYSTORE_PATH); [reflexivity|contradiction].
Qed.

(** X13.  [register_user] asks for a name and a token and takes neither
    blank: with a blank name, or a name and a blank token, it prints what is
    missing and returns with every file, the clock and the random source as
    they were; nothing is registered or logged. *)
Theorem register_user_needs_name_and_token
    (f : Fernet) (w : World) (ks : value) (nline : string) (rest : list string) :
  load_keystore_decrypted f w = (Ok ks, w) ->
  stdin w = nline :: rest ->
  (str_strip nline = "" ->
     register_user f w
     = (Ok tt, after_print "Name required."
                 (after_line (after_print "Enter user name (owner/secretary): " w))))
  /\ (forall tline rest',
        str_strip nline <> "" -> rest = tline :: rest' -> str_strip tline = "" ->
        register_user f w
        = (Ok tt, after_print "Fingerprint required."
                    (after_line
                       (after_line (after_print "Enter user name (owner/secretary): " w))))).
Proof.
  intros Hload Hin. rewrite load_keystore_decrypted_spec in Hload.
  assert (Hks : keystore_of f w = Ok ks) by congruence.
  unfold register_user, input, getpass. unfold_monad.
  rewrite load_keystore_decrypted_spec, Hks, print_spec.
  rewrite (read_line_spec nline rest) by exact Hin. split.
  - intros ->. reflexivity.
  - intros tline rest' Hn -> Ht. rewrite (eqb_empty_false _ Hn).
    rewrite (read_line_spec tline rest') by (cbn; now rewrite Hin).
    rewrite Ht. reflexivity.
Qed.

End Edges.

(* ===================================================================== *)
(** ** Users, keys and rotation *)
(* ===================================================================== *)

Section Operations.

Context {cfg : Config} {prim : Primitives} {laws : PrimitiveLaws}.

(** X14.  A master key that does not open the keystore: [register_user] and
    [rotate_algorithm] let the wrong-passphrase error go up to their caller,
    before they prompt or write; [authenticate_user], and with it
    [encrypt_for_user] and [decrypt_for_user], report it and return nobody;
    [show_keystore] and [export_user_key] report it and return.  Nothing is
    written or logged by any of them. *)
Theorem wrong_master_key_by_operation (f : Fernet) (username : string) (w : World) :
  load_keystore_decrypted f w = (Raise wrong_passphrase, w) ->
  let failed :=
    after_print
      "Keystore unlock failed: Master passphrase doesn't match stored keystore." w in
  let refused :=
    after_print "Cannot unlock keystore with provided passphrase." w in
  register_user f w = (Raise wrong_passphrase, w)
  /\ rotate_algorithm f w = (Raise wrong_passphrase, w)
  /\ authenticate_user f w = (Ok None, failed)
  /\ encrypt_for_user f w = (Ok tt, failed)
  /\ decrypt_for_user f w = (Ok tt, failed)
  /\ show_keystore f w = (Ok tt, refused)
  /\ export_user_key f username w = (Ok tt, refused).
Proof.
  intros Hload failed refused.
  assert (Hauth : authenticate_user f w = (Ok None, failed)).
  { unfold authenticate_user. unfold_monad. now rewrite Hload. }
  repeat split.
  - unfold register_user. unfold_monad. now rewrite Hload.
  - unfold rotate_algorithm. unfold_monad. now rewrite Hload.
  - exact Hauth.
  - unfold encrypt_for_user. unfold_monad. now rewrite Hauth.
  - unfold decrypt_for_user. unfold_monad. now rewrite Hauth.
  - unfold show_keystore. unfold_monad. now rewrite Hload.
  - unfold export_user_key. unfold_monad. now rewrite Hload.
Qed.

(** X15.  [_get_raw_key_for_user] on a keystore that is a dict: with no
    [keys] field or no record for the user it returns [None] and raises
    nothing; it returns a key exactly when the user's record has an
    [enc_key] that is a non-empty string and decodes as base64, and the key
    is what it decodes to.  A string that does not decode gives [None], not
    an error. *)
Theorem raw_key_of_user_cases (d : dict) (user : string) :
  (dict_get "keys" d = None -> _get_raw_key_for_user (VDict d) user = Ok None)
  /\ (forall ksd, dict_get "keys" d = Some (VDict ksd) -> dict_get user ksd = None ->
        _get_raw_key_for_user (VDict d) user = Ok None)
  /\ (forall ksd entry s e,
        dict_get "keys" d = Some (VDict ksd) ->
        dict_get user ksd = Some (VDict entry) ->
        dict_get "enc_key" entry = Some (VStr s) ->
        Base64.b64decode s = Raise e ->
        _get_raw_key_for_user (VDict d) user = Ok None)
  /\ (forall ksd raw,
        dict_get "keys" d = Some (VDict ksd) ->
        (_get_raw_key_for_user (VDict d) user = Ok (Some raw)
         <-> exists entry s,
               dict_get user ksd = Some entry
               /\ py_get1 entry "enc_key" = Ok (VStr s)
               /\ s <> "" /\ Base64.b64decode s = Ok raw)).
Proof.
  unfold _get_raw_key_for_user, py_get1. unfold_monad. cbn [py_get].
  split; [now intros ->|].
  split; [intros ksd -> Hu; cbn [py_get]; now rewrite Hu|].
  split.
  { intros ksd entry s e -> Hu He Hd. cbn [py_get]. rewrite Hu.
    destruct entry as [|kv entry']; [discriminate|]. cbn [truthy negb py_get].
    rewrite He. cbn [truthy b64decode_value]. rewrite Hd.
    now destruct (negb (negb (String.eqb s ""))). }
  intros ksd raw ->. cbn [py_get]. split.
  - destruct (dict_get user ksd) as [entry|]; [|discriminate].
    destruct (truthy entry) eqn:Ht; [|discriminate]. cbn [negb].
    destruct (py_get entry "enc_key" VNone) as [enc|e] eqn:Hg; [|discriminate].
    destruct (truthy enc) eqn:Ht'; [|discriminate]. cbn [negb].
    destruct enc as [| | |s| |]; cbn [b64decode_value]; try discriminate.
    destruct (Base64.b64decode s) as [raw'|e] eqn:Hd; [|discriminate].
    intros [= <-]. exists entry, s. repeat split; auto.
    intros ->. discriminate.
  - intros (entry & s & -> & Hg & Hs & Hd).
    destruct entry as [| | | | |ed]; try discriminate.
    cbn [py_get] in *. injection Hg as Hg.
    assert (Hne : ed <> []) by (intros ->; cbn in Hg; discriminate).
    destruct ed as [|kv ed']; [contradiction|]. cbn [truthy negb].
    rewrite Hg. cbn [truthy b64decode_value].
    rewrite (eqb_empty_false _ Hs). cbn [negb]. now rewrite Hd.
Qed.

Lemma registered_raw_key d us ksd name fp_h created raw_key created' :
  raw_key <> [] ->
  _get_raw_key_for_user
    (VDict (registered d us ksd name fp_h created raw_key created')) name
  = Ok (Some raw_key).
Proof.
  intros Hne. unfold _get_raw_key_for_user, py_get1, registered. unfold_monad.
  cbn [py_get]. rewrite dict_get_set_eq. cbn [py_get]. rewrite dict_get_set_eq.
  unfold key_record. cbn [truthy negb py_get dict_get String.eqb Ascii.eqb Bool.eqb].
  cbn [truthy b64decode_value].
  rewrite Base64Facts.b64decode_b64encode.
  destruct raw_key as [|b0 raw']; [contradiction|].
  assert (Hs : String.eqb (string_of_list_byte (Base64.b64encode (b0 :: raw'))) ""
               = false).
  { unfold Base64.b64encode. destruct raw' as [|b1 [|b2 r]]; reflexivity. }
  now rewrite Hs.
Qed.

(** X16.  The key [register_user] stores is the key [_get_raw_key_for_user]
    finds: after a registration, of a new user or of one registered before,
    the keystore gives for that name the 32 bytes that were drawn from the
    random source, through the base64 of [enc_key] and back. *)
Theorem registered_key_is_recovered
    (f : Fernet) (w : World) (d us ksd : dict) (nline tline : string)
    (rest : list string) :
  List.length (fernet_key f) = 32%nat ->
  load_keystore_decrypted f w = (Ok (VDict d), w) ->
  dict_get "users" d = Some (VDict us) ->
  dict_get "keys" d = Some (VDict ksd) ->
  (dict_get (str_strip nline) ksd = None
   \/ exists old, dict_get (str_strip nline) ksd = Some (VDict old)) ->
  stdin w = nline :: tline :: rest ->
  str_strip nline <> "" -> str_strip tline <> "" ->
  exists w' ks' raw_key w0,
    register_user f w = (Ok tt, w')
    /\ load_keystore_decrypted f w' = (Ok ks', w')
    /\ token_bytes 32 w = (Ok raw_key, w0)
    /\ List.length raw_key = 32%nat
    /\ _get_raw_key_for_user ks' (str_strip nline) = Ok (Some raw_key).
Proof.
  intros Hk Hload Hus Hkeys Hold Hin Hn Ht.
  rewrite load_keystore_decrypted_spec in Hload.
  assert (Hks : keystore_of f w = Ok (VDict d)) by congruence.
  assert (Hwf : wf (VDict d) = true) by (eapply keystore_of_wf; eauto).
  destruct (keystore_of_after_register f w d us ksd Hk Hwf Hus Hkeys)
    as (created & created' & Hafter).
  rewrite Hin in Hafter. cbn [nth] in Hafter.
  eexists (after_register f d us ksd w), _, (map (entropy w) (seq 0 32)), _.
  split; [now apply (register_user_spec f w d us ksd nline tline rest)|].
  split; [rewrite load_keystore_decrypted_spec; f_equal; exact Hafter|].
  split; [apply token_bytes_spec|].
  split; [apply length_token_bytes|].
  apply registered_raw_key. intros H. apply (f_equal (@List.length byte)) in H.
  rewrite length_token_bytes in H. discriminate.
Qed.

(** X17.  Two users registered with the same token: [authenticate_user]
    returns the one registered first, whoever types the token; the second can
    never authenticate. *)
Theorem shared_token_first_user_wins
    (f : Fernet) (w : World) (a : string) (algos : list string)
    (n1 t1 n2 t2 t : string) (rest : list string) :
  List.length (fernet_key f) = 32%nat ->
  files w KEYSTORE_PATH = None ->
  ALGORITHMS = a :: algos ->
  stdin w = n1 :: t1 :: n2 :: t2 :: t :: rest ->
  str_strip n1 <> "" -> str_strip t1 <> "" -> str_strip n2 <> "" ->
  str_strip n1 <> str_strip n2 ->
  str_strip t2 = str_strip t1 -> str_strip t = str_strip t1 ->
  exists w',
    (init_first_time f;; register_user f;; register_user f;; authenticate_user f) w
    = (Ok (Some (str_strip n1)), w').
Proof.
  intros Hk Hf Ha Hin Hn1 Ht1 Hn2 Hnn Ht2 Ht.
  assert (Ht2' : str_strip t2 <> "") by congruence.
  assert (Ht' : str_strip t <> "") by congruence.
  set (fresh := [("users", VDict []); ("keys", VDict []);
                 ("current_algo", VStr a); ("rotation_history", VList [])]).
  set (w0 := after_audit "INIT keystore" (after_save (VDict fresh) f w)).
  assert (Hks0 : keystore_of f w0 = Ok (VDict fresh)).
  { unfold w0. change (keystore_of f (after_audit ?e ?w')) with (keystore_of f w').
    now apply keystore_of_after_save. }
  assert (Hin0 : stdin w0 = n1 :: t1 :: n2 :: t2 :: t :: rest) by exact Hin.
  set (w1 := after_register f fresh [] [] w0).
  assert (Hreg1 : register_user f w0 = (Ok tt, w1)).
  { unfold w1.
    apply (register_user_spec f w0 fresh [] [] n1 t1 (n2 :: t2 :: t :: rest)
             Hks0 eq_refl eq_refl (or_introl eq_refl) Hin0 Hn1 Ht1). }
  destruct (keystore_of_after_register f w0 fresh [] [] Hk eq_refl eq_refl eq_refl)
    as (c1 & c1' & Hks1).
  fold w1 in Hks1. rewrite Hin0 in Hks1. cbn [nth] in Hks1.
  set (d1 := registered fresh [] [] (str_strip n1) (hash_fp (str_strip t1)) c1
               (map (entropy w0) (seq 0 32)) c1') in Hks1.
  set (us1 := dict_set (str_strip n1) (user_record (hash_fp (str_strip t1)) c1) []).
  set (ksd1 := dict_set (str_strip n1)
                 (key_record (map (entropy w0) (seq 0 32))
                    (kept_history [] (str_strip n1)) c1') []).
  assert (Hus1 : dict_get "users" d1 = Some (VDict us1)) by reflexivity.
  assert (Hkeys1 : dict_get "keys" d1 = Some (VDict ksd1)) by reflexivity.
  assert (Hin1 : stdin w1 = n2 :: t2 :: t :: rest).
  { unfold w1. now rewrite stdin_after_register, Hin0. }
  assert (Hwf1 : wf (VDict d1) = true) by (eapply keystore_of_wf; eauto).
  set (w2 := after_register f d1 us1 ksd1 w1).
  assert (Hold2 : dict_get (str_strip n2) ksd1 = None).
  { unfold ksd1. cbn [dict_get dict_set].
    destruct (String.eqb_spec (str_strip n2) (str_strip n1)); [congruence|reflexivity]. }
  assert (Hreg2 : register_user f w1 = (Ok tt, w2)).
  { unfold w2.
    apply (register_user_spec f w1 d1 us1 ksd1 n2 t2 (t :: rest)
             Hks1 Hus1 Hkeys1 (or_introl Hold2) Hin1 Hn2 Ht2'). }
  destruct (keystore_of_after_register f w1 d1 us1 ksd1 Hk Hwf1 Hus1 Hkeys1)
    as (c2 & c2' & Hks2).
  fold w2 in Hks2. rewrite Hin1 in Hks2. cbn [nth] in Hks2.
  assert (Hin2 : stdin w2 = t :: rest).
  { unfold w2. now rewrite stdin_after_register, Hin1. }
  set (rec1 := user_record (hash_fp (str_strip t1)) c1).
  set (rec2 := user_record (hash_fp (str_strip t2)) c2).
  assert (Hitems :
            (users ← py_get (VDict (registered d1 us1 ksd1 (str_strip n2)
                                       (hash_fp (str_strip t2)) c2
                                       (map (entropy w1) (seq 0 32)) c2'))
                        "users" (VDict []);
             py_items users)
            = Ok ([] ++ (str_strip n1, rec1) :: [(str_strip n2, rec2)])).
  { unfold registered. unfold_monad. cbn [py_get].
    rewrite dict_get_set_ne by discriminate. rewrite dict_get_set_eq.
    cbn [py_items]. unfold us1. cbn [dict_set].
    destruct (String.eqb_spec (str_strip n2) (str_strip n1)); [congruence|].
    reflexivity. }
  unfold_monad. rewrite (init_first_time_spec f w a algos Hf Ha).
  fold fresh. fold w0. rewrite Hreg1, Hreg2.
  eexists.
  apply (authenticate_user_match f w2 _ [] (str_strip n1) rec1
           [(str_strip n2, rec2)] t rest Hks2 Hitems Hin2 Ht').
  - constructor.
  - constructor.
  - rewrite Ht. reflexivity.
Qed.

End Operations.

(* ===================================================================== *)
(** ** Encrypting and decrypting for a user *)
(* ===================================================================== *)

Section Flows.

Context {cfg : Config} {prim : Primitives} {laws : PrimitiveLaws}.

Lemma files_after_print s w : files (after_print s w) = files w.
Proof. reflexivity. Qed.

Lemma files_after_line w : files (after_line w) = files w.
Proof. reflexivity. Qed.

Lemma encrypt_for_user_stored f w w1 ks user current raw_key pline rest ct w2 :
  authenticate_user f w = (Ok (Some user), w1) ->
  user <> "" ->
  keystore_of f w1 = Ok ks ->
  get_current_algo ks = Ok current ->
  _get_raw_key_for_user ks user = Ok (Some raw_key) ->
  raw_key <> [] ->
  stdin w1 = pline :: rest ->
  encrypt_dispatch current raw_key pline (after_line (after_print encrypt_prompt w1))
  = (Ok (Some ct), w2) ->
  encrypt_for_user f w = (Ok tt, after_stored user current ct w2).
Proof.
  intros Hauth Hu Hks Hcur Hkey Hne Hin Henc.
  unfold encrypt_for_user, input. unfold_monad. rewrite Hauth.
  destruct user as [|c0 user0]; [contradiction|].
  rewrite load_keystore_decrypted_spec, Hks, Hcur, Hkey.
  destruct raw_key as [|b0 raw0]; [contradiction|].
  rewrite print_spec. fold encrypt_prompt.
  rewrite (read_line_spec pline rest) by exact Hin.
  rewrite Henc.
  rewrite atomic_write_spec, append_audit_spec, print_spec. reflexivity.
Qed.

Lemma decrypt_for_user_last_file f w w1 ks user current raw_key cline rest content s :
  authenticate_user f w = (Ok (Some user), w1) ->
  user <> "" ->
  keystore_of f w1 = Ok ks ->
  get_current_algo ks = Ok current ->
  _get_raw_key_for_user ks user = Ok (Some raw_key) ->
  raw_key <> [] ->
  stdin w1 = cline :: rest ->
  str_strip cline = "" ->
  files w1 (last_cipher user) = Some content ->
  Utf8.decode content = Ok s ->
  decrypt_for_user f w =
  (Ok tt,
   after_decrypt user current (decrypt_dispatch current raw_key (str_strip s))
     (after_line (after_print paste_prompt w1))).
Proof.
  intros Hauth Hu Hks Hcur Hkey Hne Hin Hc Hfile Hdec.
  unfold decrypt_for_user, input. unfold_monad. rewrite Hauth.
  destruct user as [|c0 user0]; [contradiction|].
  rewrite load_keystore_decrypted_spec, Hks, Hcur, Hkey.
  destruct raw_key as [|b0 raw0]; [contradiction|].
  rewrite print_spec. fold paste_prompt.
  rewrite (read_line_spec cline rest) by exact Hin.
  rewrite Hc. cbn [String.eqb].
  unfold path_exists, read_text, read_bytes. unfold_monad.
  cbn [files after_line after_print set_stdin set_stdout].
  rewrite Hfile. cbn [negb]. rewrite files_after_line, files_after_print, Hfile, Hdec.
  unfold after_decrypt.
  destruct (decrypt_dispatch current (b0 :: raw0) (str_strip s)) as [[pt|]|e].
  - rewrite append_audit_spec, !print_spec. reflexivity.
  - rewrite print_spec. reflexivity.
  - destruct (is_InvalidToken e).
    + rewrite print_spec, append_audit_spec. reflexivity.
    + rewrite print_spec, append_audit_spec. reflexivity.
Qed.

Lemma decrypt_for_user_no_file f w w1 ks user current raw_key cline rest :
  authenticate_user f w = (Ok (Some user), w1) ->
  user <> "" ->
  keystore_of f w1 = Ok ks ->
  get_current_algo ks = Ok current ->
  _get_raw_key_for_user ks user = Ok (Some raw_key) ->
  raw_key <> [] ->
  stdin w1 = cline :: rest ->
  str_strip cline = "" ->
  files w1 (last_cipher user) = None ->
  decrypt_for_user f w =
  (Ok tt, after_print "No ciphertext available."
            (after_line (after_print paste_prompt w1))).
Proof.
  intros Hauth Hu Hks Hcur Hkey Hne Hin Hc Hfile.
  unfold decrypt_for_user, input. unfold_monad. rewrite Hauth.
  destruct user as [|c0 user0]; [contradiction|].
  rewrite load_keystore_decrypted_spec, Hks, Hcur, Hkey.
  destruct raw_key as [|b0 raw0]; [contradiction|].
  rewrite print_spec. fold paste_prompt.
  rewrite (read_line_spec cline rest) by exact Hin.
  rewrite Hc. cbn [String.eqb].
  unfold path_exists. unfold_monad.
  cbn [files after_line after_print set_stdin set_stdout].
  rewrite Hfile. cbn [negb]. rewrite print_spec. reflexivity.
Qed.

(** What the steps of the two flows leave of the terminal, of the keystore
    and of the audit log. *)
Lemma stdout_after_atomic_write p data w :
  stdout (after_atomic_write p data w) = stdout w.
Proof. reflexivity. Qed.

Lemma stdin_after_atomic_write p data w :
  stdin (after_atomic_write p data w) = stdin w.
Proof. reflexivity. Qed.

Lemma keystore_of_after_cipher_write f user ct w :
  keystore_of f (after_atomic_write (last_cipher user) ct w) = keystore_of f w.
Proof.
  unfold keystore_of. now rewrite files_after_atomic_write_other by discriminate.
Qed.

Lemma audit_bytes_after_cipher_write user ct w :
  audit_bytes (after_atomic_write (last_cipher user) ct w) = audit_bytes w.
Proof.
  unfold audit_bytes. now rewrite files_after_atomic_write_other by discriminate.
Qed.

Lemma audit_bytes_after_audit entry w :
  audit_bytes (after_audit entry w)
  = audit_bytes w ++ Utf8.encode (audit_line entry w).
Proof.
  unfold audit_bytes at 1, after_audit. cbn [files set_files]. unfold update.
  destruct (decide (AUDIT_LOG = AUDIT_LOG)); [reflexivity|congruence].
Qed.

Lemma audit_bytes_after_print s w : audit_bytes (after_print s w) = audit_bytes w.
Proof. reflexivity. Qed.

Lemma audit_bytes_after_line w : audit_bytes (after_line w) = audit_bytes w.
Proof. reflexivity. Qed.

Lemma files_after_audit_other entry w p :
  p <> AUDIT_LOG -> files (after_audit entry w) p = files w p.
Proof.
  intros Hp. unfold after_audit. cbn [files set_files]. unfold update.
  destruct (decide (p = AUDIT_LOG)); [contradiction|reflexivity].
Qed.

(** Under either algorithm of the program the dispatch encrypts, what it
    makes decrypts to the text, and is printable with no blank; only the
    clock and the random source are used. *)
Lemma encrypt_dispatch_supported A k pline w0 :
  List.length k = 32%nat -> Utf8.text pline ->
  A = "fernet" \/ A = "chacha20" ->
  exists ct w0',
    encrypt_dispatch (VStr A) k pline w0 = (Ok (Some ct), w0')
    /\ decrypt_dispatch (VStr A) k ct = Ok (Some pline)
    /\ forallb Utf8.is_graphic (Utf8.encode ct) = true
    /\ files w0' = files w0 /\ stdin w0' = stdin w0 /\ stdout w0' = stdout w0.
Proof.
  intros Hk Ht [->| ->]; unfold encrypt_dispatch, decrypt_dispatch;
    cbn [eq_str String.eqb Ascii.eqb Bool.eqb]; unfold_monad.
  - rewrite fernet_encrypt_spec by exact Hk.
    exists (fernet_ciphertext k pline w0), (after_encrypt w0).
    split; [reflexivity|]. rewrite fernet_round_trip by assumption.
    split; [reflexivity|]. split; [|auto].
    unfold fernet_ciphertext. rewrite Utf8Facts.encode_string_of.
    apply fernet_token_graphic.
  - rewrite chacha_encrypt_spec by exact Hk.
    exists (chacha_ciphertext k pline w0), (after_random 12 w0).
    split; [reflexivity|]. rewrite chacha_round_trip by assumption.
    split; [reflexivity|]. split; [|auto].
    unfold chacha_ciphertext. rewrite Utf8Facts.encode_string_of.
    apply Base64Facts.b64encode_graphic.
Qed.

Lemma encrypt_for_user_authenticated
    (f : Fernet) (w : World) (d pre post : dict) (user : string) (info : value)
    (A : string) (k : bytes) (tline pline : string) (rest : list string) :
  load_keystore_decrypted f w = (Ok (VDict d), w) ->
  get_current_algo (VDict d) = Ok (VStr A) ->
  A = "fernet" \/ A = "chacha20" ->
  (users ← py_get (VDict d) "users" (VDict []); py_items users)
  = Ok (pre ++ (user, info) :: post) ->
  Forall is_record pre ->
  Forall (no_match (hash_fp (str_strip tline))) pre ->
  py_get1 info "fp_hash" = Ok (VStr (hash_fp (str_strip tline))) ->
  user <> "" ->
  _get_raw_key_for_user (VDict d) user = Ok (Some k) ->
  List.length k = 32%nat ->
  stdin w = tline :: pline :: rest ->
  str_strip tline <> "" ->
  Utf8.text pline ->
  exists w' ct t1 t2,
    encrypt_for_user f w = (Ok tt, w')
    /\ files w' (last_cipher user) = Some (Utf8.encode ct)
    /\ decrypt_dispatch (VStr A) k ct = Ok (Some pline)
    /\ forallb Utf8.is_graphic (Utf8.encode ct) = true
    /\ files w' KEYSTORE_PATH = files w KEYSTORE_PATH
    /\ files w' AUDIT_LOG
       = Some (audit_bytes w
               ++ Utf8.encode (t1 +:+ " " +:+ ("AUTH success user=" +:+ user) +:+ nl)
               ++ Utf8.encode (t2 +:+ " "
                               +:+ ("ENCRYPT success user=" +:+ user
                                    +:+ " algo=" +:+ py_str (VStr A)) +:+ nl))
    /\ stdout w' = stdout w ++ ["Enter text to encrypt: "; "Encrypted text saved."]
    /\ stdin w' = rest.
Proof.
  intros Hload Hcur HA Hitems Hrec Hno Hm Hu Hkey Hklen Hin Ht Htext.
  rewrite load_keystore_decrypted_spec in Hload.
  assert (Hks : keystore_of f w = Ok (VDict d)) by congruence.
  pose proof (authenticate_user_match f w (VDict d) pre user info post tline
                (pline :: rest) Hks Hitems Hin Ht Hrec Hno Hm) as Hauth.
  set (w1 := after_auth_success user w) in *.
  assert (Hks1 : keystore_of f w1 = Ok (VDict d)).
  { unfold w1, after_auth_success. now autorewrite with world. }
  assert (Hin1 : stdin w1 = pline :: rest).
  { unfold w1, after_auth_success. autorewrite with world. now rewrite Hin. }
  assert (Hkne : k <> []) by (intros ->; discriminate).
  set (w0 := after_line (after_print encrypt_prompt w1)).
  destruct (encrypt_dispatch_supported A k pline w0 Hklen Htext HA)
    as (ct & w0' & Henc & Hdec & Hgr & Hfiles & Hstdin & Hstdout).
  pose proof (encrypt_for_user_stored f w w1 (VDict d) user (VStr A) k pline rest ct w0'
                Hauth Hu Hks1 Hcur Hkey Hkne Hin1 Henc) as Hrun.
  exists (after_stored user (VStr A) ct w0'), ct,
         (isoformat (clock (after_line w) 0%nat) +:+ "Z"),
         (isoformat (clock (after_atomic_write (last_cipher user) ct w0') 0%nat) +:+ "Z").
  split; [exact Hrun|]. unfold after_stored.
  split.
  { rewrite files_after_print, files_after_audit_other by discriminate.
    now apply files_after_atomic_write. }
  split; [exact Hdec|]. split; [exact Hgr|].
  split.
  { rewrite files_after_print, files_after_audit_other by discriminate.
    rewrite files_after_atomic_write_other by discriminate.
    rewrite Hfiles. unfold w0. rewrite files_after_line, files_after_print.
    unfold w1, after_auth_success.
    rewrite files_after_audit_other by discriminate. now rewrite files_after_line. }
  split.
  { rewrite files_after_print. unfold after_audit at 1. cbn [files set_files].
    unfold update at 1. destruct (decide (AUDIT_LOG = AUDIT_LOG)); [|congruence].
    f_equal. rewrite audit_bytes_after_cipher_write.
    unfold audit_bytes at 1. rewrite Hfiles. fold (audit_bytes w0).
    unfold w0. rewrite audit_bytes_after_line, audit_bytes_after_print.
    unfold w1, after_auth_success. rewrite audit_bytes_after_audit.
    rewrite audit_bytes_after_line, <- app_assoc. reflexivity. }
  split.
  { rewrite stdout_after_print, stdout_after_audit, stdout_after_atomic_write, Hstdout.
    unfold w0. rewrite stdout_after_line, stdout_after_print.
    unfold w1, after_auth_success. rewrite stdout_after_audit, stdout_after_line.
    now rewrite <- app_assoc. }
  rewrite stdin_after_print, stdin_after_audit, stdin_after_atomic_write, Hstdin.
  unfold w0. rewrite stdin_after_line, stdin_after_print, Hin1. reflexivity.
Qed.



(** X20.  Without authentication nothing is encrypted or decrypted: when
    the token typed matches no stored hash, [encrypt_for_user] and
    [decrypt_for_user] end where [authenticate_user] ended.  They ask for no
    text, read one line only, print "Authentication failed." and touch no
    file but the audit log. *)
Theorem unauthenticated_user_gets_nothing
    (f : Fernet) (w : World) (ks : value) (items : dict)
    (line : string) (rest : list string) :
  load_keystore_decrypted f w = (Ok ks, w) ->
  (users ← py_get ks "users" (VDict []); py_items users) = Ok items ->
  Forall is_record items ->
  Forall (no_match (hash_fp (str_strip line))) items ->
  stdin w = line :: rest ->
  str_strip line <> "" ->
  exists w',
    encrypt_for_user f w = (Ok tt, w')
    /\ decrypt_for_user f w = (Ok tt, w')
    /\ stdout w' = stdout w ++ ["Authentication failed."]
    /\ stdin w' = rest
    /\ (forall p, p <> AUDIT_LOG -> files w' p = files w p).
Proof.
  intros Hload Hitems Hrec Hno Hin Hne.
  rewrite load_keystore_decrypted_spec in Hload.
  assert (Hks : keystore_of f w = Ok ks) by congruence.
  pose proof (authenticate_user_no_match f w ks items line rest Hks Hitems Hin Hne
                Hrec Hno) as Hauth.
  exists (after_auth_failed w).
  split; [unfold encrypt_for_user; unfold_monad; now rewrite Hauth|].
  split; [unfold decrypt_for_user; unfold_monad; now rewrite Hauth|].
  unfold after_auth_failed. split; [reflexivity|].
  split; [autorewrite with world; now rewrite Hin|].
  intros p Hp. rewrite files_after_print, files_after_audit_other by exact Hp.
  now rewrite files_after_line.
Qed.

(** X21.  A user who authenticates but has no usable key record, none at
    all or one whose key is empty: [encrypt_for_user] and [decrypt_for_user]
    print "No key for this user." and return, without asking for a text or a
    ciphertext. *)
Theorem no_key_for_authenticated_user
    (f : Fernet) (w w1 : World) (ks current : value) (user : string)
    (raw_key : option bytes) :
  authenticate_user f w = (Ok (Some user), w1) ->
  user <> "" ->
  load_keystore_decrypted f w1 = (Ok ks, w1) ->
  get_current_algo ks = Ok current ->
  _get_raw_key_for_user ks user = Ok raw_key ->
  no_key raw_key = true ->
  encrypt_for_user f w = (Ok tt, after_print "No key for this user." w1)
  /\ decrypt_for_user f w = (Ok tt, after_print "No key for this user." w1).
Proof.
  intros Hauth Hu Hload Hcur Hkey Hno.
  rewrite load_keystore_decrypted_spec in Hload.
  assert (Hks : keystore_of f w1 = Ok ks) by congruence.
  destruct user as [|c0 user0]; [contradiction|].
  split.
  - unfold encrypt_for_user. unfold_monad.
    rewrite Hauth, load_keystore_decrypted_spec, Hks, Hcur, Hkey.
    destruct raw_key as [[|b0 raw0]|]; [| discriminate |]; now rewrite print_spec.
  - unfold decrypt_for_user. unfold_monad.
    rewrite Hauth, load_keystore_decrypted_spec, Hks, Hcur, Hkey.
    destruct raw_key as [[|b0 raw0]|]; [| discriminate |]; now rewrite print_spec.
Qed.


End Flows.

(* ===================================================================== *)
(** ** The admin utilities and the audit view *)
(* ===================================================================== *)

Lemma dict_set_fresh k v d : dict_get k d = None -> dict_set k v d = d ++ [(k, v)].
Proof.
  induction d as [|[k' v'] d IH]; [reflexivity|]. cbn [dict_get dict_set app].
  destruct (String.eqb k k'); [discriminate|]. intros H. now rewrite IH.
Qed.

Lemma dict_get_app_fresh k d k' v :
  dict_get k d = None -> k <> k' -> dict_get k (d ++ [(k', v)]) = None.
Proof.
  intros Hd Hne. induction d as [|[k0 v0] d IH]; cbn [dict_get app] in *.
  - now rewrite (proj2 (String.eqb_neq k k')).
  - destruct (String.eqb k k0); [discriminate|]. auto.
Qed.

Lemma summary_users_spec items acc :
  Forall is_record items ->
  unique_keys items = true ->
  (forall k v, In (k, v) items -> dict_get k acc = None) ->
  summary_users items acc = Ok (acc ++ map summary_entry items).
Proof.
  revert acc. induction items as [|[u info] items IH]; intros acc Hrec Huniq Hacc.
  - cbn. now rewrite app_nil_r.
  - inversion Hrec as [|? ? [i Hi] Hrec']; subst. cbn in Hi. subst info.
    cbn [unique_keys] in Huniq.
    destruct (dict_get u items) eqn:Hu; [discriminate|].
    cbn [summary_users]. unfold py_get1. unfold_monad. cbn [py_get].
    rewrite dict_set_fresh by (apply (Hacc u (VDict i)); now left).
    rewrite IH; [| exact Hrec' | exact Huniq |].
    + rewrite <- app_assoc. reflexivity.
    + intros k v Hin. apply dict_get_app_fresh.
      * apply (Hacc k v). now right.
      * intros ->. clear -Hu Hin. induction items as [|[k0 v0] items IH]; [easy|].
        cbn [dict_get] in Hu. destruct (String.eqb_spec u k0) as [->|Hne]; [discriminate|].
        destruct Hin as [[= -> ->]|Hin]; [congruence|auto].
Qed.

Lemma wf_summary items :
  unique_keys items = true ->
  Forall (fun kv => wf (snd kv) = true) items ->
  wf (VDict (map summary_entry items)) = true.
Proof.
  intros Hu Hwf. cbn [wf]. apply andb_true_iff. split.
  - clear Hwf. induction items as [|[k v] items IH]; [reflexivity|].
    cbn [unique_keys map summary_entry fst] in *.
    destruct (dict_get k items) eqn:Hg; [discriminate|].
    assert (Hg' : dict_get k (map summary_entry items) = None).
    { clear -Hg. induction items as [|[k0 v0] items IH]; [reflexivity|].
      cbn [dict_get map summary_entry fst] in *.
      destruct (String.eqb k k0); [discriminate|auto]. }
    rewrite Hg'. auto.
  - apply forallb_forall. intros kv Hin. apply in_map_iff in Hin as ([k v] & <- & Hin).
    rewrite List.Forall_forall in Hwf. specialize (Hwf _ Hin). cbn [snd summary_entry] in *.
    cbn [wf forallb snd]. rewrite andb_true_r. cbn [unique_keys dict_get].
    destruct v as [| | | | |info]; try reflexivity.
    destruct (dict_get "created" info) eqn:Hc; [|reflexivity].
    rewrite (wf_dict_get "created" info v Hwf Hc). reflexivity.
Qed.

Lemma wf_summary_document x a h :
  wf x = true -> wf a = true -> wf h = true ->
  wf (VDict [("users", x); ("current_algo", a); ("rotation_history", h)]) = true.
Proof.
  intros Hx Ha Hh.
  change (true && (wf x && (wf a && (wf h && true))) = true).
  now rewrite Hx, Ha, Hh.
Qed.

Lemma concat_empty_cons x l : String.concat "" (x :: l) = x +:+ String.concat "" l.
Proof.
  destruct l as [|y l]; cbn [String.concat].
  - induction x as [|c x IH]; [reflexivity|].
    change (String c x = String c (x +:+ "")). now f_equal.
  - reflexivity.
Qed.

Lemma concat_empty_app l1 l2 :
  String.concat "" (l1 ++ l2) = String.concat "" l1 +:+ String.concat "" l2.
Proof.
  induction l1 as [|x l1 IH]; [reflexivity|].
  cbn [app]. rewrite !concat_empty_cons, IH.
  induction x as [|c x IHx]; [reflexivity|].
  change (String c (x +:+ String.concat "" l1 +:+ String.concat "" l2)
          = String c ((x +:+ String.concat "" l1) +:+ String.concat "" l2)).
  now f_equal.
Qed.

(** The lines of a text, put together, are the text. *)
Lemma concat_splitlines s : String.concat "" (splitlines s) = s.
Proof.
  induction s as [|c s IH]; [reflexivity|]. cbn [splitlines].
  destruct (Ascii.eqb c LF).
  - rewrite concat_empty_cons, IH. reflexivity.
  - destruct (splitlines s) as [|l ls].
    + cbn in IH. subst s. reflexivity.
    + rewrite concat_empty_cons in *.
      change (String c (l +:+ String.concat "" ls) = String c s). now f_equal.
Qed.

(** The base64 decoder raises nothing but its own error. *)
Lemma a2b_loop_raises l qp lc pads acc e :
  Base64.a2b_loop l qp lc pads acc = Raise e -> exn_cls e = BinasciiError.
Proof.
  revert qp lc pads acc.
  induction l as [|c l IH]; intros qp lc pads acc; cbn [Base64.a2b_loop].
  - destruct qp; [discriminate|]. now intros [= <-].
  - destruct (Byte.eqb c Base64.BASE64_PAD).
    + destruct (2 <=? qp)%nat; [|apply IH].
      destruct (4 <=? _)%N; [discriminate|apply IH].
    + destruct (Base64.a2b_char c); [|apply IH].
      destruct qp as [|[|[|qp]]]; apply IH.
Qed.

Section Admin.

Context {cfg : Config} {prim : Primitives} {laws : PrimitiveLaws}.

(** X23.  [show_keystore] prints a summary and nothing of the secrets: one
    JSON text, which reads back as a document of three fields, the users in
    the keystore's order each with its [created] only (no fingerprint hash),
    [current_algo] and [rotation_history]; the [keys] field, and so every
    raw key, is left out.  No file is touched and nothing is logged. *)
Theorem show_keystore_prints_summary
    (f : Fernet) (w : World) (d us : dict) :
  load_keystore_decrypted f w = (Ok (VDict d), w) ->
  dict_get "users" d = Some (VDict us) ->
  Forall is_record us ->
  exists shown,
    show_keystore f w = (Ok tt, after_print (json_dumps_indent shown) w)
    /\ shown
       = VDict [("users", VDict (map summary_entry us));
                ("current_algo",
                 match dict_get "current_algo" d with Some a => a | None => VNone end);
                ("rotation_history",
                 match dict_get "rotation_history" d with
                 | Some h => h
                 | None => VList []
                 end)]
    /\ json_loads (json_dumps_indent shown) = Some shown.
Proof.
  intros Hload Hus Hrec.
  rewrite load_keystore_decrypted_spec in Hload.
  assert (Hks : keystore_of f w = Ok (VDict d)) by congruence.
  assert (Hwf : wf (VDict d) = true) by (eapply keystore_of_wf; eauto).
  assert (Hwu : wf (VDict us) = true) by exact (wf_dict_get "users" d _ Hwf Hus).
  cbn [wf] in Hwu. apply andb_true_iff in Hwu as [Huniq Hvals].
  rewrite forallb_forall in Hvals. rewrite <- List.Forall_forall in Hvals.
  eexists. split; [|split; [reflexivity|]].
  - unfold show_keystore, py_get1. unfold_monad.
    rewrite load_keystore_decrypted_spec, Hks. cbn [py_get]. rewrite Hus.
    cbn [py_items]. rewrite summary_users_spec by (auto; intros; reflexivity).
    cbn [app]. rewrite print_spec. reflexivity.
  - apply json_loads_dumps_indent. apply wf_summary_document.
    + now apply wf_summary.
    + destruct (dict_get "current_algo" d) as [a|] eqn:Ha; [|reflexivity].
      exact (wf_dict_get "current_algo" d a Hwf Ha).
    + destruct (dict_get "rotation_history" d) as [h|] eqn:Hh; [|reflexivity].
      exact (wf_dict_get "rotation_history" d h Hwf Hh).
Qed.

(** X24.  [export_user_key] asks for no fingerprint: for any user name whose
    keystore record holds a key it prints the key in base64, from which the
    key decodes again, and logs "EXPORT_KEY user=<name>"; for a name with no
    key it prints "No key for user." and logs nothing. *)
Theorem export_user_key_prints_key
    (f : Fernet) (w : World) (ks : value) (username : string) (raw_key : option bytes) :
  load_keystore_decrypted f w = (Ok ks, w) ->
  _get_raw_key_for_user ks username = Ok raw_key ->
  (forall raw, raw_key = Some raw -> raw <> [] ->
     exists shown,
       export_user_key f username w
       = (Ok tt,
          after_audit ("EXPORT_KEY user=" +:+ username)
            (after_print ("Key for " +:+ username +:+ " (base64): " +:+ shown) w))
       /\ Base64.b64decode shown = Ok raw)
  /\ (no_key raw_key = true ->
      export_user_key f username w = (Ok tt, after_print "No key for user." w)).
Proof.
  intros Hload Hkey. rewrite load_keystore_decrypted_spec in Hload.
  assert (Hks : keystore_of f w = Ok ks) by congruence.
  split.
  - intros raw -> Hne. exists (string_of_list_byte (Base64.b64encode raw)).
    split; [|apply Base64Facts.b64decode_b64encode].
    unfold export_user_key. unfold_monad.
    rewrite load_keystore_decrypted_spec, Hks, Hkey.
    destruct raw as [|b0 raw0]; [contradiction|].
    rewrite (Utf8Facts.decode_valid (Base64.b64encode _))
      by apply Utf8Facts.valid_graphic, Base64Facts.b64encode_graphic.
    rewrite print_spec, append_audit_spec. reflexivity.
  - intros Hno. unfold export_user_key. unfold_monad.
    rewrite load_keystore_decrypted_spec, Hks, Hkey.
    destruct raw_key as [[|b0 raw0]|]; [| discriminate |]; now rewrite print_spec.
Qed.

(** X25.  The audit view shows the end of the log and at most 200 lines of
    it: the lines of the log split in two, the second part being the last
    200 lines (all of them when there are no more), and what is printed is
    that second part, as it is in the log; with no log it prints "No audit
    log yet.".  Nothing is changed. *)
Theorem view_audit_log_shows_tail (w : World) :
  (files w AUDIT_LOG = None ->
     view_audit_log w = (Ok tt, after_print "No audit log yet." w))
  /\ (forall log text,
        files w AUDIT_LOG = Some log -> Utf8.decode log = Ok text ->
        exists skipped shown,
          view_audit_log w = (Ok tt, after_print (String.concat "" shown) w)
          /\ splitlines (universal_newlines text) = skipped ++ shown
          /\ List.length shown
             = Nat.min 200 (List.length (splitlines (universal_newlines text)))
          /\ universal_newlines text
             = String.concat "" skipped +:+ String.concat "" shown).
Proof.
  unfold view_audit_log, readlines, read_text, read_bytes, path_exists. unfold_monad.
  split.
  - intros ->. reflexivity.
  - intros log text Hf Hd. rewrite Hf. cbn [negb]. rewrite Hf, Hd.
    set (lines := splitlines (universal_newlines text)).
    exists (take (List.length lines - 200) lines), (last_n 200 lines).
    split; [now rewrite print_spec|]. unfold last_n.
    split; [now rewrite take_drop|].
    split; [rewrite length_drop; lia|].
    rewrite <- concat_empty_app, take_drop. unfold lines.
    now rewrite concat_splitlines.
Qed.

(** X26.  What a failed decryption raises, by algorithm: [fernet_decrypt]
    raises [InvalidToken], or a [ValueError] for a key that is not 32 bytes,
    or a [UnicodeDecodeError] for a plaintext that is not UTF-8, and nothing
    else; [chacha_decrypt] never raises [InvalidToken], so [decrypt_for_user]
    reports every failure under ChaCha20-Poly1305, a wrong key among them,
    as "Decryption error:" and never as an invalid token. *)
Theorem decrypt_error_classes (k : bytes) (ct : string) (e : exn) :
  (fernet_decrypt k ct = Raise e ->
     exn_cls e = InvalidToken
     \/ (exn_cls e = ValueError /\ List.length k <> 32%nat)
     \/ exn_cls e = UnicodeDecodeError)
  /\ (chacha_decrypt k ct = Raise e ->
      is_InvalidToken e = false
      /\ (exn_cls e = InvalidTag \/ exn_cls e = BinasciiError
          \/ exn_cls e = ValueError \/ exn_cls e = UnicodeDecodeError))
  /\ (chacha_decrypt k ct = Raise e ->
      forall user w,
        after_decrypt user (VStr "chacha20") (decrypt_dispatch (VStr "chacha20") k ct) w
        = after_audit ("DECRYPT error user=" +:+ user +:+ " err=" +:+ exn_msg e)
            (after_print ("Decryption error: " +:+ exn_msg e) w)).
Proof.
  assert (Hc : chacha_decrypt k ct = Raise e ->
               is_InvalidToken e = false
               /\ (exn_cls e = InvalidTag \/ exn_cls e = BinasciiError
                   \/ exn_cls e = ValueError \/ exn_cls e = UnicodeDecodeError)).
  { unfold chacha_decrypt, Base64.b64decode, Base64.a2b_base64,
      ChaCha20Poly1305_init, ChaCha20Poly1305_decrypt, Utf8.decode.
    unfold_monad.
    destruct (forallb Utf8.is_ascii (list_byte_of_string ct));
      [|intros [= <-]; cbn; auto 6].
    destruct (Base64.a2b_loop _ 0 0 0 []) as [data|e'] eqn:Hb.
    - destruct (List.length k =? 32)%nat; [|intros [= <-]; cbn; auto 6].
      cbn [aead_key].
      destruct (List.length (take 12 data) =? 12)%nat; [|intros [= <-]; cbn; auto 6].
      destruct (chacha20poly1305_open k (take 12 data) (drop 12 data)) as [pt|];
        [|intros [= <-]; cbn; auto 6].
      destruct (Utf8.valid pt); [discriminate|intros [= <-]; cbn; auto 6].
    - intros [= <-]. apply a2b_loop_raises in Hb.
      unfold is_InvalidToken. rewrite Hb. auto 6. }
  split; [|split; [exact Hc|]].
  - unfold fernet_decrypt, Fernet_init, Fernet_decrypt. unfold_monad.
    rewrite Base64Facts.urlsafe_b64decode_b64encode.
    destruct (List.length k =? 32)%nat eqn:Hk.
    + cbn [fernet_key]. destruct (fernet_open k _) as [pt|]; [|intros [= <-]; auto].
      unfold Utf8.decode. destruct (Utf8.valid pt); [discriminate|intros [= <-]; auto].
    + intros [= <-]. apply Nat.eqb_neq in Hk. auto.
  - intros Hr user w. unfold decrypt_dispatch.
    cbn [eq_str String.eqb Ascii.eqb Bool.eqb]. unfold_monad. rewrite Hr.
    cbn [after_decrypt]. now rewrite (proj1 (Hc Hr)).
Qed.

End Admin.

(* ===================================================================== *)
(** ** Rotation with the two algorithms of the program *)
(* ===================================================================== *)

Section Toggle.

Context {prim : Primitives} {laws : PrimitiveLaws}.

#[local] Existing Instance vault_config.

Lemma chosen_other A w :
  A = "fernet" \/ A = "chacha20" ->
  chosen (rotation_choices (VStr A)) w = other_algorithm A.
Proof. intros [->| ->]; reflexivity. Qed.

Lemma other_algorithm_other A :
  A = "fernet" \/ A = "chacha20" ->
  other_algorithm A <> A
  /\ (other_algorithm A = "fernet" \/ other_algorithm A = "chacha20")
  /\ other_algorithm (other_algorithm A) = A.
Proof. intros [->| ->]; cbn; repeat split; auto; discriminate. Qed.

Lemma rotate_once f w d A :
  List.length (fernet_key f) = 32%nat ->
  keystore_of f w = Ok (VDict d) ->
  history_ok d ->
  get_current_algo (VDict d) = Ok (VStr A) ->
  A = "fernet" \/ A = "chacha20" ->
  exists w' when,
    rotate_algorithm f w = (Ok tt, w')
    /\ keystore_of f w'
       = Ok (VDict (rotated d (VStr A) (other_algorithm A) when))
    /\ stdout w' = stdout w ++ ["Algorithm rotated to " +:+ other_algorithm A]
    /\ stdin w' = stdin w
    /\ forall user, files w' (last_cipher user) = files w (last_cipher user).
Proof.
  intros Hk Hks Hh Hcur HA.
  assert (Hwf : wf (VDict d) = true) by (eapply keystore_of_wf; eauto).
  assert (Hch : rotation_choices (VStr A) <> []) by (destruct HA as [->| ->]; discriminate).
  exists (after_rotation f d (VStr A) w), (isoformat (clock w 0%nat) +:+ "Z").
  split; [now apply rotate_algorithm_success|].
  split.
  { rewrite keystore_of_after_rotation by auto. now rewrite chosen_other. }
  split; [rewrite stdout_after_rotation; now rewrite chosen_other|].
  split; [apply stdin_after_rotation|].
  intros user. unfold after_rotation.
  rewrite files_after_print, files_after_save_other by discriminate.
  rewrite files_after_audit_other by discriminate. reflexivity.
Qed.

(** X27.  With the two algorithms of the program a rotation toggles: from
    "fernet" it goes to "chacha20" and from "chacha20" to "fernet", whatever
    the random source gives, so two rotations bring [current_algo] back; the
    history has two entries more, and the users, the keys and every other
    field are as they were. *)
Theorem rotation_toggles
    (f : Fernet) (w : World) (d : dict) (A : string) :
  List.length (fernet_key f) = 32%nat ->
  load_keystore_decrypted f w = (Ok (VDict d), w) ->
  history_ok d ->
  get_current_algo (VDict d) = Ok (VStr A) ->
  A = "fernet" \/ A = "chacha20" ->
  exists w1 d1 w2 d2,
    rotate_algorithm f w = (Ok tt, w1)
    /\ load_keystore_decrypted f w1 = (Ok (VDict d1), w1)
    /\ dict_get "current_algo" d1 = Some (VStr (other_algorithm A))
    /\ rotate_algorithm f w1 = (Ok tt, w2)
    /\ load_keystore_decrypted f w2 = (Ok (VDict d2), w2)
    /\ dict_get "current_algo" d2 = Some (VStr A)
    /\ List.length (history_of d2) = (2 + List.length (history_of d))%nat
    /\ (forall k, k <> "current_algo" -> k <> "rotation_history" ->
          dict_get k d2 = dict_get k d).
Proof.
  intros Hk Hload Hh Hcur HA.
  rewrite load_keystore_decrypted_spec in Hload.
  assert (Hks : keystore_of f w = Ok (VDict d)) by congruence.
  destruct (other_algorithm_other A HA) as (Hne & HB & Hback).
  destruct (rotate_once f w d A Hk Hks Hh Hcur HA)
    as (w1 & when1 & Hrot1 & Hks1 & _).
  set (d1 := rotated d (VStr A) (other_algorithm A) when1) in *.
  assert (Hh1 : history_ok d1).
  { right. eexists. unfold d1, rotated. apply dict_get_set_eq. }
  assert (Hcur1 : get_current_algo (VDict d1) = Ok (VStr (other_algorithm A)))
    by (unfold d1; eapply rotated_current_algo; eauto).
  destruct (rotate_once f w1 d1 (other_algorithm A) Hk Hks1 Hh1 Hcur1 HB)
    as (w2 & when2 & Hrot2 & Hks2 & _).
  rewrite Hback in Hks2.
  set (d2 := rotated d1 (VStr (other_algorithm A)) A when2) in *.
  exists w1, d1, w2, d2.
  split; [exact Hrot1|].
  split; [rewrite load_keystore_decrypted_spec; now f_equal|].
  split.
  { unfold d1, rotated. rewrite dict_get_set_ne by discriminate. apply dict_get_set_eq. }
  split; [exact Hrot2|].
  split; [rewrite load_keystore_decrypted_spec; now f_equal|].
  split.
  { unfold d2, rotated. rewrite dict_get_set_ne by discriminate. apply dict_get_set_eq. }
  split.
  { unfold d2, rotated, history_of at 1. rewrite dict_get_set_eq.
    rewrite length_app. unfold history_of at 1, d1, rotated.
    rewrite dict_get_set_eq, length_app. cbn. lia. }
  intros k Hk1 Hk2. unfold d2, d1, rotated. now rewrite !dict_get_set_ne.
Qed.


End Toggle.

(* ===================================================================== *)
(** ** The further theorems at work in the model *)
(* ===================================================================== *)

Module ModelStrip.

Lemma graphic_no_space c :
  Utf8.is_graphic (byte_of_ascii c) = true -> Ascii.is_space c = false.
Proof.
  destruct c as [[|] [|] [|] [|] [|] [|] [|] [|]]; vm_compute; congruence.
Qed.

Lemma graphic_string_no_space s :
  forallb Utf8.is_graphic (Utf8.encode s) = true -> no_space s.
Proof.
  unfold Utf8.encode. induction s as [|c s IH]; [easy|].
  cbn [list_byte_of_string forallb no_space]. intros H.
  apply andb_true_iff in H as [Hc Hs]. split; [now apply graphic_no_space|auto].
Qed.

Lemma lstrip_no_space s : no_space s -> Model.lstrip s = s.
Proof.
  destruct s as [|c s]; [reflexivity|]. cbn [no_space Model.lstrip].
  now intros [-> _].
Qed.

Lemma no_space_rev_app s1 s2 :
  no_space s1 -> no_space s2 -> no_space (String.rev_app s1 s2).
Proof.
  revert s2. induction s1 as [|c s1 IH]; intros s2 H1 H2; [exact H2|].
  cbn [no_space String.rev_app] in *. destruct H1 as [Hc H1].
  apply IH; [exact H1|]. cbn [no_space]. now split.
Qed.

Lemma rev_app_rev_app s1 s2 :
  String.rev_app (String.rev_app s1 s2) "" = String.rev_app s2 s1.
Proof.
  revert s2. induction s1 as [|c s1 IH]; intros s2; [reflexivity|].
  cbn [String.rev_app]. now rewrite IH.
Qed.

(** The model's [strip] satisfies what is asked of it. *)
Lemma strip : @StripLaws Model.primitives.
Proof.
  split. intros s H. apply graphic_string_no_space in H.
  change (str_strip s) with (String.rev (Model.lstrip (String.rev (Model.lstrip s)))).
  rewrite (lstrip_no_space s H).
  rewrite lstrip_no_space by (now apply no_space_rev_app).
  unfold String.rev. now rewrite rev_app_rev_app.
Qed.

End ModelStrip.

Lemma with_alice_keystore :
  @keystore_of vault_config Model.primitives Examples.fernet_1 Run.with_alice
  = Ok (VDict Demo.alice_keystore).
Proof. vm_compute. reflexivity. Qed.

Lemma keystore_of_typed {cfg : Config} {prim : Primitives} f lines w :
  keystore_of f (Run.typed lines w) = keystore_of f w.
Proof. reflexivity. Qed.

(** Settles the loading of the keystore in a world made from
    [Run.with_alice] by typing. *)
Ltac load_alice :=
  rewrite load_keystore_decrypted_spec;
  apply (f_equal (fun r => (r, _)));
  rewrite keystore_of_typed; exact with_alice_keystore.

Lemma salt_is_never_rewritten_witness :
  files (snd (@main vault_config Model.primitives 2
                (Run.typed ["correct-horse"; "8"] Demo.salted))) SALT_PATH
  = Some (map (entropy empty_world) (seq 0 16))
  /\ fst (@derive_master_key vault_config Model.primitives "correct-horse"
            (snd (@main vault_config Model.primitives 2
                    (Run.typed ["correct-horse"; "8"] Demo.salted))))
     = fst (@derive_master_key vault_config Model.primitives "correct-horse"
              (Run.typed ["correct-horse"; "8"] Demo.salted)).
Proof.
  apply (@salt_is_never_rewritten vault_config Model.primitives 2
           (Run.typed ["correct-horse"; "8"] Demo.salted)).
  vm_compute. reflexivity.
Defined.

Lemma no_temporary_file_left_witness :
  files (snd (@main vault_config Model.primitives 2
                (Run.typed ["correct-horse"; "8"] empty_world)))
    (with_suffix_tmp KEYSTORE_PATH) = None
  /\ (files (Run.typed ["correct-horse"; "8"] empty_world) KEYSTORE_PATH <> None ->
      files (snd (@main vault_config Model.primitives 2
                    (Run.typed ["correct-horse"; "8"] empty_world))) KEYSTORE_PATH
      <> None).
Proof.
  apply (@no_temporary_file_left vault_config Model.primitives 2
           (Run.typed ["correct-horse"; "8"] empty_world) KEYSTORE_PATH).
  reflexivity.
Defined.

Lemma main_ends_witness :
  (fst (@main vault_config Model.primitives 3
          (Run.typed ["correct-horse"; "8"] empty_world)) = Ok (Some tt)
   \/ exists e, fst (@main vault_config Model.primitives 3
                       (Run.typed ["correct-horse"; "8"] empty_world)) = Raise e)
  /\ @main vault_config Model.primitives 5 (Run.typed ["correct-horse"; "8"] empty_world)
     = @main vault_config Model.primitives 3
         (Run.typed ["correct-horse"; "8"] empty_world).
Proof.
  apply (@main_ends vault_config Model.primitives 3 5
           (Run.typed ["correct-horse"; "8"] empty_world)).
  - cbn. lia.
  - lia.
Defined.


Lemma save_json_atomic_then_load_json_witness :
  exists w',
    (@save_json_atomic Model.primitives KEYSTORE_PATH Examples.fresh_keystore;;
     @load_json Model.primitives KEYSTORE_PATH) empty_world
    = (Ok Examples.fresh_keystore, w')
    /\ files w' KEYSTORE_PATH
       = Some (Utf8.encode (@json_dumps_indent Model.primitives Examples.fresh_keystore)).
Proof.
  apply (@save_json_atomic_then_load_json Model.primitives ModelFacts.laws
           KEYSTORE_PATH Examples.fresh_keystore empty_world); reflexivity.
Defined.

Lemma unlock_master_outcome_witness :
  exists w',
    @unlock_master vault_config Model.primitives (Run.typed [" correct-horse "] empty_world)
    = (Ok (Some {| fernet_key :=
                     @pbkdf2_hmac_sha256 Model.primitives 32
                       (salt_of (Run.typed [" correct-horse "] empty_world))
                       (@KDF_ITERATIONS vault_config)
                       (Utf8.encode (@str_strip Model.primitives " correct-horse ")) |}),
       w')
    /\ files w' SALT_PATH = Some (salt_of (Run.typed [" correct-horse "] empty_world))
    /\ stdin w' = [] /\ stdout w' = stdout (Run.typed [" correct-horse "] empty_world).
Proof.
  apply (proj2 (@unlock_master_outcome vault_config Model.primitives ModelFacts.laws
                  " correct-horse " [] (Run.typed [" correct-horse "] empty_world)
                  eq_refl)).
  vm_compute. discriminate.
Defined.


Lemma init_first_time_idempotent_witness :
  (@init_first_time vault_config Model.primitives Examples.fernet_1;;
   @init_first_time vault_config Model.primitives Examples.fernet_1) empty_world
  = @init_first_time vault_config Model.primitives Examples.fernet_1 empty_world
  /\ (forall w',
        @init_first_time vault_config Model.primitives Examples.fernet_1 empty_world
        = (Ok tt, w') ->
        files w' KEYSTORE_PATH <> None).
Proof.
  exact (@init_first_time_idempotent vault_config Model.primitives ModelFacts.laws
           Examples.fernet_1 empty_world).
Defined.

Lemma register_user_needs_name_and_token_witness :
  @register_user vault_config Model.primitives Examples.fernet_1
    (Run.typed ["   "; "tok"] Run.initialised)
  = (Ok tt,
     after_print "Name required."
       (after_line (after_print "Enter user name (owner/secretary): "
                      (Run.typed ["   "; "tok"] Run.initialised)))).
Proof.
  apply (proj1 (@register_user_needs_name_and_token vault_config Model.primitives
                  Examples.fernet_1 (Run.typed ["   "; "tok"] Run.initialised)
                  Examples.fresh_keystore "   " ["tok"] ltac:(run_load) eq_refl)).
  vm_compute. reflexivity.
Defined.

Lemma wrong_master_key_by_operation_witness :
  @register_user vault_config Model.primitives Examples.fernet_2 Run.initialised
  = (Raise wrong_passphrase, Run.initialised)
  /\ @rotate_algorithm vault_config Model.primitives Examples.fernet_2 Run.initialised
     = (Raise wrong_passphrase, Run.initialised)
  /\ @authenticate_user vault_config Model.primitives Examples.fernet_2 Run.initialised
     = (Ok None,
        after_print
          "Keystore unlock failed: Master passphrase doesn't match stored keystore."
          Run.initialised).
Proof.
  destruct (@wrong_master_key_by_operation vault_config Model.primitives
              Examples.fernet_2 "alice" Run.initialised)
    as (H1 & H2 & H3 & _).
  - rewrite load_keystore_decrypted_spec.
    apply (f_equal (fun r => (r, Run.initialised))). vm_compute. reflexivity.
  - auto.
Defined.

Lemma registered_key_is_recovered_witness :
  exists w' ks' raw_key w0,
    @register_user vault_config Model.primitives Examples.fernet_1
      (Run.typed ["bob"; "tok-b"] Run.with_alice) = (Ok tt, w')
    /\ @load_keystore_decrypted vault_config Model.primitives Examples.fernet_1 w'
       = (Ok ks', w')
    /\ token_bytes 32 (Run.typed ["bob"; "tok-b"] Run.with_alice) = (Ok raw_key, w0)
    /\ List.length raw_key = 32%nat
    /\ _get_raw_key_for_user ks' (@str_strip Model.primitives "bob") = Ok (Some raw_key).
Proof.
  eapply (@registered_key_is_recovered vault_config Model.primitives ModelFacts.laws
            Examples.fernet_1 (Run.typed ["bob"; "tok-b"] Run.with_alice)
            _ _ _ "bob" "tok-b" []).
  - reflexivity.
  - load_alice.
  - reflexivity.
  - reflexivity.
  - left. vm_compute. reflexivity.
  - reflexivity.
  - vm_compute. discriminate.
  - vm_compute. discriminate.
Defined.

Lemma shared_token_first_user_wins_witness :
  exists w',
    (@init_first_time vault_config Model.primitives Examples.fernet_1;;
     @register_user vault_config Model.primitives Examples.fernet_1;;
     @register_user vault_config Model.primitives Examples.fernet_1;;
     @authenticate_user vault_config Model.primitives Examples.fernet_1)
      (Run.typed ["alice"; "tok"; "bob"; "tok"; "tok"] empty_world)
    = (Ok (Some (@str_strip Model.primitives "alice")), w').
Proof.
  apply (@shared_token_first_user_wins vault_config Model.primitives ModelFacts.laws
           Examples.fernet_1
           (Run.typed ["alice"; "tok"; "bob"; "tok"; "tok"] empty_world)
           "fernet" ["chacha20"] "alice" "tok" "bob" "tok" "tok" []).
  - reflexivity.
  - reflexivity.
  - reflexivity.
  - reflexivity.
  - vm_compute. discriminate.
  - vm_compute. discriminate.
  - vm_compute. discriminate.
  - vm_compute. discriminate.
  - reflexivity.
  - reflexivity.
Defined.



Lemma unauthenticated_user_gets_nothing_witness :
  exists w',
    @encrypt_for_user vault_config Model.primitives Examples.fernet_1
      (Run.typed ["tok-999"; "hello"] Run.with_alice) = (Ok tt, w')
    /\ @decrypt_for_user vault_config Model.primitives Examples.fernet_1
         (Run.typed ["tok-999"; "hello"] Run.with_alice) = (Ok tt, w')
    /\ stdout w'
       = stdout (Run.typed ["tok-999"; "hello"] Run.with_alice)
         ++ ["Authentication failed."]
    /\ stdin w' = ["hello"]
    /\ (forall p, p <> AUDIT_LOG ->
          files w' p = files (Run.typed ["tok-999"; "hello"] Run.with_alice) p).
Proof.
  eapply (@unauthenticated_user_gets_nothing vault_config Model.primitives
            Examples.fernet_1
            (Run.typed ["tok-999"; "hello"] Run.with_alice) _ _ "tok-999" ["hello"]).
  - load_alice.
  - vm_compute. reflexivity.
  - repeat constructor. eexists. reflexivity.
  - repeat constructor. vm_compute. discriminate.
  - reflexivity.
  - vm_compute. discriminate.
Defined.

Lemma no_key_for_authenticated_user_witness :
  @encrypt_for_user vault_config Model.primitives Examples.fernet_1
    (Run.typed ["tok-c"] Demo.keyless)
  = (Ok tt, after_print "No key for this user."
              (@after_auth_success Model.primitives "carol"
                 (Run.typed ["tok-c"] Demo.keyless)))
  /\ @decrypt_for_user vault_config Model.primitives Examples.fernet_1
       (Run.typed ["tok-c"] Demo.keyless)
     = (Ok tt, after_print "No key for this user."
                 (@after_auth_success Model.primitives "carol"
                    (Run.typed ["tok-c"] Demo.keyless))).
Proof.
  assert (Hks : @keystore_of vault_config Model.primitives Examples.fernet_1
                  (Run.typed ["tok-c"] Demo.keyless) = Ok Demo.keyless_keystore)
    by (vm_compute; reflexivity).
  apply (@no_key_for_authenticated_user vault_config Model.primitives
           Examples.fernet_1 (Run.typed ["tok-c"] Demo.keyless)
           (@after_auth_success Model.primitives "carol"
              (Run.typed ["tok-c"] Demo.keyless))
           Demo.keyless_keystore (VStr "fernet") "carol" None).
  - apply (@authenticate_user_match vault_config Model.primitives Examples.fernet_1
             (Run.typed ["tok-c"] Demo.keyless) Demo.keyless_keystore
             [] "carol" _ [] "tok-c" [] Hks eq_refl eq_refl).
    + vm_compute. discriminate.
    + constructor.
    + constructor.
    + vm_compute. reflexivity.
  - discriminate.
  - rewrite load_keystore_decrypted_spec.
    apply (f_equal (fun r => (r, _))).
    unfold after_auth_success. autorewrite with world. exact Hks.
  - reflexivity.
  - reflexivity.
  - reflexivity.
Defined.


Lemma show_keystore_prints_summary_witness :
  exists shown,
    @show_keystore vault_config Model.primitives Examples.fernet_1 Run.with_alice
    = (Ok tt, after_print (@json_dumps_indent Model.primitives shown) Run.with_alice)
    /\ shown
       = VDict [("users",
                 VDict [("alice", VDict [("created", VStr "1700000000000002Z")])]);
                ("current_algo", VStr "fernet");
                ("rotation_history", VList [])]
    /\ @json_loads Model.primitives (@json_dumps_indent Model.primitives shown)
       = Some shown.
Proof.
  pose proof (fun d us H1 H2 H3 =>
                @show_keystore_prints_summary vault_config Model.primitives
                  ModelFacts.laws Examples.fernet_1 Run.with_alice d us H1 H2 H3) as H.
  edestruct H as (shown & Hrun & Hshown & Hback).
  - rewrite load_keystore_decrypted_spec.
    apply (f_equal (fun r => (r, _))). exact with_alice_keystore.
  - reflexivity.
  - repeat constructor. eexists. reflexivity.
  - exists shown. split; [exact Hrun|]. split; [|exact Hback].
    rewrite Hshown. reflexivity.
Defined.

Lemma export_user_key_prints_key_witness :
  exists shown,
    @export_user_key vault_config Model.primitives Examples.fernet_1 "alice"
      Run.with_alice
    = (Ok tt,
       @after_audit Model.primitives ("EXPORT_KEY user=" +:+ "alice")
         (after_print ("Key for " +:+ "alice" +:+ " (base64): " +:+ shown)
            Run.with_alice))
    /\ Base64.b64decode shown = Ok Run.alice_key.
Proof.
  pose proof (fun ks H1 H2 =>
                proj1 (@export_user_key_prints_key vault_config Model.primitives
                         Examples.fernet_1 Run.with_alice ks "alice"
                         (Some Run.alice_key) H1 H2)) as H.
  eapply H.
  - rewrite load_keystore_decrypted_spec.
    apply (f_equal (fun r => (r, _))). exact with_alice_keystore.
  - vm_compute. reflexivity.
  - reflexivity.
  - discriminate.
Defined.

Lemma rotation_toggles_witness :
  exists w1 d1 w2 d2,
    @rotate_algorithm vault_config Model.primitives Examples.fernet_1 Run.initialised
    = (Ok tt, w1)
    /\ @load_keystore_decrypted vault_config Model.primitives Examples.fernet_1 w1
       = (Ok (VDict d1), w1)
    /\ dict_get "current_algo" d1 = Some (VStr (other_algorithm "fernet"))
    /\ @rotate_algorithm vault_config Model.primitives Examples.fernet_1 w1 = (Ok tt, w2)
    /\ @load_keystore_decrypted vault_config Model.primitives Examples.fernet_1 w2
       = (Ok (VDict d2), w2)
    /\ dict_get "current_algo" d2 = Some (VStr "fernet")
    /\ List.length (history_of d2)
       = (2 + List.length
                (history_of [("users", VDict []); ("keys", VDict []);
                             ("current_algo", VStr "fernet");
                             ("rotation_history", VList [])]))%nat
    /\ (forall k, k <> "current_algo" -> k <> "rotation_history" ->
          dict_get k d2
          = dict_get k [("users", VDict []); ("keys", VDict []);
                        ("current_algo", VStr "fernet");
                        ("rotation_history", VList [])]).
Proof.
  apply (@rotation_toggles Model.primitives ModelFacts.laws Examples.fernet_1
           Run.initialised
           [("users", VDict []); ("keys", VDict []);
            ("current_algo", VStr "fernet"); ("rotation_history", VList [])]
           "fernet").
  - reflexivity.
  - run_load.
  - right. eexists. reflexivity.
  - reflexivity.
  - now left.
Defined.


Lemma view_audit_log_shows_tail_witness :
  exists skipped shown,
    view_audit_log Run.with_alice = (Ok tt, after_print (String.concat "" shown) Run.with_alice)
    /\ List.length shown = 2%nat
    /\ skipped = @nil string.
Proof.
  destruct (proj2 (view_audit_log_shows_tail Run.with_alice)
              (audit_bytes Run.with_alice)
              (string_of_list_byte (audit_bytes Run.with_alice)))
    as (skipped & shown & Hrun & Hsplit & Hlen & _).
  - vm_compute. reflexivity.
  - vm_compute. reflexivity.
  - exists skipped, shown. split; [exact Hrun|].
    assert (Hall : List.length
                     (splitlines
                        (universal_newlines
                           (string_of_list_byte (audit_bytes Run.with_alice)))) = 2%nat)
      by (vm_compute; reflexivity).
    rewrite Hall in Hlen. cbn in Hlen. split; [exact Hlen|].
    rewrite Hsplit, length_app, Hlen in Hall.
    destruct skipped; [reflexivity|cbn in Hall; lia].
Defined.

Lemma decrypt_error_classes_witness :
  @chacha_decrypt Model.primitives (key_of x02)
    (@chacha_ciphertext Model.primitives (key_of x01) "hello" empty_world)
  = Raise (Exn InvalidTag "")
  /\ is_InvalidToken (Exn InvalidTag "") = false.
Proof.
  assert (H : @chacha_decrypt Model.primitives (key_of x02)
                (@chacha_ciphertext Model.primitives (key_of x01) "hello" empty_world)
              = Raise (Exn InvalidTag "")) by (vm_compute; reflexivity).
  split; [exact H|].
  exact (proj1 (proj1 (proj2 (@decrypt_error_classes Model.primitives (key_of x02)
                                (@chacha_ciphertext Model.primitives (key_of x01) "hello"
                                   empty_world)
                                (Exn InvalidTag ""))) H)).
Defined.
